(** * PyQtChat: streaming chat sessions, history reconciliation, workspace

    A shallow embedding of the session logic of PyQtChat:
    - [core/chat_worker.py]  (module [ChatWorker]): the streaming worker thread;
    - [ui/chat_tab.py]       (module [ChatTab]): one chat tab, its history,
      its worker slot and its message layout;
    - [ui/main_window.py]    (modules [ChatbotApp], [ChatbotAppRest]): the
      list of tabs, titles, import and exit;
    - [utils/export.py]      (module [ChatExport]): the importers of text
      and Markdown files.

    Python objects that are shared by reference live in a [Runtime]: list
    objects (a tab and its worker hold the same history list), thread
    objects (a tab's slot names one of them, older ones stay around) and
    the queue of cross-thread signal emissions waiting for the UI thread.

    Left out because no property below reads them: cost accounting
    (floating point), timestamps, fonts, scrolling and the status label. *)

From Stdlib Require Import ZArith Lia Ascii String.
From stdpp Require Import base list option strings.

Local Open Scope string_scope.
Local Open Scope list_scope.

(** ** Python strings *)

Module Str.

(** Truth value of a [str]: non-empty. *)
Definition truthy (s : string) : bool :=
  match s with EmptyString => false | String _ _ => true end.

(** [str.isspace] on ASCII: TAB..CR, FS..US and the blank. *)
Definition isspace (c : ascii) : bool :=
  let n := nat_of_ascii c in
  ((9 <=? n)%nat && (n <=? 13)%nat) || ((28 <=? n)%nat && (n <=? 32)%nat).

Fixpoint lstrip (s : string) : string :=
  match s with
  | EmptyString => EmptyString
  | String c s' => if isspace c then lstrip s' else s
  end.

Definition rstrip (s : string) : string :=
  String.rev (lstrip (String.rev s)).

Definition strip (s : string) : string := rstrip (lstrip s).

(** [str.lower] on ASCII letters. *)
Definition lower_ascii (c : ascii) : ascii :=
  let n := nat_of_ascii c in
  if ((65 <=? n)%nat && (n <=? 90)%nat) then ascii_of_nat (n + 32) else c.

Fixpoint lower (s : string) : string :=
  match s with
  | EmptyString => EmptyString
  | String c s' => String (lower_ascii c) (lower s')
  end.

(** [needle in hay]. *)
Fixpoint contains (needle hay : string) : bool :=
  String.prefix needle hay
  || match hay with
     | EmptyString => false
     | String _ hay' => contains needle hay'
     end.

(** [any(term in s for term in terms)]. *)
Definition any_in (terms : list string) (s : string) : bool :=
  existsb (fun term => contains term s) terms.

End Str.

(** ** Conversation messages: the dicts of [conversation_history] *)

Module Message.

(** [{"role": .., "content": .., "model": ..}]; [model] is [None] both
    for a dict without the key and for one holding Python's [None]. *)
Record t := mk {
  role : string;
  content : string;
  model : option string;
}.

Definition user (text : string) : t :=
  {| role := "user"; content := text; model := None |}.

Definition assistant (text : string) (m : option string) : t :=
  {| role := "assistant"; content := text; model := m |}.

End Message.

(** ** The completion provider's stream, as [ChatWorker.run] inspects it *)

Module Provider.

(** [choice.delta]: [content] is [None] when the attribute is missing or
    holds [None]. *)
Record Delta := { content : option string }.

(** [delta] is [None] when the attribute is missing or falsy;
    [finish_reason] likewise. *)
Record Choice := {
  delta : option Delta;
  finish_reason : option string;
}.

Record Chunk := { choices : list Choice }.

(** One item pulled from the response stream: an object with [choices],
    a tuple whose elements may have [choices], or anything else. *)
Inductive Item :=
| ItemChunk (c : Chunk)
| ItemTuple (elements : list (option Chunk))
| ItemOther.

(** What the [except] clauses of [run] distinguish; the string is
    [str(e)]. *)
Inductive Fault :=
| ImportError (msg : string)
| OtherException (msg : string).

(** What the provider will deliver to one request: the items, then
    either exhaustion or an exception raised by the next fetch (with no
    items: raised by [completion] itself). *)
Record Response := {
  items : list Item;
  fault : option Fault;
}.

End Provider.

(** ** Signals of a worker *)

Inductive Signal :=
| message_received (chunk : string)
| error_occurred (msg : string)
| finished (finish_reason : string).

(** ** core/chat_worker.py *)

Module ChatWorker.
Import Provider.

(** [QThread] life cycle; [isRunning()] holds from [start()] until
    [run] returns or the thread is terminated. *)
Inductive Phase := Created | Started | Streaming | Finished.

Record t := mk {
  message : string;
  model : option string;
  conversation_history : nat;           (* reference to a list object *)
  current_ai_message : string;
  _should_stop : bool;
  (* the thread and the locals of [run] *)
  phase : Phase;
  submitted : option (list Message.t);  (* completion_args["messages"] *)
  stream : Response;                    (* what is still to come *)
  finish_reason_overall : option string;
}.

(** [ChatWorker(message, model, conversation_history)]; [to_come] is the
    provider's answer to the request this worker will make. *)
Definition __init__ (msg : string) (mdl : option string) (history : nat)
    (to_come : Response) : t :=
  {| message := msg; model := mdl; conversation_history := history;
     current_ai_message := ""; _should_stop := false;
     phase := Created; submitted := None; stream := to_come;
     finish_reason_overall := None |}.

Definition isRunning (w : t) : bool :=
  match phase w with
  | Started | Streaming => true
  | Created | Finished => false
  end.

Definition set_phase (p : Phase) (w : t) : t :=
  mk (message w) (model w) (conversation_history w) (current_ai_message w)
     (_should_stop w) p (submitted w) (stream w) (finish_reason_overall w).

Definition set_should_stop (b : bool) (w : t) : t :=
  mk (message w) (model w) (conversation_history w) (current_ai_message w)
     b (phase w) (submitted w) (stream w) (finish_reason_overall w).

Definition set_stream (r : Response) (w : t) : t :=
  mk (message w) (model w) (conversation_history w) (current_ai_message w)
     (_should_stop w) (phase w) (submitted w) r (finish_reason_overall w).

(** [QThread.start()]. *)
Definition start (w : t) : t :=
  match phase w with
  | Created => set_phase Started w
  | _ => w
  end.

(** Lines 73-84: the part of the item that has [choices]. *)
Definition processed_chunk (item : Item) : option Chunk :=
  match item with
  | ItemChunk c => Some c
  | ItemTuple elements =>
      (fix first (l : list (option Chunk)) : option Chunk :=
         match l with
         | [] => None
         | Some c :: _ => Some c
         | None :: l' => first l'
         end) elements
  | ItemOther => None
  end.

(** Lines 99-105. *)
Definition content_to_emit (choice : Choice) : option string :=
  match delta choice with
  | Some d => content d
  | None => None
  end.

(** Lines 73-118: the body of the loop after the stop check. *)
Definition process (item : Item) (w : t) : t * list Signal :=
  match processed_chunk item with
  | Some chunk =>
      match choices chunk with
      | choice :: _ =>
          let '(text, emitted) :=
            match content_to_emit choice with
            | Some c =>
                if Str.truthy c
                then (current_ai_message w +:+ c, [message_received c])
                else (current_ai_message w, [])
            | None => (current_ai_message w, [])
            end in
          let reason :=
            match finish_reason choice with
            | Some r => if Str.truthy r then Some r
                        else finish_reason_overall w
            | None => finish_reason_overall w
            end in
          (mk (message w) (model w) (conversation_history w) text
              (_should_stop w) (phase w) (submitted w) (stream w) reason,
           emitted)
      | [] => (w, [])
      end
  | None => (w, [])
  end.

(** Lines 120-122. *)
Definition finish (w : t) : t * list Signal :=
  (set_phase Finished w,
   [finished (match finish_reason_overall w with
              | Some r => r
              | None => "stop"
              end)]).

(** Lines 133-219: the message shown for an exception. *)
Definition user_friendly_msg (mdl : option string) (e : string) : string :=
  let error_str := Str.lower e in
  if Str.any_in ["bearer"; "authentication"; "unauthorized"; "401"] error_str
  then "API authentication failed. Please check your API key in Settings → Preferences and ensure it's valid and has sufficient credits."
  else if Str.any_in ["quota"; "billing"; "insufficient"; "exceeded"] error_str
  then "You've exceeded your API quota or have insufficient credits. Please check your API account billing and usage."
  else if Str.any_in ["rate limit"; "429"; "too many requests"] error_str
  then "You've hit the API rate limit. Please wait a moment before sending another message."
  else if Str.any_in ["model not found"; "invalid model"; "model unavailable"] error_str
  then "The model '" +:+ default "None" mdl +:+ "' is not available or accessible with your API key. Try selecting a different model."
  else if Str.any_in ["connection"; "network"; "timeout"; "dns"; "unreachable"] error_str
  then "Connection error. Please check your connection and API keys, then try again."
  else if Str.any_in ["context length"; "token limit"; "max tokens"; "context_length_exceeded"] error_str
  then "The conversation is too long for this model. Try starting a new chat."
  else if Str.any_in ["content policy"; "safety"; "filtered"; "blocked"] error_str
  then "Your message was blocked by content safety filters. Please try rephrasing your request."
  else if Str.any_in ["500"; "502"; "503"; "504"; "internal server";
                      "bad gateway"; "service unavailable"] error_str
  then "The AI service is temporarily unavailable. Please try again in a few moments."
  else if Str.contains "timeout" error_str
  then "The request timed out. The AI service might be experiencing high demand. Please try again."
  else e.

(** Lines 127-222: the two [except] clauses. *)
Definition raised (e : Fault) (w : t) : t * list Signal :=
  (set_phase Finished w,
   match e with
   | ImportError _ =>
       [error_occurred "Required AI libraries are not installed. Please install LiteLLM: pip install litellm";
        finished "error"]
   | OtherException msg =>
       [error_occurred (user_friendly_msg (model w) msg); finished "error"]
   end).

(** One scheduling quantum of the worker thread inside [run]: either
    lines 44-65 (build the arguments from the history list as it is in
    the heap now, open the stream) or one turn of the [for] loop, which
    first fetches the next item and then looks at [_should_stop]. *)
Definition step (heap : list (list Message.t)) (w : t) : t * list Signal :=
  match phase w with
  | Created | Finished => (w, [])
  | Started =>
      let history := default [] (heap !! conversation_history w) in
      (mk (message w) (model w) (conversation_history w)
          (current_ai_message w) (_should_stop w) Streaming
          (Some (history ++ [Message.user (message w)]))
          (stream w) None,
       [])
  | Streaming =>
      match items (stream w) with
      | [] =>
          match fault (stream w) with
          | None => finish w
          | Some e => raised e w
          end
      | item :: rest =>
          if _should_stop w then finish w
          else process item
                 (set_stream {| items := rest; fault := fault (stream w) |} w)
      end
  end.

(** [run] from wherever the thread is up to its return: [fuel] turns at
    most.  Signals are collected in emission order. *)
Fixpoint run (fuel : nat) (heap : list (list Message.t)) (w : t)
    : t * list Signal :=
  match fuel with
  | O => (w, [])
  | S fuel' =>
      if isRunning w then
        let '(w1, s1) := step heap w in
        let '(w2, s2) := run fuel' heap w1 in
        (w2, s1 ++ s2)
      else (w, [])
  end.

(** Turns that always suffice: one to open the stream, one per item,
    one for the end of the stream. *)
Definition enough (w : t) : nat := 2 + length (items (stream w)).

End ChatWorker.

(** ** ui/chat_message.py: the message widgets of a tab *)

Module ChatMessage.

(** [ident] stands for the identity of the Python object. *)
Record t := mk {
  ident : nat;
  raw_content : string;
  is_user_message : bool;
  model_name : option string;
}.

Definition update_content (new_content : string) (w : t) : t :=
  mk (ident w) new_content (is_user_message w) (model_name w).

End ChatMessage.

(** Items of [chat_layout]: the suggestions widget, message widgets and the
    stretch that [setup_ui] puts last. *)
Inductive LayoutItem :=
| SuggestionsWidget
| MessageWidget (w : ChatMessage.t)
| Stretch.

(** Modal boxes shown to the user. *)
Inductive Dialog :=
| Critical (msg : string)
| Warning (title msg : string).

(** ** What the objects of the program share *)

Record Runtime := mkRuntime {
  lists : list (list Message.t);   (* the Python list objects, by reference *)
  threads : list ChatWorker.t;     (* every ChatWorker constructed so far *)
  queue : list (nat * Signal);     (* emissions waiting for the UI thread *)
  dialogs : list Dialog;           (* boxes shown so far *)
  widgets_made : nat;              (* message widgets constructed so far *)
}.

Definition empty_runtime : Runtime := mkRuntime [] [] [] [] 0.

Definition set_lists (v : list (list Message.t)) (rt : Runtime) : Runtime :=
  mkRuntime v (threads rt) (queue rt) (dialogs rt) (widgets_made rt).

Definition set_threads (v : list ChatWorker.t) (rt : Runtime) : Runtime :=
  mkRuntime (lists rt) v (queue rt) (dialogs rt) (widgets_made rt).

Definition set_queue (v : list (nat * Signal)) (rt : Runtime) : Runtime :=
  mkRuntime (lists rt) (threads rt) v (dialogs rt) (widgets_made rt).

Definition show (d : Dialog) (rt : Runtime) : Runtime :=
  mkRuntime (lists rt) (threads rt) (queue rt) (dialogs rt ++ [d])
            (widgets_made rt).

(** [l.append(m)] on the list object [r]: every holder of [r] sees it. *)
Definition list_append (r : nat) (m : Message.t) (rt : Runtime) : Runtime :=
  set_lists (alter (fun l => l ++ [m]) r (lists rt)) rt.

(** A signal emitted by thread [i] towards a receiver living in the UI
    thread: a queued connection. *)
Definition emit (i : nat) (signals : list Signal) (rt : Runtime) : Runtime :=
  set_queue (queue rt ++ map (fun s => (i, s)) signals) rt.

(** The threads for which [isRunning()] holds; [i] is the reference of the
    head of [ws]. *)
Fixpoint running_from (i : nat) (ws : list ChatWorker.t) : list nat :=
  match ws with
  | [] => []
  | w :: ws' =>
      if ChatWorker.isRunning w then i :: running_from (S i) ws'
      else running_from (S i) ws'
  end.

Definition running (rt : Runtime) : list nat := running_from 0 (threads rt).

(** The worker thread [i] gets one scheduling quantum. *)
Definition worker_step (i : nat) (rt : Runtime) : Runtime :=
  match threads rt !! i with
  | Some w =>
      let '(w', signals) := ChatWorker.step (lists rt) w in
      emit i signals (set_threads (<[i := w']> (threads rt)) rt)
  | None => rt
  end.

(** [ChatWorker.stop_safely] called from the UI thread on thread [i].
    [in_time] tells whether [wait(3000)] sees the thread return: the UI
    thread is blocked meanwhile, so the worker runs against the heap as it
    is and its emissions stay queued.  Otherwise [terminate()] ends the
    thread where it is. [quit()] is a no-op for a [run] without event
    loop. *)
Definition stop_safely (in_time : bool) (i : nat) (rt : Runtime) : Runtime :=
  match threads rt !! i with
  | Some w =>
      if negb (ChatWorker.isRunning w) then rt
      else
        let w1 := ChatWorker.set_should_stop true w in
        if in_time then
          let '(w2, signals) :=
            ChatWorker.run (ChatWorker.enough w1) (lists rt) w1 in
          emit i signals (set_threads (<[i := w2]> (threads rt)) rt)
        else
          set_threads
            (<[i := ChatWorker.set_phase ChatWorker.Finished w1]> (threads rt))
            rt
  | None => rt
  end.

(** What a user action meets outside the tab: the model chosen in the main
    window, whether a bounded wait succeeds, and what the provider will
    stream to a request started now. *)
Record Env := {
  selected_model : string;
  in_time : bool;
  response : Provider.Response;
}.

(** ** ui/chat_tab.py *)

Module ChatTab.

Record t := mk {
  conversation_history : nat;        (* reference to a list object *)
  current_ai_message : string;
  chat_worker : option nat;          (* reference to a thread *)
  current_model : option string;
  ai_message_widget : option nat;    (* identity of a message widget *)
  tab_index : Z;
  chat_layout : list LayoutItem;
  message_input : string;            (* text of the QLineEdit *)
}.

Definition set_conversation_history (v : nat) (s : t) : t :=
  mk v (current_ai_message s) (chat_worker s) (current_model s)
     (ai_message_widget s) (tab_index s) (chat_layout s) (message_input s).

Definition set_current_ai_message (v : string) (s : t) : t :=
  mk (conversation_history s) v (chat_worker s) (current_model s)
     (ai_message_widget s) (tab_index s) (chat_layout s) (message_input s).

Definition set_chat_worker (v : option nat) (s : t) : t :=
  mk (conversation_history s) (current_ai_message s) v (current_model s)
     (ai_message_widget s) (tab_index s) (chat_layout s) (message_input s).

Definition set_model (v : option string) (s : t) : t :=
  mk (conversation_history s) (current_ai_message s) (chat_worker s) v
     (ai_message_widget s) (tab_index s) (chat_layout s) (message_input s).

Definition set_ai_message_widget (v : option nat) (s : t) : t :=
  mk (conversation_history s) (current_ai_message s) (chat_worker s)
     (current_model s) v (tab_index s) (chat_layout s) (message_input s).

Definition set_tab_index (v : Z) (s : t) : t :=
  mk (conversation_history s) (current_ai_message s) (chat_worker s)
     (current_model s) (ai_message_widget s) v (chat_layout s)
     (message_input s).

Definition set_chat_layout (v : list LayoutItem) (s : t) : t :=
  mk (conversation_history s) (current_ai_message s) (chat_worker s)
     (current_model s) (ai_message_widget s) (tab_index s) v
     (message_input s).

Definition setText (v : string) (s : t) : t :=
  mk (conversation_history s) (current_ai_message s) (chat_worker s)
     (current_model s) (ai_message_widget s) (tab_index s) (chat_layout s) v.

(** [ChatTab(parent)]: a fresh, empty history list; the layout holds the
    suggestions and the stretch. *)
Definition __init__ (rt : Runtime) : Runtime * t :=
  (set_lists (lists rt ++ [[]]) rt,
   mk (length (lists rt)) "" None None None (-1)
      [SuggestionsWidget; Stretch] "").

(** The history list as the tab sees it now. *)
Definition history (rt : Runtime) (s : t) : list Message.t :=
  default [] (lists rt !! conversation_history s).

(** [self.chat_worker and self.chat_worker.isRunning()]. *)
Definition worker_running (rt : Runtime) (s : t) : bool :=
  match chat_worker s with
  | Some i =>
      match threads rt !! i with
      | Some w => ChatWorker.isRunning w
      | None => false
      end
  | None => false
  end.

(** [QBoxLayout.insertWidget(index, w)]: a negative index appends. *)
Definition insertWidget (index : Z) (item : LayoutItem)
    (layout : list LayoutItem) : list LayoutItem :=
  if (index <? 0)%Z then layout ++ [item]
  else take (Z.to_nat index) layout ++ item :: drop (Z.to_nat index) layout.

(** [chat_layout.insertWidget(chat_layout.count() - 1, w)]. *)
Definition insert_before_last (item : LayoutItem)
    (layout : list LayoutItem) : list LayoutItem :=
  insertWidget (Z.of_nat (length layout) - 1) item layout.

(** [chat_layout.removeWidget(w)], by identity. *)
Definition removeWidget (id : nat) (layout : list LayoutItem)
    : list LayoutItem :=
  List.filter
    (fun item =>
       match item with
       | MessageWidget w => negb (ChatMessage.ident w =? id)%nat
       | _ => true
       end) layout.

(** Lines 165-178.  The [except] branch answers an exception of
    [stop_safely]; the Qt calls made there raise none, and if one did the
    branch would also end with a stopped thread and an empty slot. *)
Definition terminate_worker (in_time : bool) (rt : Runtime) (s : t)
    : Runtime * t :=
  if worker_running rt s then
    match chat_worker s with
    | Some i => (stop_safely in_time i rt, set_chat_worker None s)
    | None => (rt, s)
    end
  else (rt, s).

(** Lines 362-381: a new message widget before the stretch. *)
Definition add_message (message : string) (is_user : bool)
    (model_name : option string) (rt : Runtime) (s : t) : Runtime * t :=
  let w := ChatMessage.mk (widgets_made rt) message is_user model_name in
  (mkRuntime (lists rt) (threads rt) (queue rt) (dialogs rt)
             (S (widgets_made rt)),
   set_chat_layout (insert_before_last (MessageWidget w) (chat_layout s)) s).

(** [message_sent] is connected to [ChatbotApp.handle_message_sent]
    (main_window.py, lines 471-480), which runs inside the emission:
    it sets the tab's model, or complains when none is selected. *)
Definition message_sent (selected : string) (rt : Runtime) (s : t)
    : Runtime * t :=
  if Str.truthy selected then (rt, set_model (Some selected) s)
  else (show (Critical "Please select a model first.") rt, s).

(** Lines 180-248. *)
Definition send_message (env : Env) (rt : Runtime) (s : t) : Runtime * t :=
  let '(rt, s) := terminate_worker (in_time env) rt s in
  let message := Str.strip (message_input s) in
  if negb (Str.truthy message) then (rt, s)
  else if worker_running rt s then
    (show (Warning "Processing"
             "An AI response is already being processed. Please wait until it completes.")
          rt, s)
  else
    let '(rt, s) := message_sent (selected_model env) rt s in
    let '(rt, s) := add_message message true None rt s in
    let s := setText "" s in
    (* self.chat_worker = ChatWorker(..., self.conversation_history) *)
    let i := length (threads rt) in
    let w := ChatWorker.__init__ message (current_model s)
               (conversation_history s) (response env) in
    let rt := set_threads (threads rt ++ [ChatWorker.start w]) rt in
    let s := set_chat_worker (Some i) s in
    (* self.conversation_history.append(...) *)
    let rt := list_append (conversation_history s) (Message.user message) rt in
    (rt, set_ai_message_widget None (set_current_ai_message "" s)).

(** Lines 254-277. *)
Definition handle_ai_message_chunk (chunk : string) (rt : Runtime) (s : t)
    : Runtime * t :=
  let s := set_current_ai_message (current_ai_message s +:+ chunk) s in
  match ai_message_widget s with
  | None =>
      let '(rt', s') :=
        add_message (current_ai_message s) false (current_model s) rt s in
      (rt', set_ai_message_widget (Some (widgets_made rt)) s')
  | Some id =>
      (rt,
       set_chat_layout
         (map (fun item =>
                 match item with
                 | MessageWidget w =>
                     if (ChatMessage.ident w =? id)%nat
                     then MessageWidget
                            (ChatMessage.update_content (current_ai_message s) w)
                     else item
                 | _ => item
                 end) (chat_layout s)) s)
  end.

(** Lines 562-565. *)
Definition show_error (message : string) (rt : Runtime) : Runtime :=
  show (Critical message) rt.

Definition length_warning : string :=
  "Warning: The response may have been truncated due to reaching the maximum token limit. Increase your max tokens via Settings -> Preferences -> Chat -> Max Tokens. ".

(** Lines 304-360. *)
Definition handle_chat_finished (in_time : bool) (finish_reason : string)
    (rt : Runtime) (s : t) : Runtime * t :=
  let '(rt, s) :=
    if Str.truthy (current_ai_message s) then
      let rt := list_append (conversation_history s)
                  (Message.assistant (current_ai_message s) (current_model s))
                  rt in
      if String.eqb finish_reason "length"
      then add_message length_warning false (Some "System") rt s
      else (rt, s)
    else (rt, s) in
  match chat_worker s with
  | Some i => (stop_safely in_time i rt, set_chat_worker None s)
  | None => (rt, s)
  end.

(** Lines 279-302. *)
Definition handle_error (in_time : bool) (error_message : string)
    (rt : Runtime) (s : t) : Runtime * t :=
  let is_token_error :=
    Str.any_in ["maximum context length"; "token limit"; "max tokens";
                "context_length_exceeded"; "finish_reason: length"]
               (Str.lower error_message) in
  let rt :=
    if is_token_error then
      show_error
        "Warning: The response may have been truncated due to token limits. Consider increasing max_tokens in settings or shortening your prompt."
        rt
    else show_error ("An error occurred: " +:+ error_message) rt in
  handle_chat_finished in_time "error" rt s.

(** Lines 437-443: position of the widget in the layout, [-1] if it is
    not there. *)
Fixpoint index_of (id : nat) (layout : list LayoutItem) (i : nat) : Z :=
  match layout with
  | [] => (-1)%Z
  | MessageWidget w :: rest =>
      if (ChatMessage.ident w =? id)%nat then Z.of_nat i
      else index_of id rest (S i)
  | _ :: rest => index_of id rest (S i)
  end.

Definition is_message (item : LayoutItem) : bool :=
  match item with MessageWidget _ => true | _ => false end.

(** Lines 462-478: the message widgets at the positions
    [start_index .. count - 2] leave the layout; [i] is the position of
    the head of [layout]. *)
Fixpoint remove_between (start_index stop i : nat) (layout : list LayoutItem)
    : list LayoutItem :=
  match layout with
  | [] => []
  | item :: rest =>
      if (start_index <=? i)%nat && (i <? stop)%nat && is_message item
      then remove_between start_index stop (S i) rest
      else item :: remove_between start_index stop (S i) rest
  end.

Definition remove_messages_after_index (index : nat) (include_current : bool)
    (layout : list LayoutItem) : list LayoutItem :=
  let start_index := if include_current then index else S index in
  remove_between start_index (length layout - 1) 0 layout.

(** Lines 484-498: the user and the other message widgets among the
    first [count_limit] items of the layout. *)
Fixpoint count_widgets (layout : list LayoutItem) (user_count ai_count : nat)
    : nat * nat :=
  match layout with
  | [] => (user_count, ai_count)
  | MessageWidget w :: rest =>
      if ChatMessage.is_user_message w
      then count_widgets rest (S user_count) ai_count
      else count_widgets rest user_count (S ai_count)
  | _ :: rest => count_widgets rest user_count ai_count
  end.

(** Lines 500-517: the loop over the history, with its two [break]s. *)
Fixpoint trim (user_count ai_count : nat) (history new_history : list Message.t)
    (current_user_count current_ai_count : nat) : list Message.t :=
  match history with
  | [] => new_history
  | msg :: rest =>
      if String.eqb (Message.role msg) "user" then
        if (current_user_count <? user_count)%nat
        then trim user_count ai_count rest (new_history ++ [msg])
                  (S current_user_count) current_ai_count
        else new_history
      else if String.eqb (Message.role msg) "assistant" then
        if (current_ai_count <? ai_count)%nat
        then trim user_count ai_count rest (new_history ++ [msg])
                  current_user_count (S current_ai_count)
        else new_history
      else trim user_count ai_count rest new_history
                current_user_count current_ai_count
  end.

(** Lines 480-519; the last line binds the attribute to a new list
    object, the old one is left as it was. *)
Definition update_conversation_history_to_index (message_index : Z)
    (exclude_current : bool) (rt : Runtime) (s : t) : Runtime * t :=
  let count_limit :=
    if exclude_current then message_index else (message_index + 1)%Z in
  let '(user_count, ai_count) :=
    count_widgets (take (Z.to_nat count_limit) (chat_layout s)) 0 0 in
  let new_history := trim user_count ai_count (history rt s) [] 0 0 in
  (set_lists (lists rt ++ [new_history]) rt,
   set_conversation_history (length (lists rt)) s).

(** Lines 435-460. *)
Definition update_last_message (env : Env) (message_widget : ChatMessage.t)
    (text : string) (rt : Runtime) (s : t) : Runtime * t :=
  let message_index :=
    index_of (ChatMessage.ident message_widget) (chat_layout s) 0 in
  let '(rt, s) :=
    if (message_index =? -1)%Z then (rt, s)
    else
      let s := set_chat_layout
                 (remove_messages_after_index (Z.to_nat message_index) false
                    (chat_layout s)) s in
      let s := set_chat_layout
                 (removeWidget (ChatMessage.ident message_widget)
                    (chat_layout s)) s in
      update_conversation_history_to_index (message_index - 1) false rt s in
  let s := setText (if String.eqb text "" then ChatMessage.raw_content message_widget
                    else Str.strip text) s in
  send_message env rt s.

(** Lines 383-385. *)
Definition handle_resend_request (env : Env) (message_widget : ChatMessage.t)
    (rt : Runtime) (s : t) : Runtime * t :=
  update_last_message env message_widget "" rt s.

(** Lines 387-433; [accepted] and [edited] are what the dialog returns. *)
Definition handle_edit_request (env : Env) (message_widget : ChatMessage.t)
    (accepted : bool) (edited : string) (rt : Runtime) (s : t)
    : Runtime * t :=
  if worker_running rt s then
    (show (Warning "Processing"
             "Cannot edit while an AI response is being processed. Please wait until it completes.")
          rt, s)
  else if accepted && Str.truthy (Str.strip edited)
  then update_last_message env message_widget edited rt s
  else (rt, s).

(** Lines 527-560: only the first and the last item of the layout stay;
    the history list object is emptied in place. *)
Definition clear_chat (rt : Runtime) (s : t) : Runtime * t :=
  let layout :=
    match chat_layout s with
    | first :: _ :: _ :: _ => [first; List.last (chat_layout s) Stretch]
    | short => short
    end in
  let layout :=
    if existsb (fun item => match item with
                            | SuggestionsWidget => true
                            | _ => false
                            end) layout
    then layout else SuggestionsWidget :: layout in
  (set_lists (alter (fun _ => []) (conversation_history s) (lists rt)) rt,
   set_chat_layout layout s).

(** The last assistant message that names a model (lines 652-656). *)
Definition last_model (imported : list Message.t) : option string :=
  match List.filter (fun m => String.eqb (Message.role m) "assistant"
                              && match Message.model m with
                                 | Some n => Str.truthy n
                                 | None => false
                                 end) (rev imported) with
  | m :: _ => Message.model m
  | [] => None
  end.

(** Lines 619-663. *)
Definition load_conversation_history (imported : list Message.t)
    (rt : Runtime) (s : t) : Runtime * t :=
  let '(rt, s) := clear_chat rt s in
  (* self.conversation_history = conversation_history.copy() *)
  let s := set_conversation_history (length (lists rt)) s in
  let rt := set_lists (lists rt ++ [imported]) rt in
  let '(rt, s) :=
    fold_left
      (fun (acc : Runtime * t) (msg : Message.t) =>
         if Str.truthy (Message.content msg) then
           let is_user := String.eqb (Message.role msg) "user" in
           add_message (Message.content msg) is_user
             (if is_user then None else Message.model msg)
             (fst acc) (snd acc)
         else acc)
      imported (rt, s) in
  (rt, match last_model imported with
       | Some n => set_model (Some n) s
       | None => s
       end).

(** The UI thread takes the oldest queued emission and calls the slot
    connected in [send_message] (lines 237-239).  The slots take the
    signal's argument only: which worker emitted it is not passed on. *)
Definition deliver (in_time : bool) (rt : Runtime) (s : t) : Runtime * t :=
  match queue rt with
  | [] => (rt, s)
  | (_, signal) :: rest =>
      let rt := set_queue rest rt in
      match signal with
      | message_received chunk => handle_ai_message_chunk chunk rt s
      | error_occurred msg => handle_error in_time msg rt s
      | finished reason => handle_chat_finished in_time reason rt s
      end
  end.

Fixpoint deliver_all (fuel : nat) (in_time : bool) (rt : Runtime) (s : t)
    : Runtime * t :=
  match fuel with
  | O => (rt, s)
  | S fuel' =>
      match queue rt with
      | [] => (rt, s)
      | _ => let '(rt', s') := deliver in_time rt s in
             deliver_all fuel' in_time rt' s'
      end
  end.

End ChatTab.

(** ** ui/main_window.py: the tabs of the application *)

Module ChatbotApp.

(** [tab_list] holds the titles of the QListWidget rows.  Which tab is
    visible is presentation and left out. *)
Record t := mk {
  chat_tabs : list ChatTab.t;
  tab_list : list string;
  current_tab_index : Z;
}.

(** Lines 330-341. *)
Definition switch_chat_tab (index : Z) (app : t) : t :=
  if (index <? 0)%Z || (index >=? Z.of_nat (length (chat_tabs app)))%Z
  then app
  else mk (chat_tabs app) (tab_list app) index.

(** Lines 301-328. *)
Definition create_new_chat_tab (title : string) (rt : Runtime) (app : t)
    : Runtime * t :=
  let '(rt, chat_tab) := ChatTab.__init__ rt in
  let chat_tab :=
    ChatTab.set_tab_index (Z.of_nat (length (chat_tabs app))) chat_tab in
  let tabs := chat_tabs app ++ [chat_tab] in
  (rt, mk tabs (tab_list app ++ [title]) (Z.of_nat (length tabs) - 1)).

(** Lines 45-57: the window starts with one tab. *)
Definition __init__ (rt : Runtime) : Runtime * t :=
  create_new_chat_tab "New Chat" rt (mk [] [] (-1)).

(** Lines 413-465; [confirm] is the answer to the question box.  The
    removed tab's [deleteLater] calls [terminate_worker] once more, which
    finds the slot empty. *)
Definition delete_chat_tab (confirm in_time : bool) (index : Z)
    (rt : Runtime) (app : t) : Runtime * t :=
  if (index <? 0)%Z || (index >=? Z.of_nat (length (chat_tabs app)))%Z
  then (rt, app)
  else if (length (chat_tabs app) =? 1)%nat then
    (show (Warning "Cannot Delete"
             "Cannot delete the only remaining chat tab.") rt, app)
  else
    match tab_list app !! Z.to_nat index, chat_tabs app !! Z.to_nat index with
    | Some _, Some tab_to_delete =>
        if negb confirm then (rt, app)
        else
          let '(rt, _) := ChatTab.terminate_worker in_time rt tab_to_delete in
          let titles := delete (Z.to_nat index) (tab_list app) in
          let tabs := delete (Z.to_nat index) (chat_tabs app) in
          let app := mk tabs titles (current_tab_index app) in
          let app :=
            if (current_tab_index app =? index)%Z
            then switch_chat_tab
                   (Z.min index (Z.of_nat (length tabs) - 1)) app
            else if (current_tab_index app >? index)%Z
            then mk tabs titles (current_tab_index app - 1)
            else app in
          (rt,
           mk (imap (fun i tab =>
                       if (Z.to_nat index <=? i)%nat
                       then ChatTab.set_tab_index (Z.of_nat i) tab
                       else tab) (chat_tabs app))
              (tab_list app) (current_tab_index app))
    | _, _ => (rt, app)
    end.

End ChatbotApp.

(** * Vocabulary of the properties, schedules and scenarios *)

(** ** The worker's view of a stream *)

Section Stream.
Import Provider.

(** The choice the worker looks at: the first one of the part of the
    item that has [choices]. *)
Definition choice_of (item : Item) : option Choice :=
  match ChatWorker.processed_chunk item with
  | Some chunk => head (choices chunk)
  | None => None
  end.

(** The extractable text delta of an item: a non-empty [delta.content]. *)
Definition text_delta (item : Item) : option string :=
  match choice_of item with
  | Some choice =>
      match ChatWorker.content_to_emit choice with
      | Some c => if Str.truthy c then Some c else None
      | None => None
      end
  | None => None
  end.

(** The finish reason an item supplies: a non-empty [finish_reason]. *)
Definition finish_marker (item : Item) : option string :=
  match choice_of item with
  | Some choice =>
      match finish_reason choice with
      | Some r => if Str.truthy r then Some r else None
      | None => None
      end
  | None => None
  end.

Definition deltas (stream : list Item) : list string := omap text_delta stream.

Definition joined (texts : list string) : string :=
  foldr String.append "" texts.

(** The last finish reason supplied, else [otherwise]. *)
Definition last_reason (otherwise : option string) (stream : list Item)
    : option string :=
  match last (omap finish_marker stream) with
  | Some r => Some r
  | None => otherwise
  end.

Definition reason_text (r : option string) : string := default "stop" r.

End Stream.

(** A stream item that carries one choice. *)
Definition chunk_item (text : option string) (reason : option string)
    : Provider.Item :=
  Provider.ItemChunk
    {| Provider.choices :=
         [ {| Provider.delta := Some {| Provider.content := text |};
              Provider.finish_reason := reason |} ] |}.

(** A scripted provider: three text chunks, then the finish reason, with a
    heartbeat in between and one chunk wrapped in a tuple. *)
Definition hello_world : Provider.Response :=
  {| Provider.items :=
       [ chunk_item (Some "Hel") None;
         Provider.ItemOther;
         Provider.ItemTuple [None; Some {| Provider.choices :=
           [ {| Provider.delta := Some {| Provider.content := Some "lo" |};
                Provider.finish_reason := None |} ] |}];
         chunk_item (Some " world") None;
         chunk_item None (Some "stop") ];
     Provider.fault := None |}.

(** The state of a worker that has consumed the first item of a two-item
    stream when the stop request arrives. *)
Definition stopped_midway : ChatWorker.t :=
  ChatWorker.set_should_stop true
    (fst (ChatWorker.run 2 []
            (ChatWorker.start
               (ChatWorker.__init__ "hi" None 0
                  {| Provider.items := [chunk_item (Some "Hel") None;
                                        chunk_item (Some "lo") (Some "length")];
                     Provider.fault := None |})))).

(** The roles the truncation loop knows. *)
Definition spoken (m : Message.t) : bool :=
  String.eqb (Message.role m) "user"
  || String.eqb (Message.role m) "assistant".

Definition widget_role (w : ChatMessage.t) : string :=
  if ChatMessage.is_user_message w then "user" else "assistant".

(** The roles of the message widgets of a layout, as the counting loop
    of [update_conversation_history_to_index] reads them. *)
Fixpoint shown_roles (layout : list LayoutItem) : list string :=
  match layout with
  | [] => []
  | MessageWidget w :: rest => widget_role w :: shown_roles rest
  | _ :: rest => shown_roles rest
  end.

(** A conversation of two exchanges, as sending builds it. *)
Definition two_exchanges : Runtime * ChatTab.t :=
  (mkRuntime
     [[Message.user "u1"; Message.assistant "a1" (Some "m");
       Message.user "u2"; Message.assistant "a2" (Some "m")]]
     [] [] [] 4,
   ChatTab.mk 0 "a2" None (Some "m") (Some 3) 0
     [SuggestionsWidget;
      MessageWidget (ChatMessage.mk 0 "u1" true None);
      MessageWidget (ChatMessage.mk 1 "a1" false (Some "m"));
      MessageWidget (ChatMessage.mk 2 "u2" true None);
      MessageWidget (ChatMessage.mk 3 "a2" false (Some "m"));
      Stretch] "").

Definition quiet_env : Env :=
  {| selected_model := "m"; in_time := true;
     response := {| Provider.items := []; Provider.fault := None |} |}.

(** An imported transcript that opens with a ["system"] entry, loaded
    into a fresh tab. *)
Definition imported_with_system : Runtime * ChatTab.t :=
  let '(rt, s) := ChatTab.__init__ empty_runtime in
  ChatTab.load_conversation_history
    [Message.mk "system" "s" None; Message.user "u1";
     Message.assistant "a1" None; Message.user "u2"] rt s.

(** The tab's worker runs to the end of [run], then the UI thread handles
    every queued emission. *)
Definition settle (rt : Runtime) (s : ChatTab.t) : Runtime * ChatTab.t :=
  let rt :=
    match ChatTab.chat_worker s with
    | Some i =>
        match threads rt !! i with
        | Some w =>
            let '(w', signals) :=
              ChatWorker.run (ChatWorker.enough w) (lists rt) w in
            emit i signals (set_threads (<[i := w']> (threads rt)) rt)
        | None => rt
        end
    | None => rt
    end in
  ChatTab.deliver_all (length (queue rt)) true rt s.

(** A fresh tab in which the user has typed [text]. *)
Definition typed (text : string) : Runtime * ChatTab.t :=
  let '(rt, s) := ChatTab.__init__ empty_runtime in
  (rt, ChatTab.setText text s).

(** What thread [i] passed to [completion] as [messages]. *)
Definition prompt_of (i : nat) (rt : Runtime) : option (list Message.t) :=
  match threads rt !! i with
  | Some w => ChatWorker.submitted w
  | None => None
  end.

(** A session that is just under way: ["hi"] was sent, no text arrived. *)
Definition just_sent : Runtime * ChatTab.t :=
  ChatTab.send_message quiet_env (fst (typed "hi")) (snd (typed "hi")).

(** A provider that streams ["par"] and then fails with a rate-limit
    error. *)
Definition failing_env : Env :=
  {| selected_model := "m"; in_time := true;
     response :=
       {| Provider.items := [chunk_item (Some "par") None];
          Provider.fault :=
            Some (Provider.OtherException "429 Too Many Requests") |} |}.

(** The first message was sent and answered with one chunk so far, which
    the UI thread has not handled yet; now the user asks to resend it. *)
Definition resent_while_streaming : Runtime * ChatTab.t :=
  let env :=
    {| selected_model := "m"; in_time := true;
       response :=
         {| Provider.items := [chunk_item (Some "x") None;
                               chunk_item (Some "y") None];
            Provider.fault := None |} |} in
  let '(rt, s) :=
    ChatTab.send_message env (fst (typed "a")) (snd (typed "a")) in
  let rt := worker_step 0 (worker_step 0 rt) in
  ChatTab.handle_resend_request quiet_env (ChatMessage.mk 0 "a" true None) rt s.

(** Every running thread is the one in the tab's slot. *)
Definition single_flight (rt : Runtime) (s : ChatTab.t) : Prop :=
  Forall (fun j => ChatTab.chat_worker s = Some j) (running rt).

(** The user typed again while the answer to ["hi"] is awaited. *)
Definition typing_while_running : Runtime * ChatTab.t :=
  (fst just_sent, ChatTab.setText "more" (snd just_sent)).

(** An imported transcript whose only entry is a blank user message; the
    user then sent ["hi"] and, while the answer is awaited, asks to resend
    the imported message. *)
Definition blank_resend : (Runtime * ChatTab.t) * (Runtime * ChatTab.t) :=
  let '(rt, s) := ChatTab.__init__ empty_runtime in
  let '(rt, s) :=
    ChatTab.load_conversation_history [Message.user " "] rt s in
  let '(rt, s) := ChatTab.send_message quiet_env rt (ChatTab.setText "hi" s) in
  ((rt, s),
   ChatTab.handle_resend_request quiet_env (ChatMessage.mk 0 " " true None)
     rt s).

(** What the user does with the tab list. *)
Inductive AppAction :=
| NewChat (title : string)
| DeleteChat (confirm in_time : bool) (index : Z).

Definition act (a : AppAction) (st : Runtime * ChatbotApp.t)
    : Runtime * ChatbotApp.t :=
  match a with
  | NewChat title => ChatbotApp.create_new_chat_tab title (fst st) (snd st)
  | DeleteChat confirm in_time index =>
      ChatbotApp.delete_chat_tab confirm in_time index (fst st) (snd st)
  end.

(** The message widgets of a tab against its history: every exchange is a
    user widget and an answer widget, perhaps followed by the warning
    that the answer was cut, for a user entry and an assistant entry. *)
Inductive mirrors : list ChatMessage.t -> list Message.t -> Prop :=
| mirrors_nil : mirrors [] []
| mirrors_exchange U A body u a h :
    ChatMessage.is_user_message U = true ->
    ChatMessage.is_user_message A = false ->
    Message.role u = "user" -> Message.role a = "assistant" ->
    mirrors body h ->
    mirrors (U :: A :: body) (u :: a :: h)
| mirrors_warned U A W body u a h :
    ChatMessage.is_user_message U = true ->
    ChatMessage.is_user_message A = false ->
    ChatMessage.is_user_message W = false ->
    Message.role u = "user" -> Message.role a = "assistant" ->
    mirrors body h ->
    mirrors (U :: A :: W :: body) (u :: a :: h).

(** Roles alternate user, assistant, ... from index 0. *)
Definition alternates (h : list Message.t) : Prop :=
  forall i m, h !! i = Some m ->
    Message.role m = if Nat.even i then "user" else "assistant".

(** A tab at rest whose widgets [body] mirror its history [h]. *)
Definition built (rt : Runtime) (s : ChatTab.t)
    (body : list ChatMessage.t) (h : list Message.t) : Prop :=
  lists rt !! ChatTab.conversation_history s = Some h
  /\ ChatTab.chat_layout s
     = SuggestionsWidget :: map MessageWidget body ++ [Stretch]
  /\ mirrors body h
  /\ NoDup (map ChatMessage.ident body)
  /\ Forall (fun w => ChatMessage.ident w < widgets_made rt) body
  /\ queue rt = []
  /\ ChatTab.chat_worker s = None.

(** A tab whose finished worker [i] has emissions [pending]; [body] are
    the widgets up to the user's last message, [h] the history up to it.
    Either no text has been handled yet, or the answer widget is the last
    one of the layout. *)
Definition answering (rt : Runtime) (s : ChatTab.t)
    (body : list ChatMessage.t) (h : list Message.t) (i : nat)
    (pending : list (nat * Signal)) (untouched : bool) : Prop :=
  lists rt !! ChatTab.conversation_history s = Some h
  /\ queue rt = pending
  /\ ChatTab.chat_worker s = Some i
  /\ (exists w, threads rt !! i = Some w /\ ChatWorker.isRunning w = false)
  /\ NoDup (map ChatMessage.ident body)
  /\ Forall (fun w => ChatMessage.ident w < widgets_made rt) body
  /\ if untouched then
       ChatTab.ai_message_widget s = None
       /\ ChatTab.current_ai_message s = ""
       /\ ChatTab.chat_layout s
          = SuggestionsWidget :: map MessageWidget body ++ [Stretch]
     else
       exists A,
         ChatTab.ai_message_widget s = Some (ChatMessage.ident A)
         /\ ChatMessage.is_user_message A = false
         /\ Str.truthy (ChatTab.current_ai_message s) = true
         /\ ChatTab.chat_layout s
            = SuggestionsWidget :: map MessageWidget (body ++ [A]) ++ [Stretch]
         /\ (ChatMessage.ident A ∉ map ChatMessage.ident body)
         /\ ChatMessage.ident A < widgets_made rt.

(** What the user does in a tab; the edit dialog returns [accepted] and
    [edited]. *)
Inductive UserAction :=
| Send (text : string)
| Edit (target : ChatMessage.t) (accepted : bool) (edited : string)
| Resend (target : ChatMessage.t).

(** The action, then the session it starts runs to its end and every
    emission is handled. *)
Definition perform (env : Env) (a : UserAction) (st : Runtime * ChatTab.t)
    : Runtime * ChatTab.t :=
  let sent :=
    match a with
    | Send text =>
        ChatTab.send_message env (fst st) (ChatTab.setText text (snd st))
    | Edit target accepted edited =>
        ChatTab.handle_edit_request env target accepted edited (fst st) (snd st)
    | Resend target =>
        ChatTab.handle_resend_request env target (fst st) (snd st)
    end in
  settle (fst sent) (snd sent).

Fixpoint play (script : list (Env * UserAction)) (st : Runtime * ChatTab.t)
    : Runtime * ChatTab.t :=
  match script with
  | [] => st
  | (env, a) :: rest => play rest (perform env a st)
  end.

(** The provider answers without fault and with some text. *)
Definition answers (env : Env) : Prop :=
  Provider.fault (response env) = None
  /\ deltas (Provider.items (response env)) <> [].

(** Edit and resend are asked for on a user widget of the layout. *)
Definition on_screen (a : UserAction) (s : ChatTab.t) : Prop :=
  match a with
  | Send _ => True
  | Edit target _ _ | Resend target =>
      MessageWidget target ∈ ChatTab.chat_layout s
      /\ ChatMessage.is_user_message target = true
  end.

Fixpoint answered (script : list (Env * UserAction))
    (st : Runtime * ChatTab.t) : Prop :=
  match script with
  | [] => True
  | (env, a) :: rest =>
      answers env /\ on_screen a (snd st) /\ answered rest (perform env a st)
  end.

Definition fresh_tab : Runtime * ChatTab.t := ChatTab.__init__ empty_runtime.

(** A provider that answers ["Hello world"]. *)
Definition hello_env : Env :=
  {| selected_model := "m"; in_time := true; response := hello_world |}.

(** Send, resend the first message, send again. *)
Definition three_actions : list (Env * UserAction) :=
  [(hello_env, Send "a");
   (hello_env, Resend (ChatMessage.mk 0 "a" true None));
   (hello_env, Send "b")].

(** * More of the program and of its vocabulary *)

(** How a run can end: with [finished] alone, or with [error_occurred]
    followed by [finished("error")]. *)
Definition ending (tail : list Signal) : Prop :=
  (exists r, tail = [finished r])
  \/ (exists m, tail = [error_occurred m; finished "error"]).

(** ** ui/chat_tab.py: the remaining methods of a tab *)

Module ChatTabRest.

(** Lines 159-163. *)
Definition get_status (rt : Runtime) (s : ChatTab.t) : string :=
  if ChatTab.worker_running rt s then "Receiving message..." else "Ready".

(** Lines 141-144. *)
Definition handle_suggestion_click (env : Env) (text : string)
    (rt : Runtime) (s : ChatTab.t) : Runtime * ChatTab.t :=
  ChatTab.send_message env rt (ChatTab.setText text s).

(** Lines 601-609: [closeEvent] and [deleteLater] stop the worker before
    they hand over to Qt. *)
Definition closeEvent (in_time : bool) (rt : Runtime) (s : ChatTab.t)
    : Runtime * ChatTab.t :=
  ChatTab.terminate_worker in_time rt s.

End ChatTabRest.

(** ** Everything that can happen to a tab *)

(** The user's actions, a scheduling quantum of some worker thread, the UI
    thread handling the next queued emission. *)
Inductive TabEvent :=
| UserSends (env : Env) (text : string)
| UserClicksSuggestion (env : Env) (text : string)
| UserEdits (env : Env) (target : ChatMessage.t) (accepted : bool)
            (edited : string)
| UserResends (env : Env) (target : ChatMessage.t)
| UserClears
| UserImports (imported : list Message.t)
| UserCloses (in_time : bool)
| WorkerRuns (i : nat)
| UiHandles (in_time : bool).

Definition happen (ev : TabEvent) (st : Runtime * ChatTab.t)
    : Runtime * ChatTab.t :=
  match ev with
  | UserSends env text =>
      ChatTab.send_message env (fst st) (ChatTab.setText text (snd st))
  | UserClicksSuggestion env text =>
      ChatTabRest.handle_suggestion_click env text (fst st) (snd st)
  | UserEdits env target accepted edited =>
      ChatTab.handle_edit_request env target accepted edited (fst st) (snd st)
  | UserResends env target =>
      ChatTab.handle_resend_request env target (fst st) (snd st)
  | UserClears => ChatTab.clear_chat (fst st) (snd st)
  | UserImports imported =>
      ChatTab.load_conversation_history imported (fst st) (snd st)
  | UserCloses in_time => ChatTabRest.closeEvent in_time (fst st) (snd st)
  | WorkerRuns i => (worker_step i (fst st), snd st)
  | UiHandles in_time => ChatTab.deliver in_time (fst st) (snd st)
  end.

(** Every running thread is the one in the tab's slot, thread by
    thread. *)
Definition slot_only (rt : Runtime) (s : ChatTab.t) : Prop :=
  forall j w,
    threads rt !! j = Some w -> ChatWorker.isRunning w = true ->
    ChatTab.chat_worker s = Some j.

(** The check that [handle_error] makes on the message it is given
    (chat_tab.py, lines 282-292), and the warning it shows when the check
    succeeds. *)
Definition is_token_error (error_message : string) : bool :=
  Str.any_in ["maximum context length"; "token limit"; "max tokens";
              "context_length_exceeded"; "finish_reason: length"]
             (Str.lower error_message).

Definition truncation_warning : string :=
  "Warning: The response may have been truncated due to token limits. Consider increasing max_tokens in settings or shortening your prompt.".

(** ** ui/main_window.py: titles, import, exit *)

(** A box shown by the window itself, with its title and text. *)
Inductive MessageBox :=
| critical (title text : string)
| warning (title text : string)
| information (title text : string).

Module ChatbotAppRest.

(** Lines 486-489: the title shown until one is generated,
    [message[:20] + "..." if len(message) > 20 else message].  Lengths
    count the characters of the model's strings, as [Str] does. *)
Definition placeholder (message : string) : string :=
  if (20 <? String.length message)%nat
  then String.substring 0 20 message +:+ "..."
  else message.

(** The characters that line 532 strips from both ends of the title:
    the double quote (34) and the single quote (39). *)
Definition is_quote (c : ascii) : bool :=
  (nat_of_ascii c =? 34)%nat || (nat_of_ascii c =? 39)%nat.

Fixpoint lstrip_quotes (s : string) : string :=
  match s with
  | EmptyString => EmptyString
  | String c s' => if is_quote c then lstrip_quotes s' else s
  end.

Definition strip_quotes (s : string) : string :=
  String.rev (lstrip_quotes (String.rev (lstrip_quotes s))).

(** Lines 531-535, in [handle_title_finished]: the generated title,
    cleaned and capped. *)
Definition clean_title (title_text : string) : string :=
  let clean := strip_quotes (Str.strip title_text) in
  if (30 <? String.length clean)%nat
  then String.substring 0 27 clean +:+ "..."
  else clean.

(** Lines 382-407; [ok] and [new_title] are what the dialog returns. *)
Definition rename_chat_tab (ok : bool) (new_title : string) (index : Z)
    (app : ChatbotApp.t) : ChatbotApp.t :=
  if (index <? 0)%Z
     || (index >=? Z.of_nat (length (ChatbotApp.chat_tabs app)))%Z
  then app
  else
    match ChatbotApp.tab_list app !! Z.to_nat index with
    | None => app
    | Some _ =>
        if ok && Str.truthy new_title
        then ChatbotApp.mk (ChatbotApp.chat_tabs app)
               (<[Z.to_nat index := new_title]> (ChatbotApp.tab_list app))
               (ChatbotApp.current_tab_index app)
        else app
    end.

(** Lines 660-677: the title of an imported chat, from its first user
    message with content, else from the file's base name. *)
Definition import_title (conversation_history : list Message.t)
    (basename : string) : string :=
  match List.filter
          (fun msg => String.eqb (Message.role msg) "user"
                      && Str.truthy (Message.content msg))
          conversation_history with
  | msg :: _ => "Imported: " +:+ placeholder (Message.content msg)
  | [] => "Imported: " +:+ basename
  end.

(** What [utils.export.import_chat] returned. *)
Record Imported := {
  success : bool;
  conversation : list Message.t;
  error : string;
}.

(** Lines 633-689, after the file dialog returned [filename], whose base
    name is [basename]; the result names the box shown. *)
Definition import_chat (file : Imported) (filename basename : string)
    (rt : Runtime) (app : ChatbotApp.t)
    : Runtime * ChatbotApp.t * MessageBox :=
  if negb (success file) then
    (rt, app,
     critical "Import Error" ("Failed to import chat: " +:+ error file))
  else
    match conversation file with
    | [] =>
        (rt, app,
         warning "Import Warning" "No messages found in the imported file.")
    | _ :: _ =>
        let tab_title := import_title (conversation file) basename in
        let '(rt, app) := ChatbotApp.create_new_chat_tab tab_title rt app in
        let k := length (ChatbotApp.chat_tabs app) - 1 in
        let done :=
          information "Import Successful"
            ("Chat history imported from " +:+ filename) in
        match ChatbotApp.chat_tabs app !! k with
        | Some chat_tab =>
            let '(rt, chat_tab) :=
              ChatTab.load_conversation_history (conversation file)
                rt chat_tab in
            (rt,
             ChatbotApp.mk (<[k := chat_tab]> (ChatbotApp.chat_tabs app))
               (ChatbotApp.tab_list app) (ChatbotApp.current_tab_index app),
             done)
        | None => (rt, app, done)
        end
    end.

(** [worker and worker.isRunning()] for the worker held in [slot]. *)
Definition running_worker (rt : Runtime) (slot : option nat) : option nat :=
  match slot with
  | Some i =>
      match threads rt !! i with
      | Some w => if ChatWorker.isRunning w then Some i else None
      | None => None
      end
  | None => None
  end.

(** Lines 799-815 and 837-849: the running workers of the tabs, then the
    title worker if it runs. *)
Definition running_workers (rt : Runtime) (app : ChatbotApp.t)
    (title_worker : option nat) : list nat :=
  omap (fun tab => running_worker rt (ChatTab.chat_worker tab))
       (ChatbotApp.chat_tabs app)
  ++ match running_worker rt title_worker with
     | Some i => [i]
     | None => []
     end.

(** Lines 857-864: a worker that still runs is waited for, and terminated
    when the wait fails. *)
Definition wait_or_terminate (waited : bool) (i : nat) (rt : Runtime)
    : Runtime :=
  match threads rt !! i with
  | Some w =>
      if ChatWorker.isRunning w then
        if waited then
          let '(w2, signals) :=
            ChatWorker.run (ChatWorker.enough w) (lists rt) w in
          emit i signals (set_threads (<[i := w2]> (threads rt)) rt)
        else
          set_threads
            (<[i := ChatWorker.set_phase ChatWorker.Finished w]> (threads rt))
            rt
      else rt
  | None => rt
  end.

(** Lines 866-868: [terminate_worker] on every tab. *)
Fixpoint terminate_tabs (in_time : nat -> bool) (rt : Runtime)
    (tabs : list ChatTab.t) : Runtime * list ChatTab.t :=
  match tabs with
  | [] => (rt, [])
  | tab :: rest =>
      let '(rt, tab) :=
        ChatTab.terminate_worker
          (match ChatTab.chat_worker tab with
           | Some i => in_time i
           | None => true
           end) rt tab in
      let '(rt, rest) := terminate_tabs in_time rt rest in
      (rt, tab :: rest)
  end.

(** Lines 835-872.  [in_time i] tells whether the wait inside
    [stop_safely] sees thread [i] return, [waited i] whether the window's
    own [wait(3000)] does. *)
Definition _cleanup_all_workers (in_time waited : nat -> bool)
    (rt : Runtime) (app : ChatbotApp.t) (title_worker : option nat)
    : Runtime * ChatbotApp.t * option nat :=
  let workers_to_cleanup := running_workers rt app title_worker in
  let rt :=
    fold_left (fun rt i => stop_safely (in_time i) i rt)
      workers_to_cleanup rt in
  let rt :=
    fold_left (fun rt i => wait_or_terminate (waited i) i rt)
      workers_to_cleanup rt in
  let '(rt, tabs) := terminate_tabs in_time rt (ChatbotApp.chat_tabs app) in
  (rt,
   ChatbotApp.mk tabs (ChatbotApp.tab_list app)
     (ChatbotApp.current_tab_index app),
   None).

(** Lines 792-833, for an actual event; [reply] is the answer to the
    question box, and the boolean of the result tells whether the event
    was accepted. *)
Definition closeEvent (reply : bool) (in_time waited : nat -> bool)
    (rt : Runtime) (app : ChatbotApp.t) (title_worker : option nat)
    : (Runtime * ChatbotApp.t * option nat) * bool :=
  match running_workers rt app title_worker with
  | _ :: _ =>
      if reply
      then (_cleanup_all_workers in_time waited rt app title_worker, true)
      else ((rt, app, title_worker), false)
  | [] => (_cleanup_all_workers in_time waited rt app title_worker, true)
  end.

End ChatbotAppRest.

(** Thread [j] is not running. *)
Definition stopped (rt : Runtime) (j : nat) : Prop :=
  forall w, threads rt !! j = Some w -> ChatWorker.isRunning w = false.

(** What the user does in the window. *)
Inductive WindowAction :=
| OnTabs (a : AppAction)
| Switch (index : Z)
| Rename (ok : bool) (new_title : string) (index : Z)
| Import (file : ChatbotAppRest.Imported) (filename basename : string).

Definition operate (a : WindowAction) (st : Runtime * ChatbotApp.t)
    : Runtime * ChatbotApp.t :=
  match a with
  | OnTabs a => act a st
  | Switch index => (fst st, ChatbotApp.switch_chat_tab index (snd st))
  | Rename ok new_title index =>
      (fst st, ChatbotAppRest.rename_chat_tab ok new_title index (snd st))
  | Import file filename basename =>
      fst (ChatbotAppRest.import_chat file filename basename (fst st) (snd st))
  end.

(** Every tab knows its place, and the list of titles is as long as the
    list of tabs. *)
Definition well_indexed (app : ChatbotApp.t) : Prop :=
  length (ChatbotApp.tab_list app) = length (ChatbotApp.chat_tabs app)
  /\ forall i tab,
       ChatbotApp.chat_tabs app !! i = Some tab ->
       ChatTab.tab_index tab = Z.of_nat i.

(** A window with two tabs; in the first, ["hi"] was sent and the answer
    is awaited. *)
Definition busy_window : Runtime * ChatbotApp.t :=
  let '(rt, app) := ChatbotApp.__init__ empty_runtime in
  let '(rt, app) := ChatbotApp.create_new_chat_tab "Second" rt app in
  match ChatbotApp.chat_tabs app with
  | tab :: rest =>
      let '(rt, tab) :=
        ChatTab.send_message quiet_env rt (ChatTab.setText "hi" tab) in
      (rt, ChatbotApp.mk (tab :: rest) (ChatbotApp.tab_list app)
             (ChatbotApp.current_tab_index app))
  | [] => (rt, app)
  end.

(** ** utils/export.py: the importers of Markdown and text files *)

Module ChatExport.

(** The role a heading line announces (lines 174 and 186). *)
Definition heading (line : string) : option string :=
  if String.prefix "### User:" line then Some "user"
  else if String.prefix "### Assistant:" line then Some "assistant"
  else None.

(** The dict appended to [messages]: the role, and the lines collected
    so far joined and stripped. *)
Definition entry (role : string) (current_content : list string)
    : Message.t :=
  Message.mk role (Str.strip (String.concat "" current_content)) None.

(** Lines 173-200: one turn of the loop over the lines, on
    [current_role], [current_content] and [messages]. *)
Definition md_line (st : option string * list string * list Message.t)
    (line : string) : option string * list string * list Message.t :=
  let '(current_role, current_content, messages) := st in
  match heading line with
  | Some role =>
      (Some role, [],
       match current_role with
       | Some r => messages ++ [entry r current_content]
       | None => messages
       end)
  | None => (current_role, current_content ++ [line], messages)
  end.

(** [current_role] as a list of roles. *)
Definition option_role (role : option string) : list string :=
  match role with Some r => [r] | None => [] end.

(** Lines 164-208, on the [lines] that [readlines] returned. *)
Definition import_md (lines : list string) : list Message.t :=
  let '(current_role, current_content, messages) :=
    fold_left md_line lines (None, [], []) in
  match current_role, current_content with
  | Some r, _ :: _ => messages ++ [entry r current_content]
  | _, _ => messages
  end.

Definition toggle (current_role : string) : string :=
  if String.eqb current_role "user" then "assistant" else "user".

(** Lines 221-235: one turn of the loop over the lines. *)
Definition txt_line (st : string * list string * list Message.t)
    (line : string) : string * list string * list Message.t :=
  let '(current_role, current_content, messages) := st in
  let stripped := Str.strip line in
  match current_content with
  | _ :: _ =>
      if negb (Str.truthy stripped)
      then (toggle current_role, [],
            messages ++ [entry current_role current_content])
      else (current_role, current_content ++ [line], messages)
  | [] => (current_role, current_content ++ [line], messages)
  end.

(** Lines 210-243, on the [lines] that [readlines] returned. *)
Definition import_txt (lines : list string) : list Message.t :=
  let '(current_role, current_content, messages) :=
    fold_left txt_line lines ("user", [], []) in
  match current_content with
  | _ :: _ => messages ++ [entry current_role current_content]
  | [] => messages
  end.

End ChatExport.

(** The lines of a file as [export_chat_to_markdown] lays it out: a
    title, then for each message a [## ] heading and its content. *)
Definition exported_markdown : list string :=
  ["# Chat Export - 2025-01-01 10:00:00" +:+ String "010" "";
   String "010" "";
   "## You" +:+ String "010" "";
   String "010" "";
   "hi" +:+ String "010" "";
   String "010" ""].

(** * Properties *)

(** ** Strings *)

Lemma append_assoc (a b c : string) : (a +:+ b) +:+ c = a +:+ (b +:+ c).
Proof.
  induction a as [|x a IH]; [reflexivity|].
  change (String x ((a +:+ b) +:+ c) = String x (a +:+ (b +:+ c))).
  now rewrite IH.
Qed.

Lemma append_empty_r (a : string) : a +:+ "" = a.
Proof.
  induction a as [|x a IH]; [reflexivity|].
  change (String x (a +:+ "") = String x a).
  now rewrite IH.
Qed.

(** ** The worker's run *)

Section WorkerRun.
Import Provider ChatWorker.

(** One item outside the stop check: text and reason are updated as the
    item's delta and marker say, nothing else moves. *)
Lemma process_spec (item : Item) (w : ChatWorker.t) :
  process item w =
    (ChatWorker.mk (message w) (model w) (conversation_history w)
       (current_ai_message w +:+ default "" (text_delta item))
       (_should_stop w) (phase w) (submitted w) (stream w)
       (match finish_marker item with
        | Some r => Some r
        | None => finish_reason_overall w
        end),
     match text_delta item with
     | Some c => [message_received c]
     | None => []
     end).
Proof.
  destruct w as [m md h cur st ph sub str fro].
  unfold process, text_delta, finish_marker, choice_of; cbn.
  destruct (processed_chunk item) as [chunk|]; cbn;
    [|now rewrite append_empty_r].
  destruct (choices chunk) as [|choice rest]; cbn;
    [now rewrite append_empty_r|].
  destruct (content_to_emit choice) as [c|]; cbn;
    [destruct (Str.truthy c); cbn|];
    rewrite ?append_empty_r;
    destruct (finish_reason choice) as [r|]; cbn;
    try destruct (Str.truthy r); reflexivity.
Qed.

Lemma last_reason_cons (o : option string) (item : Item) (rest : list Item) :
  last_reason o (item :: rest)
  = last_reason (match finish_marker item with
                 | Some r => Some r
                 | None => o
                 end) rest.
Proof.
  unfold last_reason; cbn.
  destruct (finish_marker item) as [r|]; [|reflexivity].
  destruct (omap finish_marker rest) as [|r' l] eqn:E; [reflexivity|].
  rewrite last_cons. now destruct (last (r' :: l)).
Qed.

(** A streaming worker that is not asked to stop and whose stream does
    not fail consumes every item and ends with one [finished]. *)
Lemma run_streaming (heap : list (list Message.t)) (its : list Item) :
  forall (w : ChatWorker.t) (fuel : nat),
    phase w = Streaming ->
    _should_stop w = false ->
    items (stream w) = its ->
    fault (stream w) = None ->
    length its < fuel ->
    exists w',
      run fuel heap w =
        (w', map message_received (deltas its)
             ++ [finished (reason_text
                             (last_reason (finish_reason_overall w) its))])
      /\ current_ai_message w'
         = current_ai_message w +:+ joined (deltas its)
      /\ phase w' = Finished
      /\ submitted w' = submitted w.
Proof.
  induction its as [|item rest IH]; intros w fuel Hph Hstop Hits Hfault Hfuel.
  - destruct fuel as [|fuel]; [cbn in Hfuel; lia|].
    cbn [run]. unfold isRunning. rewrite Hph.
    unfold step. rewrite Hph, Hits, Hfault. unfold finish.
    destruct fuel; cbn [run]; unfold isRunning; cbn;
      (eexists; split; [reflexivity|]);
      cbn; now rewrite append_empty_r.
  - destruct fuel as [|fuel]; [cbn in Hfuel; lia|].
    cbn [run]. unfold isRunning. rewrite Hph.
    unfold step. rewrite Hph, Hits, Hstop, process_spec. cbn [stream].
    match goal with
    | |- context [run fuel heap ?w1] =>
        destruct (IH w1 fuel) as (w' & Hrun & Htxt & Hfin & Hsub);
          [cbn; auto .. | cbn in Hfuel; lia |]
    end.
    rewrite Hrun. exists w'. cbn in Htxt, Hsub |- *.
    rewrite last_reason_cons.
    split; [|split; [|split]]; auto.
    + unfold deltas; cbn. destruct (text_delta item); reflexivity.
    + rewrite Htxt, append_assoc. unfold deltas; cbn.
      destruct (text_delta item); reflexivity.
Qed.

End WorkerRun.

Lemma run_unfold (fuel : nat) (heap : list (list Message.t))
    (w : ChatWorker.t) :
  ChatWorker.run (S fuel) heap w
  = if ChatWorker.isRunning w then
      let '(w1, s1) := ChatWorker.step heap w in
      let '(w2, s2) := ChatWorker.run fuel heap w1 in
      (w2, s1 ++ s2)
    else (w, []).
Proof. reflexivity. Qed.

Lemma run_from_started (fuel : nat) (heap : list (list Message.t))
    (w : ChatWorker.t) :
  ChatWorker.phase w = ChatWorker.Started ->
  ChatWorker.run (S fuel) heap w
  = ChatWorker.run fuel heap (fst (ChatWorker.step heap w)).
Proof.
  intros H. rewrite run_unfold. unfold ChatWorker.isRunning, ChatWorker.step.
  rewrite H. cbn. now destruct (ChatWorker.run fuel heap _).
Qed.

(** The run of a freshly started worker on a stream without fault. *)
Lemma run_fresh (heap : list (list Message.t)) (msg : string)
    (mdl : option string) (ref : nat) (resp : Provider.Response) :
  Provider.fault resp = None ->
  let w := ChatWorker.start (ChatWorker.__init__ msg mdl ref resp) in
  exists w',
    ChatWorker.run (ChatWorker.enough w) heap w
    = (w', map message_received (deltas (Provider.items resp))
           ++ [finished (reason_text
                           (last_reason None (Provider.items resp)))])
    /\ ChatWorker.current_ai_message w'
       = joined (deltas (Provider.items resp))
    /\ ChatWorker.isRunning w' = false.
Proof.
  intros Hfault w. subst w. unfold ChatWorker.enough.
  change (ChatWorker.stream
            (ChatWorker.start (ChatWorker.__init__ msg mdl ref resp)))
    with resp.
  change (2 + ?n) with (S (S n)).
  rewrite run_from_started by reflexivity.
  destruct (run_streaming heap (Provider.items resp)
              (fst (ChatWorker.step heap
                      (ChatWorker.start
                         (ChatWorker.__init__ msg mdl ref resp))))
              (S (length (Provider.items resp))))
    as (w' & Hrun & Htxt & Hfin & _);
    [reflexivity .. | exact Hfault | lia | ].
  exists w'. split; [exact Hrun|]. split; [exact Htxt|].
  unfold ChatWorker.isRunning. now rewrite Hfin.
Qed.

(** C4. Stream accumulation and finish reason: a worker that consumes a
    stream without fault and without being asked to stop accumulates the
    concatenation of the extractable text deltas, emits one
    [message_received] per delta in stream order and then exactly one
    [finished], carrying the last finish reason supplied or ["stop"]; an
    item with neither delta nor finish reason changes nothing and emits
    nothing. *)
Theorem stream_accumulation (heap : list (list Message.t))
    (msg : string) (mdl : option string) (h : nat) (resp : Provider.Response) :
  Provider.fault resp = None ->
  let w := ChatWorker.start (ChatWorker.__init__ msg mdl h resp) in
  let out := ChatWorker.run (ChatWorker.enough w) heap w in
  ChatWorker.current_ai_message (fst out) = joined (deltas (Provider.items resp))
  /\ snd out
     = map message_received (deltas (Provider.items resp))
       ++ [finished (reason_text (last_reason None (Provider.items resp)))]
  /\ ChatWorker.isRunning (fst out) = false
  /\ (forall item w0,
        text_delta item = None -> finish_marker item = None ->
        ChatWorker.process item w0 = (w0, [])).
Proof.
  intros Hfault w out.
  destruct (run_fresh heap msg mdl h resp Hfault) as (w' & Hrun & Htxt & Hfin).
  subst out w. cbv zeta in Hrun. rewrite Hrun. cbn.
  repeat split; auto.
  intros item w0 Hd Hm. rewrite process_spec, Hd, Hm. cbn.
    rewrite append_empty_r. now destruct w0.
Qed.

Lemma stream_accumulation_witness :
  Provider.fault hello_world = None
  /\ ChatWorker.current_ai_message
       (fst (ChatWorker.run 7 [] (ChatWorker.start
              (ChatWorker.__init__ "hi" None 0 hello_world))))
     = "Hello world"
  /\ snd (ChatWorker.run 7 [] (ChatWorker.start
            (ChatWorker.__init__ "hi" None 0 hello_world)))
     = [message_received "Hel"; message_received "lo";
        message_received " world"; finished "stop"].
Proof.
  split; [reflexivity|].
  destruct (stream_accumulation [] "hi" None 0 hello_world eq_refl)
    as (Htxt & Hsig & _).
  split; [exact Htxt | exact Hsig].
Defined.

(** C2, as the code has it. Once a stop is requested while items are still
    to come, the worker leaves the loop at its next turn: it emits no
    further [message_received], keeps the text accumulated so far, and
    emits exactly one terminal signal, which is [finished] with the last
    finish reason seen or ["stop"] -- the signal of a completion; no
    [error_occurred] is emitted. *)
Theorem stop_at_next_boundary (heap : list (list Message.t))
    (w : ChatWorker.t) :
  ChatWorker.isRunning w = true ->
  ChatWorker._should_stop w = true ->
  Provider.items (ChatWorker.stream w) <> [] ->
  let out := ChatWorker.run (ChatWorker.enough w) heap w in
  snd out
  = [finished (reason_text
                 (match ChatWorker.phase w with
                  | ChatWorker.Streaming => ChatWorker.finish_reason_overall w
                  | _ => None
                  end))]
  /\ ChatWorker.current_ai_message (fst out) = ChatWorker.current_ai_message w
  /\ ChatWorker.stream (fst out) = ChatWorker.stream w
  /\ ChatWorker.isRunning (fst out) = false.
Proof.
  destruct w as [m md h cur st ph sub [its flt] fro].
  unfold ChatWorker.isRunning, ChatWorker.enough; cbn.
  intros Hrun -> Hits.
  destruct its as [|item rest]; [congruence|].
  destruct ph; try discriminate; cbn; repeat split; reflexivity.
Qed.

Lemma stop_at_next_boundary_witness :
  ChatWorker.isRunning stopped_midway = true
  /\ ChatWorker._should_stop stopped_midway = true
  /\ Provider.items (ChatWorker.stream stopped_midway) <> []
  /\ snd (ChatWorker.run 3 [] stopped_midway) = [finished "stop"]
  /\ ChatWorker.current_ai_message (fst (ChatWorker.run 3 [] stopped_midway))
     = "Hel".
Proof.
  assert (H1 : ChatWorker.isRunning stopped_midway = true) by reflexivity.
  assert (H2 : ChatWorker._should_stop stopped_midway = true) by reflexivity.
  assert (H3 : Provider.items (ChatWorker.stream stopped_midway) <> [])
    by discriminate.
  destruct (stop_at_next_boundary [] stopped_midway H1 H2 H3)
    as (Hsig & Htxt & _).
  repeat split; auto.
Defined.

(** C2 as stated fails: the terminal signal of a stopped run is
    [finished], the very signal that reports a completion; the worker has
    no signal of its own for a cancellation. *)
Lemma cancellation_is_reported_as_completion :
  ~ (forall (heap : list (list Message.t)) (w : ChatWorker.t),
       ChatWorker.isRunning w = true ->
       ChatWorker._should_stop w = true ->
       Provider.items (ChatWorker.stream w) <> [] ->
       forall reason,
         last (snd (ChatWorker.run (ChatWorker.enough w) heap w))
         <> Some (finished reason)).
Proof.
  intros H.
  apply (H [] stopped_midway eq_refl eq_refl ltac:(discriminate) "stop").
  reflexivity.
Qed.

(** ** History truncation *)

Section Truncation.
Import ChatTab.

Lemma trim_acc (uc ac : nat) (h : list Message.t) :
  forall acc cu ca,
    trim uc ac h acc cu ca = acc ++ trim uc ac h [] cu ca.
Proof.
  induction h as [|m h IH]; intros acc cu ca; cbn -[Nat.ltb].
  - now rewrite app_nil_r.
  - destruct (String.eqb (Message.role m) "user").
    + destruct (cu <? uc)%nat; [|now rewrite app_nil_r].
      rewrite IH, (IH ([] ++ [m])). now rewrite app_assoc.
    + destruct (String.eqb (Message.role m) "assistant"); [|apply IH].
      destruct (ca <? ac)%nat; [|now rewrite app_nil_r].
      rewrite IH, (IH ([] ++ [m])). now rewrite app_assoc.
Qed.

Lemma trim_spoken (uc ac : nat) (h : list Message.t) :
  forall cu ca, Forall (fun m => spoken m = true) (trim uc ac h [] cu ca).
Proof.
  induction h as [|m h IH]; intros cu ca; cbn -[Nat.ltb]; [constructor|].
  destruct (String.eqb (Message.role m) "user") eqn:Eu.
  - destruct (cu <? uc)%nat; [|constructor].
    rewrite trim_acc. cbn. constructor; [|apply IH].
    unfold spoken. now rewrite Eu.
  - destruct (String.eqb (Message.role m) "assistant") eqn:Ea; [|apply IH].
    destruct (ca <? ac)%nat; [|constructor].
    rewrite trim_acc. cbn. constructor; [|apply IH].
    unfold spoken. now rewrite Eu, Ea.
Qed.

Lemma trim_filter (uc ac : nat) (h : list Message.t) :
  forall acc cu ca,
    trim uc ac h acc cu ca = trim uc ac (List.filter spoken h) acc cu ca.
Proof.
  induction h as [|m h IH]; intros acc cu ca; cbn -[Nat.ltb]; [reflexivity|].
  unfold spoken at 1.
  destruct (String.eqb (Message.role m) "user") eqn:Eu; cbn -[Nat.ltb].
  - rewrite Eu. destruct (cu <? uc)%nat; [apply IH | reflexivity].
  - destruct (String.eqb (Message.role m) "assistant") eqn:Ea; cbn -[Nat.ltb].
    + rewrite Eu, Ea. destruct (ca <? ac)%nat; [apply IH | reflexivity].
    + apply IH.
Qed.

Lemma trim_prefix (uc ac : nat) (h : list Message.t) :
  forall cu ca,
    trim uc ac h [] cu ca `prefix_of` List.filter spoken h.
Proof.
  induction h as [|m h IH]; intros cu ca; cbn -[Nat.ltb]; [reflexivity|].
  unfold spoken at 1.
  destruct (String.eqb (Message.role m) "user") eqn:Eu; cbn -[Nat.ltb].
  - destruct (cu <? uc)%nat; [|apply prefix_nil].
    rewrite trim_acc. cbn. apply prefix_cons, IH.
  - destruct (String.eqb (Message.role m) "assistant") eqn:Ea; cbn -[Nat.ltb];
      [|apply IH].
    destruct (ca <? ac)%nat; [|apply prefix_nil].
    rewrite trim_acc. cbn. apply prefix_cons, IH.
Qed.

(** Reading the history right after the attribute was bound to a new
    list object. *)
Lemma history_rebound (rt : Runtime) (s : ChatTab.t)
    (new_history : list Message.t) :
  history (set_lists (lists rt ++ [new_history]) rt)
          (set_conversation_history (length (lists rt)) s)
  = new_history.
Proof.
  unfold history; cbn.
  now rewrite list_lookup_middle.
Qed.

Lemma truncated_history (message_index : Z) (exclude_current : bool)
    (rt : Runtime) (s : ChatTab.t) :
  exists uc ac,
    count_widgets
      (take (Z.to_nat (if exclude_current then message_index
                       else (message_index + 1)%Z)) (chat_layout s)) 0 0
    = (uc, ac)
    /\ update_conversation_history_to_index message_index exclude_current rt s
       = (set_lists (lists rt ++ [trim uc ac (history rt s) [] 0 0]) rt,
          set_conversation_history (length (lists rt)) s).
Proof.
  unfold update_conversation_history_to_index.
  destruct (count_widgets _ 0 0) as [uc ac]. eauto.
Qed.

End Truncation.

(** C10. Truncation drops foreign roles: the history that
    [update_conversation_history_to_index] leaves holds only ["user"] and
    ["assistant"] entries; it is a prefix of the old history with every
    other entry taken out; and those entries are not counted: the loop
    gives the same result on the history without them. *)
Theorem truncation_drops_foreign_roles (message_index : Z)
    (exclude_current : bool) (rt : Runtime) (s : ChatTab.t) :
  let out :=
    ChatTab.update_conversation_history_to_index message_index exclude_current
      rt s in
  let kept := ChatTab.history (fst out) (snd out) in
  Forall (fun m => Message.role m = "user" \/ Message.role m = "assistant") kept
  /\ kept `prefix_of` List.filter spoken (ChatTab.history rt s)
  /\ (forall uc ac h,
        ChatTab.trim uc ac h [] 0 0
        = ChatTab.trim uc ac (List.filter spoken h) [] 0 0).
Proof.
  intros out kept.
  destruct (truncated_history message_index exclude_current rt s)
    as (uc & ac & _ & Hout).
  subst kept out. rewrite Hout. cbn [fst snd]. rewrite history_rebound.
  split; [|split].
  - eapply Forall_impl; [apply trim_spoken|].
    intros m Hm. unfold spoken in Hm. apply orb_true_iff in Hm.
    destruct Hm as [H|H]; apply String.eqb_eq in H; auto.
  - apply trim_prefix.
  - intros. apply trim_filter.
Qed.

(** ** Stopping a worker, sending a message *)

Section Sending.
Import ChatTab.

(** [stop_safely] touches the thread and the queue only. *)
Lemma stop_safely_frame (b : bool) (i : nat) (rt : Runtime) :
  lists (stop_safely b i rt) = lists rt
  /\ dialogs (stop_safely b i rt) = dialogs rt
  /\ widgets_made (stop_safely b i rt) = widgets_made rt
  /\ length (threads (stop_safely b i rt)) = length (threads rt).
Proof.
  unfold stop_safely.
  destruct (threads rt !! i) as [w|]; [|auto].
  destruct (ChatWorker.isRunning w); cbn [negb]; [|auto].
  destruct b.
  - match goal with
    | |- context [ChatWorker.run ?f ?h ?x] =>
        destruct (ChatWorker.run f h x) as [w2 sigs]
    end.
    cbn. rewrite length_insert. auto.
  - cbn. rewrite length_insert. auto.
Qed.

(** After [terminate_worker] the tab has no running worker; history,
    layout and input are as before. *)
Lemma terminate_worker_frame (b : bool) (rt : Runtime) (s : ChatTab.t) :
  let out := terminate_worker b rt s in
  worker_running (fst out) (snd out) = false
  /\ lists (fst out) = lists rt
  /\ dialogs (fst out) = dialogs rt
  /\ widgets_made (fst out) = widgets_made rt
  /\ length (threads (fst out)) = length (threads rt)
  /\ conversation_history (snd out) = conversation_history s
  /\ chat_layout (snd out) = chat_layout s
  /\ message_input (snd out) = message_input s
  /\ current_model (snd out) = current_model s.
Proof.
  unfold terminate_worker.
  destruct (worker_running rt s) eqn:Hrun; [|cbn; repeat split; auto].
  destruct (chat_worker s) as [i|] eqn:Hw; cbn;
    [|unfold worker_running in Hrun; rewrite Hw in Hrun; discriminate].
  destruct (stop_safely_frame b i rt) as (H1 & H2 & H3 & H4).
  repeat split; auto.
Qed.

(** What [send_message] does with a non-blank input. *)
Lemma send_message_sent (env : Env) (rt : Runtime) (s : ChatTab.t) :
  let message := Str.strip (message_input s) in
  let rt1 := fst (terminate_worker (in_time env) rt s) in
  let out := send_message env rt s in
  Str.truthy message = true ->
  lists (fst out)
    = alter (fun l => l ++ [Message.user message]) (conversation_history s)
            (lists rt)
  /\ conversation_history (snd out) = conversation_history s
  /\ threads (fst out)
     = threads rt1
       ++ [ChatWorker.start
             (ChatWorker.__init__ message
                (if Str.truthy (selected_model env)
                 then Some (selected_model env) else current_model s)
                (conversation_history s) (response env))]
  /\ queue (fst out) = queue rt1
  /\ chat_worker (snd out) = Some (length (threads rt1))
  /\ chat_layout (snd out)
     = insert_before_last
         (MessageWidget (ChatMessage.mk (widgets_made rt) message true None))
         (chat_layout s)
  /\ widgets_made (fst out) = S (widgets_made rt)
  /\ current_ai_message (snd out) = ""
  /\ ai_message_widget (snd out) = None
  /\ message_input (snd out) = "".
Proof.
  intros message rt1 out Hmsg. subst out rt1. unfold send_message.
  destruct (terminate_worker_frame (in_time env) rt s)
    as (Hrun & Hl & Hd & Hm & Ht & Hh & Hlay & Hin & Hmod).
  destruct (terminate_worker (in_time env) rt s) as [rt1 s1].
  cbn [fst snd] in *. rewrite Hin. fold message. rewrite Hmsg, Hrun.
  cbn [negb]. unfold message_sent.
  destruct (Str.truthy (selected_model env)); cbn;
    rewrite ?Hl, ?Hh, ?Hlay, ?Hm, ?Hmod; repeat split; reflexivity.
Qed.

Lemma send_message_history (env : Env) (rt : Runtime) (s : ChatTab.t)
    (h : list Message.t) :
  lists rt !! conversation_history s = Some h ->
  Str.truthy (Str.strip (message_input s)) = true ->
  let out := send_message env rt s in
  history (fst out) (snd out)
  = h ++ [Message.user (Str.strip (message_input s))].
Proof.
  intros Hh Hmsg out.
  destruct (send_message_sent env rt s Hmsg) as (Hl & Hc & _).
  subst out. unfold history. rewrite Hl, Hc.
  rewrite list_lookup_alter, Hh. case_decide; [reflexivity | congruence].
Qed.

End Sending.

(** ** Editing and resending a message *)

Section Editing.
Import ChatTab.

Lemma index_of_found (id : nat) (target : ChatMessage.t)
    (pre post : list LayoutItem) :
  ChatMessage.ident target = id ->
  forall i,
    index_of id pre i = (-1)%Z ->
    index_of id (pre ++ MessageWidget target :: post) i
    = Z.of_nat (i + length pre).
Proof.
  intros Hid. induction pre as [|item pre IH]; intros i Hpre; cbn in *.
  - rewrite Hid, Nat.eqb_refl. f_equal. lia.
  - destruct item as [|w|]; try (rewrite IH by assumption; f_equal; lia).
    destruct (ChatMessage.ident w =? id)%nat; [lia|].
    rewrite IH by assumption. f_equal. lia.
Qed.

Lemma removeWidget_absent (id : nat) (pre : list LayoutItem) :
  forall i, index_of id pre i = (-1)%Z -> removeWidget id pre = pre.
Proof.
  induction pre as [|item pre IH]; intros i Hpre; cbn in *; [reflexivity|].
  destruct item as [|w|]; cbn; try (f_equal; eapply IH; eassumption).
  destruct (ChatMessage.ident w =? id)%nat; [lia|].
  cbn. f_equal. eapply IH; eassumption.
Qed.

Lemma remove_between_before (start_index stop : nat)
    (pre rest : list LayoutItem) :
  forall i,
    i + length pre <= start_index ->
    remove_between start_index stop i (pre ++ rest)
    = pre ++ remove_between start_index stop (i + length pre) rest.
Proof.
  induction pre as [|item pre IH]; intros i Hle; cbn in *.
  - f_equal. lia.
  - destruct (start_index <=? i)%nat eqn:E;
      [apply Nat.leb_le in E; lia|].
    cbn. f_equal. rewrite IH by lia. do 2 f_equal. lia.
Qed.

(** The layout after the first half of [update_last_message]: what came
    before the target stays, the target goes. *)
Lemma layout_without_target (target : ChatMessage.t)
    (pre post : list LayoutItem) :
  index_of (ChatMessage.ident target) pre 0 = (-1)%Z ->
  removeWidget (ChatMessage.ident target)
    (remove_messages_after_index (length pre) false
       (pre ++ MessageWidget target :: post))
  = pre ++ removeWidget (ChatMessage.ident target)
             (remove_between (S (length pre))
                (length (pre ++ MessageWidget target :: post) - 1)
                (S (length pre)) post).
Proof.
  intros Hpre. unfold remove_messages_after_index.
  rewrite remove_between_before by (cbn; lia).
  cbn -[Nat.eqb Nat.leb Nat.ltb].
  replace (S (length pre) <=? length pre)%nat with false
    by (symmetry; apply Nat.leb_gt; lia).
  cbn -[Nat.eqb Nat.leb Nat.ltb].
  unfold removeWidget at 1. rewrite List.filter_app.
  cbn -[Nat.eqb Nat.leb Nat.ltb].
  rewrite Nat.eqb_refl. cbn -[Nat.eqb Nat.leb Nat.ltb]. f_equal.
  eapply removeWidget_absent; eassumption.
Qed.

Lemma count_widgets_mono (layout : list LayoutItem) :
  forall u a uc ac,
    count_widgets layout u a = (uc, ac) -> u <= uc /\ a <= ac.
Proof.
  induction layout as [|item layout IH]; intros u a uc ac H; cbn in H.
  - inversion H; lia.
  - destruct item as [|w|]; try (apply IH in H; lia).
    destruct (ChatMessage.is_user_message w); apply IH in H; lia.
Qed.

(** When the history starts with the entries of the widgets that precede
    the target, followed by a user entry, the loop keeps exactly those
    entries. *)
Lemma trim_matching (pre : list LayoutItem) :
  forall (kept : list Message.t) (tmsg : Message.t) (after acc : list Message.t)
         (cu ca uc ac : nat),
    map Message.role kept = shown_roles pre ->
    Message.role tmsg = "user" ->
    count_widgets pre cu ca = (uc, ac) ->
    trim uc ac (kept ++ tmsg :: after) acc cu ca = acc ++ kept.
Proof.
  induction pre as [|item pre IH];
    intros kept tmsg after acc cu ca uc ac Hroles Huser Hcount;
    cbn -[Nat.ltb] in *.
  - destruct kept; [|discriminate]. inversion Hcount; subst.
    cbn -[Nat.ltb]. rewrite Huser. cbn -[Nat.ltb].
    rewrite Nat.ltb_irrefl. now rewrite app_nil_r.
  - destruct item as [|w|]; try (eapply IH; eassumption).
    destruct kept as [|m kept]; [discriminate|].
    inversion Hroles as [[Hm Hkept]]. cbn -[Nat.ltb].
    unfold widget_role in Hm.
    destruct (ChatMessage.is_user_message w); rewrite Hm; cbn -[Nat.ltb].
    + destruct (count_widgets_mono _ _ _ _ _ Hcount) as [Hu _].
      replace (cu <? uc)%nat with true by (symmetry; apply Nat.ltb_lt; lia).
      erewrite IH by eassumption. now rewrite <- app_assoc.
    + destruct (count_widgets_mono _ _ _ _ _ Hcount) as [_ Ha].
      replace (ca <? ac)%nat with true by (symmetry; apply Nat.ltb_lt; lia).
      erewrite IH by eassumption. now rewrite <- app_assoc.
Qed.

Lemma send_message_blank (env : Env) (rt : Runtime) (s : ChatTab.t) :
  Str.truthy (Str.strip (message_input s)) = false ->
  send_message env rt s = terminate_worker (in_time env) rt s.
Proof.
  intros Hmsg. unfold send_message.
  destruct (terminate_worker_frame (in_time env) rt s)
    as (_ & _ & _ & _ & _ & _ & _ & Hin & _).
  destruct (terminate_worker (in_time env) rt s) as [rt1 s1].
  cbn [fst snd] in *. now rewrite Hin, Hmsg.
Qed.

(** The history after [send_message], blank input or not. *)
Lemma send_message_appends (env : Env) (rt : Runtime) (s : ChatTab.t)
    (h : list Message.t) :
  lists rt !! conversation_history s = Some h ->
  let message := Str.strip (message_input s) in
  let out := send_message env rt s in
  history (fst out) (snd out)
  = h ++ (if Str.truthy message then [Message.user message] else []).
Proof.
  intros Hh message out. subst out.
  destruct (Str.truthy message) eqn:Hmsg.
  - now apply send_message_history.
  - rewrite send_message_blank by assumption.
    destruct (terminate_worker_frame (in_time env) rt s)
      as (_ & Hl & _ & _ & _ & Hc & _).
    unfold history. rewrite Hl, Hc, Hh. cbn. now rewrite app_nil_r.
Qed.

End Editing.

(** C6, as the code has it. When the widgets shown before the target
    correspond, one to one and in order, to the first [i] history entries
    (as they do in a conversation built by sending), and entry [i] is the
    target's user entry, [update_last_message] cuts the history down to
    exactly its first [i] entries, whatever follows, and then appends the
    new user message if its text is not blank.  A resend is the same
    operation with the empty [text], which submits the widget's own
    content. *)
Theorem truncate_correctness (env : Env) (target : ChatMessage.t)
    (text : string) (rt : Runtime) (s : ChatTab.t)
    (pre post : list LayoutItem) (kept : list Message.t) (tmsg : Message.t)
    (after : list Message.t) :
  ChatTab.chat_layout s = pre ++ MessageWidget target :: post ->
  ChatTab.index_of (ChatMessage.ident target) pre 0 = (-1)%Z ->
  lists rt !! ChatTab.conversation_history s = Some (kept ++ tmsg :: after) ->
  Message.role tmsg = "user" ->
  map Message.role kept = shown_roles pre ->
  let i := length kept in
  let message :=
    Str.strip (if String.eqb text "" then ChatMessage.raw_content target
               else Str.strip text) in
  let out := ChatTab.update_last_message env target text rt s in
  ChatTab.history (fst out) (snd out)
  = take i (ChatTab.history rt s)
    ++ (if Str.truthy message then [Message.user message] else [])
  /\ ChatTab.handle_resend_request env target rt s
     = ChatTab.update_last_message env target "" rt s.
Proof.
  intros Hlay Hpre Hh Huser Hroles i message out.
  split; [|reflexivity].
  subst out. unfold ChatTab.update_last_message.
  rewrite Hlay, (index_of_found _ target pre post eq_refl 0 Hpre).
  replace (Z.of_nat (0 + length pre) =? -1)%Z with false
    by (symmetry; apply Z.eqb_neq; lia).
  replace (Z.to_nat (Z.of_nat (0 + length pre))) with (length pre) by lia.
  cbn [ChatTab.chat_layout ChatTab.set_chat_layout].
  rewrite layout_without_target by assumption.
  match goal with
  | |- context [ChatTab.update_conversation_history_to_index ?mi ?ex rt ?s1] =>
      destruct (truncated_history mi ex rt s1) as (uc & ac & Hcount & ->)
  end.
  cbn [ChatTab.chat_layout ChatTab.set_chat_layout] in Hcount.
  replace (Z.to_nat (Z.of_nat (0 + length pre) - 1 + 1)) with (length pre)
    in Hcount by lia.
  rewrite take_app_length in Hcount.
  match goal with
  | |- context [ChatTab.trim uc ac ?h [] 0 0] =>
      replace (ChatTab.trim uc ac h [] 0 0) with kept
  end.
  2:{ unfold ChatTab.history. cbn. rewrite Hh. cbn.
      now rewrite (trim_matching pre kept tmsg after [] 0 0 uc ac). }
  match goal with
  | |- context [ChatTab.send_message env ?rt2 ?s2] =>
      rewrite (send_message_appends env rt2 s2 kept)
  end.
  - cbn. unfold ChatTab.history. rewrite Hh. cbn.
    subst i. now rewrite take_app_length.
  - cbn. now rewrite list_lookup_middle.
Qed.

Lemma truncate_correctness_witness :
  let out :=
    ChatTab.update_last_message quiet_env (ChatMessage.mk 2 "u2" true None)
      " again " (fst two_exchanges) (snd two_exchanges) in
  ChatTab.history (fst out) (snd out)
  = [Message.user "u1"; Message.assistant "a1" (Some "m");
     Message.user "again"].
Proof.
  exact (proj1
    (truncate_correctness quiet_env (ChatMessage.mk 2 "u2" true None) " again "
       (fst two_exchanges) (snd two_exchanges)
       [SuggestionsWidget;
        MessageWidget (ChatMessage.mk 0 "u1" true None);
        MessageWidget (ChatMessage.mk 1 "a1" false (Some "m"))]
       [MessageWidget (ChatMessage.mk 3 "a2" false (Some "m")); Stretch]
       [Message.user "u1"; Message.assistant "a1" (Some "m")]
       (Message.user "u2") [Message.assistant "a2" (Some "m")]
       eq_refl eq_refl eq_refl eq_refl eq_refl)).
Defined.

(** C6 as stated fails: the user message ["u2"] sits at history index 3,
    yet editing it leaves a history of 2 entries before the new message,
    not the first 3. *)
Lemma truncate_counts_roles_not_positions :
  let rt := fst imported_with_system in
  let s := snd imported_with_system in
  let out :=
    ChatTab.update_last_message quiet_env (ChatMessage.mk 3 "u2" true None)
      "x" rt s in
  ChatTab.history rt s !! 3 = Some (Message.user "u2")
  /\ ChatTab.history (fst out) (snd out)
     = [Message.user "u1"; Message.assistant "a1" None; Message.user "x"]
  /\ ChatTab.history (fst out) (snd out)
     <> take 3 (ChatTab.history rt s) ++ [Message.user "x"].
Proof.
  repeat split; try reflexivity.
  vm_compute. discriminate.
Qed.

(** ** The prompt of a session *)

(** C8 fails on the code. The worker keeps a reference to the tab's
    history list, and [send_message] appends the new user message to that
    list right after [start()]; when [run] then builds its arguments, the
    list already ends with the new message and the prompt carries it
    twice. *)
Theorem prompt_repeats_new_message :
  let rt := fst (typed "hi") in
  let s := snd (typed "hi") in
  let sent := ChatTab.send_message quiet_env rt s in
  ChatTab.history rt s = []
  /\ ChatTab.chat_worker (snd sent) = Some 0
  /\ prompt_of 0 (worker_step 0 (fst sent))
     = Some [Message.user "hi"; Message.user "hi"]
  /\ prompt_of 0 (worker_step 0 (fst sent))
     <> Some (ChatTab.history rt s ++ [Message.user "hi"]).
Proof. repeat split; try reflexivity. vm_compute. discriminate. Qed.

(** In general: whenever [run] builds its arguments after [send_message]
    has returned, the prompt is the old history followed by the new user
    message twice. *)
Lemma prompt_after_send (env : Env) (rt : Runtime) (s : ChatTab.t)
    (h : list Message.t) :
  lists rt !! ChatTab.conversation_history s = Some h ->
  Str.truthy (Str.strip (ChatTab.message_input s)) = true ->
  let message := Str.strip (ChatTab.message_input s) in
  let sent := ChatTab.send_message env rt s in
  forall i, ChatTab.chat_worker (snd sent) = Some i ->
    prompt_of i (worker_step i (fst sent))
    = Some (h ++ [Message.user message; Message.user message]).
Proof.
  intros Hh Hmsg message sent i Hi. subst sent.
  destruct (send_message_sent env rt s Hmsg)
    as (Hl & Hc & Ht & Hq & Hw & _).
  rewrite Hw in Hi. inversion Hi; subst i. clear Hi.
  unfold prompt_of, worker_step.
  rewrite Ht, list_lookup_middle by reflexivity.
  cbn.
  rewrite list_lookup_insert_eq by (rewrite length_app; cbn; lia).
  cbn. rewrite Hl, list_lookup_alter, Hh.
  case_decide; [|congruence]. cbn. now rewrite <- app_assoc.
Qed.

(** ** Every run ends *)

Section Termination.
Import Provider ChatWorker.

Lemma run_streaming_ends (heap : list (list Message.t)) (its : list Item) :
  forall (w : ChatWorker.t) (fuel : nat),
    phase w = Streaming ->
    items (stream w) = its ->
    length its < fuel ->
    isRunning (fst (run fuel heap w)) = false.
Proof.
  induction its as [|item rest IH]; intros w fuel Hph Hits Hfuel;
    (destruct fuel as [|fuel]; [cbn in Hfuel; lia|]);
    rewrite run_unfold;
    replace (isRunning w) with true by (unfold isRunning; now rewrite Hph);
    unfold step; rewrite Hph, Hits.
  - destruct (fault (stream w)) as [e|]; unfold raised, finish;
      destruct fuel; reflexivity.
  - destruct (_should_stop w).
    + unfold finish. destruct fuel; reflexivity.
    + rewrite process_spec. cbn [stream set_stream].
      match goal with
      | |- context [run fuel heap ?w1] =>
          specialize (IH w1 fuel);
          destruct (run fuel heap w1) as [w2 s2]
      end.
      cbn in *. apply IH; auto. lia.
Qed.

(** [enough] turns bring any worker to the end of [run]. *)
Lemma run_ends (heap : list (list Message.t)) (w : ChatWorker.t) :
  isRunning (fst (run (enough w) heap w)) = false.
Proof.
  unfold enough. change (2 + ?n) with (S (S n)).
  destruct (phase w) eqn:Hph.
  - rewrite run_unfold.
    replace (isRunning w) with false by (unfold isRunning; now rewrite Hph).
    unfold isRunning. cbn. now rewrite Hph.
  - rewrite run_from_started by assumption.
    apply (run_streaming_ends heap (items (stream w))).
    + unfold step. now rewrite Hph.
    + unfold step. now rewrite Hph.
    + lia.
  - apply (run_streaming_ends heap (items (stream w))); auto.
  - rewrite run_unfold.
    replace (isRunning w) with false by (unfold isRunning; now rewrite Hph).
    unfold isRunning. cbn. now rewrite Hph.
Qed.

End Termination.

(** ** The slots of the tab *)

Section Slots.
Import ChatTab.

(** After [stop_safely i] thread [i] is not running. *)
Lemma stop_safely_stops (b : bool) (i : nat) (rt : Runtime) :
  forall w, threads (stop_safely b i rt) !! i = Some w ->
            ChatWorker.isRunning w = false.
Proof.
  intros w. unfold stop_safely.
  destruct (threads rt !! i) as [w0|] eqn:Hi; [|congruence].
  destruct (ChatWorker.isRunning w0) eqn:Hrun; cbn [negb];
    [|rewrite Hi; congruence].
  assert (Hlt : i < length (threads rt)) by (eapply lookup_lt_Some; eauto).
  destruct b.
  - pose proof (run_ends (lists rt) (ChatWorker.set_should_stop true w0))
      as Hend.
    destruct (ChatWorker.run _ (lists rt)
                (ChatWorker.set_should_stop true w0)) as [w2 sigs].
    cbn in *. rewrite list_lookup_insert_eq by assumption. congruence.
  - cbn. rewrite list_lookup_insert_eq by assumption.
    intros H; inversion H; reflexivity.
Qed.

(** The other threads are left alone. *)
Lemma stop_safely_others (b : bool) (i j : nat) (rt : Runtime) :
  i <> j -> threads (stop_safely b i rt) !! j = threads rt !! j.
Proof.
  intros Hne. unfold stop_safely.
  destruct (threads rt !! i) as [w0|]; [|reflexivity].
  destruct (ChatWorker.isRunning w0); cbn [negb]; [|reflexivity].
  destruct b.
  - destruct (ChatWorker.run _ (lists rt)
                (ChatWorker.set_should_stop true w0)) as [w2 sigs].
    cbn. now rewrite list_lookup_insert_ne.
  - cbn. now rewrite list_lookup_insert_ne.
Qed.

(** [handle_chat_finished]: the buffer, if not empty, becomes an
    assistant entry whatever the finish reason is; the slot is cleared;
    no box is shown. *)
Lemma handle_chat_finished_spec (b : bool) (reason : string)
    (rt : Runtime) (s : ChatTab.t) (h : list Message.t) :
  lists rt !! conversation_history s = Some h ->
  let out := handle_chat_finished b reason rt s in
  history (fst out) (snd out)
  = h ++ (if Str.truthy (current_ai_message s)
          then [Message.assistant (current_ai_message s) (current_model s)]
          else [])
  /\ chat_worker (snd out) = None
  /\ dialogs (fst out) = dialogs rt
  /\ current_ai_message (snd out) = current_ai_message s
  /\ conversation_history (snd out) = conversation_history s
  /\ worker_running (fst out) s = false.
Proof.
  intros Hh out. subst out. unfold handle_chat_finished.
  set (mid :=
    if Str.truthy (current_ai_message s)
    then
      let rt0 := list_append (conversation_history s)
                   (Message.assistant (current_ai_message s)
                      (current_model s)) rt in
      if String.eqb reason "length"
      then add_message length_warning false (Some "System") rt0 s
      else (rt0, s)
    else (rt, s)).
  assert (Hmid :
    lists (fst mid) !! conversation_history s
    = Some (h ++ (if Str.truthy (current_ai_message s)
                  then [Message.assistant (current_ai_message s)
                          (current_model s)]
                  else []))
    /\ dialogs (fst mid) = dialogs rt
    /\ current_ai_message (snd mid) = current_ai_message s
    /\ conversation_history (snd mid) = conversation_history s
    /\ chat_worker (snd mid) = chat_worker s).
  { subst mid. destruct (Str.truthy (current_ai_message s)).
    - destruct (String.eqb reason "length"); cbn;
        rewrite list_lookup_alter, Hh;
        (case_decide; [|congruence]); repeat split; reflexivity.
    - cbn. rewrite Hh, app_nil_r. repeat split; reflexivity. }
  destruct mid as [rt1 s1]. cbn [fst snd] in Hmid.
  destruct Hmid as (Hl & Hd & Hbuf & Hc & Hw).
  destruct (chat_worker s1) as [i|] eqn:Hs1; cbn [fst snd].
  - destruct (stop_safely_frame b i rt1) as (Hl' & Hd' & _).
    unfold history. cbn. rewrite Hl', Hd', Hc, Hl. repeat split; auto.
    unfold worker_running. rewrite <- Hw.
    destruct (threads (stop_safely b i rt1) !! i) as [w|] eqn:Hi;
      [|reflexivity].
    eapply stop_safely_stops; eassumption.
  - unfold history. rewrite Hc, Hl. cbn. repeat split; auto.
    unfold worker_running. now rewrite <- Hw.
Qed.

End Slots.

(** C3, as the code has it. When a run ends in a fault the worker emits
    exactly one [error_occurred], and [handle_error] shows exactly one
    error box and releases the worker slot; it then goes through
    [handle_chat_finished], which does not look at the reason ["error"]:
    no assistant entry is appended when no text had arrived, and text that
    had arrived before the fault is appended as an assistant entry. *)
Theorem error_surfaced_once (b : bool) (error_message : string)
    (rt : Runtime) (s : ChatTab.t) (h : list Message.t) :
  lists rt !! ChatTab.conversation_history s = Some h ->
  let out := ChatTab.handle_error b error_message rt s in
  (exists shown, dialogs (fst out) = dialogs rt ++ [Critical shown])
  /\ ChatTab.history (fst out) (snd out)
     = h ++ (if Str.truthy (ChatTab.current_ai_message s)
             then [Message.assistant (ChatTab.current_ai_message s)
                     (ChatTab.current_model s)]
             else [])
  /\ ChatTab.chat_worker (snd out) = None
  /\ (forall e w, exists m,
        snd (ChatWorker.raised e w) = [error_occurred m; finished "error"]).
Proof.
  intros Hh out. subst out. unfold ChatTab.handle_error.
  match goal with
  | |- context [ChatTab.handle_chat_finished b "error" ?rt1 s] =>
      assert (Hd1 : exists shown, dialogs rt1 = dialogs rt ++ [Critical shown])
        by (destruct (Str.any_in _ _); eexists; reflexivity);
      assert (Hl1 : lists rt1 = lists rt)
        by (destruct (Str.any_in _ _); reflexivity);
      destruct (handle_chat_finished_spec b "error" rt1 s h)
        as (Hhist & Hw & Hd & _); [now rewrite Hl1|]
  end.
  destruct Hd1 as [shown Hd1].
  split; [exists shown; now rewrite Hd, Hd1|].
  split; [assumption|]. split; [assumption|].
  intros [m|m] w; eexists; reflexivity.
Qed.

Lemma error_surfaced_once_witness :
  let out := ChatTab.handle_error true "boom" (fst just_sent) (snd just_sent) in
  dialogs (fst out) = [Critical "An error occurred: boom"]
  /\ ChatTab.history (fst out) (snd out) = [Message.user "hi"].
Proof.
  destruct (error_surfaced_once true "boom" (fst just_sent) (snd just_sent)
              [Message.user "hi"] eq_refl) as (_ & Hh & _).
  split; [reflexivity | exact Hh].
Defined.

(** C3 as stated fails: the text that arrived before the fault ends up in
    the history (here twice, since the worker's [finished("error")] goes
    through [handle_chat_finished] once more). *)
Lemma error_pollutes_history :
  let sent :=
    ChatTab.send_message failing_env (fst (typed "hi")) (snd (typed "hi")) in
  let out := settle (fst sent) (snd sent) in
  ChatTab.history (fst out) (snd out)
  = [Message.user "hi"; Message.assistant "par" (Some "m");
     Message.assistant "par" (Some "m")]
  /\ dialogs (fst out)
     = [Critical "An error occurred: You've hit the API rate limit. Please wait a moment before sending another message."].
Proof. split; reflexivity. Qed.

(** C5, as the code has it. The slots take the signal's argument only, so
    an emission of a session that is no longer the tab's current one is
    handled like any other: a late text chunk is appended to the current
    buffer, and a late [finished] or [error_occurred] appends the current
    buffer (if not empty) to the history, stops the tab's current worker
    and clears the slot. *)
Theorem late_events_are_handled (b : bool) (rt : Runtime) (s : ChatTab.t)
    (i : nat) (signal : Signal) (rest : list (nat * Signal))
    (h : list Message.t) :
  queue rt = (i, signal) :: rest ->
  ChatTab.chat_worker s <> Some i ->
  lists rt !! ChatTab.conversation_history s = Some h ->
  let out := ChatTab.deliver b rt s in
  let flushed :=
    h ++ (if Str.truthy (ChatTab.current_ai_message s)
          then [Message.assistant (ChatTab.current_ai_message s)
                  (ChatTab.current_model s)]
          else []) in
  match signal with
  | message_received chunk =>
      ChatTab.current_ai_message (snd out)
      = ChatTab.current_ai_message s +:+ chunk
      /\ ChatTab.history (fst out) (snd out) = h
      /\ ChatTab.chat_worker (snd out) = ChatTab.chat_worker s
  | finished _ | error_occurred _ =>
      ChatTab.history (fst out) (snd out) = flushed
      /\ ChatTab.chat_worker (snd out) = None
      /\ ChatTab.worker_running (fst out) s = false
  end.
Proof.
  intros Hq Hlate Hh out flushed. subst out flushed.
  unfold ChatTab.deliver. rewrite Hq.
  destruct signal as [chunk|msg|reason].
  - unfold ChatTab.handle_ai_message_chunk, ChatTab.history.
    cbn. destruct (ChatTab.ai_message_widget s); cbn; now rewrite Hh.
  - unfold ChatTab.handle_error.
    match goal with
    | |- context [ChatTab.handle_chat_finished b "error" ?rt1 s] =>
        assert (Hl1 : lists rt1 = lists rt)
          by (destruct (Str.any_in _ _); reflexivity);
        destruct (handle_chat_finished_spec b "error" rt1 s h)
          as (Hhist & Hw & _ & _ & _ & Hrun); [now rewrite Hl1|]
    end.
    auto.
  - destruct (handle_chat_finished_spec b reason (set_queue rest rt) s h)
      as (Hhist & Hw & _ & _ & _ & Hrun); [assumption|].
    auto.
Qed.

Lemma late_events_are_handled_witness :
  let rt := fst resent_while_streaming in
  let s := snd resent_while_streaming in
  let out := ChatTab.deliver true rt s in
  queue rt = [(0, message_received "x"); (0, finished "stop")]
  /\ ChatTab.chat_worker s = Some 1
  /\ ChatTab.current_ai_message (snd out) = "x"
  /\ ChatTab.history (fst out) (snd out) = [Message.user "a"].
Proof.
  pose proof (late_events_are_handled true (fst resent_while_streaming)
                (snd resent_while_streaming) 0 (message_received "x")
                [(0, finished "stop")] [Message.user "a"]
                eq_refl ltac:(discriminate) eq_refl) as H.
  cbv zeta in H. destruct H as (Hbuf & Hh & _).
  repeat split; try reflexivity; assumption.
Defined.

(** C5 as stated fails: the two emissions of the stopped session 0 are
    handled after session 1 has started; they fill the buffer, put an
    assistant entry into the history, stop session 1 and clear the
    slot. *)
Lemma superseded_session_still_heard :
  let rt := fst resent_while_streaming in
  let s := snd resent_while_streaming in
  let out := ChatTab.deliver_all 2 true rt s in
  queue rt = [(0, message_received "x"); (0, finished "stop")]
  /\ ChatTab.chat_worker s = Some 1
  /\ running rt = [1]
  /\ ChatTab.history rt s = [Message.user "a"]
  /\ ChatTab.history (fst out) (snd out)
     = [Message.user "a"; Message.assistant "x" (Some "m")]
  /\ ChatTab.chat_worker (snd out) = None
  /\ running (fst out) = [].
Proof. repeat split; reflexivity. Qed.

(** ** One session at a time *)

Section SingleFlight.
Import ChatTab.

Lemma running_from_lookup (ws : list ChatWorker.t) :
  forall k j w,
    ws !! j = Some w -> ChatWorker.isRunning w = true ->
    (k + j) ∈ running_from k ws.
Proof.
  induction ws as [|w0 ws IH]; intros k j w Hj Hrun; [discriminate|].
  destruct j as [|j]; cbn in *.
  - inversion Hj; subst. rewrite Hrun, Nat.add_0_r. constructor.
  - replace (k + S j) with (S k + j) by lia.
    destruct (ChatWorker.isRunning w0); [apply list_elem_of_further|];
      eapply IH; eassumption.
Qed.

Lemma running_from_nil (ws : list ChatWorker.t) :
  forall k,
    (forall j w, ws !! j = Some w -> ChatWorker.isRunning w = false) ->
    running_from k ws = [].
Proof.
  induction ws as [|w0 ws IH]; intros k H; cbn; [reflexivity|].
  rewrite (H 0 w0 eq_refl). apply IH. intros j w Hj. apply (H (S j) w Hj).
Qed.

Lemma running_from_app (ws : list ChatWorker.t) (w : ChatWorker.t) :
  forall k,
    running_from k (ws ++ [w])
    = running_from k ws
      ++ (if ChatWorker.isRunning w then [k + length ws] else []).
Proof.
  induction ws as [|w0 ws IH]; intros k; cbn.
  - now rewrite Nat.add_0_r.
  - rewrite IH. replace (S k + length ws) with (k + S (length ws)) by lia.
    now destruct (ChatWorker.isRunning w0).
Qed.

(** Under [single_flight], [terminate_worker] leaves no thread
    running. *)
Lemma terminate_worker_quiet (b : bool) (rt : Runtime) (s : ChatTab.t) :
  single_flight rt s ->
  forall j w,
    threads (fst (terminate_worker b rt s)) !! j = Some w ->
    ChatWorker.isRunning w = false.
Proof.
  intros Hsf j w Hj.
  assert (Hslot : forall j w, threads rt !! j = Some w ->
                    ChatWorker.isRunning w = true ->
                    chat_worker s = Some j).
  { intros j0 w0 H0 Hr.
    unfold single_flight in Hsf. rewrite Forall_forall in Hsf.
    apply Hsf. apply (running_from_lookup _ 0 j0 w0 H0 Hr). }
  unfold terminate_worker in Hj.
  destruct (worker_running rt s) eqn:Hrun.
  - destruct (chat_worker s) as [i|] eqn:Hw;
      [|unfold worker_running in Hrun; rewrite Hw in Hrun; discriminate].
    cbn in Hj. destruct (decide (i = j)) as [->|Hne].
    + eapply stop_safely_stops; eassumption.
    + rewrite stop_safely_others in Hj by assumption.
      destruct (ChatWorker.isRunning w) eqn:Hr; [|reflexivity].
      specialize (Hslot j w Hj Hr). congruence.
  - cbn in Hj. destruct (ChatWorker.isRunning w) eqn:Hr; [|reflexivity].
    specialize (Hslot j w Hj Hr).
    unfold worker_running in Hrun. rewrite Hslot, Hj in Hrun. congruence.
Qed.

End SingleFlight.

(** C1, as the code has it. [send_message] starts by stopping the tab's
    running worker (stop flag, bounded wait, forced termination), so that
    no thread of the tab is running before anything else happens.  With a
    non-blank input it then starts one new worker, which is the only
    running one and the one in the slot; with a blank input it returns
    right after the stop and nothing is running.  Either way at most one
    worker runs, before, in between and after. *)
Theorem single_flight_send (env : Env) (rt : Runtime) (s : ChatTab.t) :
  single_flight rt s ->
  let message := Str.strip (ChatTab.message_input s) in
  let stopped := ChatTab.terminate_worker (in_time env) rt s in
  let out := ChatTab.send_message env rt s in
  running (fst stopped) = []
  /\ (if Str.truthy message
      then (exists w, threads (fst out) = threads (fst stopped) ++ [w])
           /\ running (fst out) = [length (threads rt)]
           /\ ChatTab.chat_worker (snd out) = Some (length (threads rt))
      else out = stopped)
  /\ single_flight (fst out) (snd out).
Proof.
  intros Hsf message stopped out.
  assert (Hquiet : running (fst stopped) = []).
  { apply running_from_nil. apply terminate_worker_quiet, Hsf. }
  destruct (terminate_worker_frame (in_time env) rt s)
    as (_ & _ & _ & _ & Hlen & _).
  split; [assumption|].
  destruct (Str.truthy message) eqn:Hmsg.
  - destruct (send_message_sent env rt s Hmsg)
      as (_ & _ & Ht & _ & Hw & _).
    fold stopped in Ht, Hw, Hlen. fold out in Ht, Hw.
    assert (Hrun : running (fst out) = [length (threads rt)]).
    { unfold running. rewrite Ht, running_from_app.
      fold (running (fst stopped)). rewrite Hquiet, Hlen. reflexivity. }
    rewrite Hlen in Hw.
    split; [split; [eauto | split; assumption]|].
    unfold single_flight. rewrite Hrun. repeat constructor. assumption.
  - assert (Hout : out = stopped) by (apply send_message_blank; assumption).
    split; [assumption|].
    unfold single_flight. rewrite Hout, Hquiet. constructor.
Qed.

Lemma single_flight_send_witness :
  let rt := fst typing_while_running in
  let s := snd typing_while_running in
  let out := ChatTab.send_message quiet_env rt s in
  running rt = [0]
  /\ running (fst (ChatTab.terminate_worker true rt s)) = []
  /\ running (fst out) = [1]
  /\ ChatTab.chat_worker (snd out) = Some 1.
Proof.
  assert (Hsf : single_flight (fst typing_while_running)
                  (snd typing_while_running))
    by (repeat constructor).
  destruct (single_flight_send quiet_env _ _ Hsf) as (Hq & (_ & Hr & Hw) & _).
  repeat split; try reflexivity; assumption.
Defined.

(** C1 as stated fails: a session is running when [send_message] is
    called, and none is running afterwards. *)
Lemma blank_send_stops_without_restart :
  running (fst (fst blank_resend)) = [0]
  /\ ChatTab.chat_worker (snd (fst blank_resend)) = Some 0
  /\ running (fst (snd blank_resend)) = []
  /\ ChatTab.chat_worker (snd (snd blank_resend)) = None.
Proof. repeat split; reflexivity. Qed.

(** ** The workspace *)

Section Workspace.
Import ChatbotApp.

Lemma terminate_worker_stops (b : bool) (rt : Runtime) (tab : ChatTab.t) :
  ChatTab.worker_running (fst (ChatTab.terminate_worker b rt tab)) tab
  = false.
Proof.
  unfold ChatTab.terminate_worker.
  destruct (ChatTab.worker_running rt tab) eqn:Hrun; [|assumption].
  unfold ChatTab.worker_running in *.
  destruct (ChatTab.chat_worker tab) as [i|]; [|discriminate]. cbn.
  destruct (threads (stop_safely b i rt) !! i) as [w|] eqn:Hi;
    [|reflexivity].
  eapply stop_safely_stops; eassumption.
Qed.

Lemma switch_chat_tab_tabs (index : Z) (app : ChatbotApp.t) :
  chat_tabs (switch_chat_tab index app) = chat_tabs app.
Proof. unfold switch_chat_tab. now destruct (_ || _). Qed.

(** The possible outcomes of [delete_chat_tab]: nothing but perhaps a
    warning box, or the tab at [index] removed after its worker was
    stopped. *)
Lemma delete_chat_tab_cases (confirm b : bool) (index : Z)
    (rt : Runtime) (app : ChatbotApp.t) :
  let out := delete_chat_tab confirm b index rt app in
  (snd out = app
   /\ (fst out = rt
       \/ fst out = show (Warning "Cannot Delete"
                            "Cannot delete the only remaining chat tab.") rt))
  \/ (exists tab,
        2 <= length (chat_tabs app)
        /\ (0 <= index)%Z
        /\ chat_tabs app !! Z.to_nat index = Some tab
        /\ fst out = fst (ChatTab.terminate_worker b rt tab)
        /\ length (chat_tabs (snd out)) + 1 = length (chat_tabs app)).
Proof.
  unfold delete_chat_tab.
  destruct (_ || _) eqn:Hrange; [left; cbn; auto|].
  apply orb_false_iff in Hrange. destruct Hrange as [Hlo Hhi].
  apply Z.ltb_ge in Hlo. rewrite Z.geb_leb in Hhi. apply Z.leb_gt in Hhi.
  destruct (length (chat_tabs app) =? 1)%nat eqn:Hone; [left; cbn; auto|].
  apply Nat.eqb_neq in Hone.
  destruct (tab_list app !! Z.to_nat index) as [title|]; [|left; cbn; auto].
  destruct (chat_tabs app !! Z.to_nat index) as [tab|] eqn:Htab;
    [|left; cbn; auto].
  destruct confirm; cbn [negb]; [|left; cbn; auto].
  right. exists tab.
  destruct (ChatTab.terminate_worker b rt tab) as [rt1 tab1] eqn:Hterm.
  cbn [fst snd].
  repeat split; try assumption; try reflexivity; try lia.
  cbn [chat_tabs]. rewrite length_imap.
  assert (Hlen : length (delete (Z.to_nat index) (chat_tabs app)) + 1
                 = length (chat_tabs app)).
  { rewrite length_delete by eauto. lia. }
  cbn [chat_tabs current_tab_index].
  destruct (_ =? _)%Z; [now rewrite switch_chat_tab_tabs|].
  destruct (_ >? _)%Z; exact Hlen.
Qed.

End Workspace.

(** C9. Workspace floor: with exactly one tab, [delete_chat_tab] removes
    nothing and changes nothing (it only shows a warning when the index
    names that tab); starting from the window's initial tab, no sequence
    of tab creations and deletions brings the number of tabs to zero; and
    when a tab is removed, its worker has been stopped first. *)
Theorem workspace_floor (confirm b : bool) (index : Z) (rt : Runtime)
    (app : ChatbotApp.t) :
  let out := ChatbotApp.delete_chat_tab confirm b index rt app in
  (length (ChatbotApp.chat_tabs app) = 1 ->
     snd out = app
     /\ lists (fst out) = lists rt
     /\ threads (fst out) = threads rt
     /\ queue (fst out) = queue rt)
  /\ (forall actions rt0,
        1 <= length (ChatbotApp.chat_tabs
                       (snd (foldl (fun st a => act a st)
                               (ChatbotApp.__init__ rt0) actions))))
  /\ (length (ChatbotApp.chat_tabs (snd out))
      < length (ChatbotApp.chat_tabs app) ->
      exists tab,
        ChatbotApp.chat_tabs app !! Z.to_nat index = Some tab
        /\ fst out = fst (ChatTab.terminate_worker b rt tab)
        /\ ChatTab.worker_running (fst out) tab = false).
Proof.
  intros out. subst out. split; [|split].
  - intros Hone.
    destruct (delete_chat_tab_cases confirm b index rt app)
      as [(Happ & [Hrt | Hrt]) | (tab & Htwo & _)].
    + rewrite Hrt. auto.
    + rewrite Hrt. auto.
    + lia.
  - intros actions rt0.
    assert (Hgen : forall st,
              1 <= length (ChatbotApp.chat_tabs (snd st)) ->
              1 <= length (ChatbotApp.chat_tabs
                             (snd (foldl (fun st a => act a st) st actions)))).
    { induction actions as [|a actions IH]; intros st Hst; [assumption|].
      cbn. apply IH. destruct a as [title | c t i]; cbn.
      - rewrite length_app. cbn. lia.
      - destruct (delete_chat_tab_cases c t i (fst st) (snd st))
          as [(Happ & _) | (tab & Htwo & _ & _ & _ & Hlen)].
        + now rewrite Happ.
        + lia. }
    apply Hgen. cbn. lia.
  - intros Hless.
    destruct (delete_chat_tab_cases confirm b index rt app)
      as [(Happ & _) | (tab & _ & _ & Htab & Hrt & _)].
    + rewrite Happ in Hless. lia.
    + exists tab. repeat split; try assumption.
      rewrite Hrt. apply terminate_worker_stops.
Qed.

Lemma workspace_floor_witness :
  let start := ChatbotApp.__init__ empty_runtime in
  let out := ChatbotApp.delete_chat_tab true true 0 (fst start) (snd start) in
  length (ChatbotApp.chat_tabs (snd start)) = 1
  /\ snd out = snd start
  /\ threads (fst out) = threads (fst start).
Proof.
  destruct (workspace_floor true true 0 (fst (ChatbotApp.__init__ empty_runtime))
              (snd (ChatbotApp.__init__ empty_runtime)))
    as (H & _).
  destruct (H eq_refl) as (Happ & _ & Ht & _).
  repeat split; assumption.
Defined.

(** ** Conversations built by sending *)

Section Mirrors.
Import ChatTab.

Lemma mirrors_alternates body h : mirrors body h -> alternates h.
Proof.
  induction 1 as [|U A body u a h HU HA Hu Ha _ IH
                   |U A W body u a h HU HA HW Hu Ha _ IH];
    intros i m Hi.
  - discriminate.
  - destruct i as [|[|i]]; cbn in Hi.
    + inversion Hi; subst; assumption.
    + inversion Hi; subst; assumption.
    + change (Nat.even (S (S i))) with (Nat.even i). now apply IH.
  - destruct i as [|[|i]]; cbn in Hi.
    + inversion Hi; subst; assumption.
    + inversion Hi; subst; assumption.
    + change (Nat.even (S (S i))) with (Nat.even i). now apply IH.
Qed.

Lemma mirrors_app body h tail t :
  mirrors body h -> mirrors tail t -> mirrors (body ++ tail) (h ++ t).
Proof.
  induction 1; intros Ht; cbn.
  - assumption.
  - apply mirrors_exchange; auto.
  - apply mirrors_warned; auto.
Qed.

(** The part of a mirrored conversation before a user widget mirrors a
    prefix of the history, and the next entry is a user entry. *)
Lemma mirrors_split body h :
  mirrors body h ->
  forall b1 target b2,
    body = b1 ++ target :: b2 ->
    ChatMessage.is_user_message target = true ->
    exists h1 tmsg after,
      h = h1 ++ tmsg :: after /\ mirrors b1 h1 /\ Message.role tmsg = "user".
Proof.
  induction 1 as [|U A body u a h HU HA Hu Ha Hm IH
                   |U A W body u a h HU HA HW Hu Ha Hm IH];
    intros b1 target b2 Hb Ht.
  - destruct b1; discriminate.
  - destruct b1 as [|x [|y b1]]; cbn in Hb; inversion Hb; subst.
    + exists [], u, (a :: h). repeat split; [constructor | assumption].
    + congruence.
    + destruct (IH b1 target b2 eq_refl Ht) as (h1 & tmsg & after & -> & H1 & H2).
      exists (u :: a :: h1), tmsg, after.
      repeat split; [apply mirrors_exchange; assumption | assumption].
  - destruct b1 as [|x [|y [|z b1]]]; cbn in Hb; inversion Hb; subst.
    + exists [], u, (a :: h). repeat split; [constructor | assumption].
    + congruence.
    + congruence.
    + destruct (IH b1 target b2 eq_refl Ht) as (h1 & tmsg & after & -> & H1 & H2).
      exists (u :: a :: h1), tmsg, after.
      repeat split; [apply mirrors_warned; assumption | assumption].
Qed.

(** On a mirrored prefix followed by a user entry the truncation loop
    keeps exactly the prefix. *)
Lemma trim_mirrors b1 h1 :
  mirrors b1 h1 ->
  forall tmsg after acc cu ca ca' uc ac,
    Message.role tmsg = "user" ->
    ca <= ca' ->
    count_widgets (map MessageWidget b1) cu ca' = (uc, ac) ->
    trim uc ac (h1 ++ tmsg :: after) acc cu ca = acc ++ h1.
Proof.
  induction 1 as [|U A body u a h HU HA Hu Ha Hm IH
                   |U A W body u a h HU HA HW Hu Ha Hm IH];
    intros tmsg after acc cu ca ca' uc ac Ht Hle Hcount;
    cbn -[Nat.ltb] in *.
  - inversion Hcount; subst. rewrite Ht. cbn -[Nat.ltb].
    rewrite Nat.ltb_irrefl. now rewrite app_nil_r.
  - rewrite HU, HA in Hcount.
    destruct (count_widgets_mono _ _ _ _ _ Hcount) as [H1 H2].
    rewrite Hu, Ha. cbn -[Nat.ltb].
    replace (cu <? uc)%nat with true by (symmetry; apply Nat.ltb_lt; lia).
    replace (ca <? ac)%nat with true by (symmetry; apply Nat.ltb_lt; lia).
    erewrite IH; [|eassumption| |eassumption]; [|lia].
    now rewrite <- !app_assoc.
  - rewrite HU, HA, HW in Hcount.
    destruct (count_widgets_mono _ _ _ _ _ Hcount) as [H1 H2].
    rewrite Hu, Ha. cbn -[Nat.ltb].
    replace (cu <? uc)%nat with true by (symmetry; apply Nat.ltb_lt; lia).
    replace (ca <? ac)%nat with true by (symmetry; apply Nat.ltb_lt; lia).
    erewrite IH; [|eassumption| |eassumption]; [|lia].
    now rewrite <- !app_assoc.
Qed.

Lemma insert_before_last_end (item last : LayoutItem)
    (layout : list LayoutItem) :
  insert_before_last item (layout ++ [last]) = layout ++ [item; last].
Proof.
  unfold insert_before_last, insertWidget.
  rewrite length_app. cbn [length].
  replace (Z.of_nat (length layout + 1) - 1 <? 0)%Z with false
    by (symmetry; apply Z.ltb_ge; lia).
  replace (Z.to_nat (Z.of_nat (length layout + 1) - 1)) with (length layout)
    by lia.
  now rewrite take_app_length, drop_app_length.
Qed.

Lemma index_of_absent (id : nat) (body : list ChatMessage.t) :
  id ∉ map ChatMessage.ident body ->
  forall i, index_of id (map MessageWidget body) i = (-1)%Z.
Proof.
  induction body as [|w body IH]; intros Hnot i; cbn; [reflexivity|].
  cbn in Hnot. apply not_elem_of_cons in Hnot. destruct Hnot as [Hne Hnot].
  replace (ChatMessage.ident w =? id)%nat with false
    by (symmetry; apply Nat.eqb_neq; congruence).
  now apply IH.
Qed.

Lemma remove_between_messages (start_index stop : nat)
    (body : list ChatMessage.t) (rest : list LayoutItem) :
  forall i,
    start_index <= i -> i + length body <= stop ->
    remove_between start_index stop i (map MessageWidget body ++ rest)
    = remove_between start_index stop (i + length body) rest.
Proof.
  induction body as [|w body IH]; intros i Hlo Hhi;
    cbn -[Nat.ltb Nat.leb] in *.
  - f_equal. lia.
  - replace (start_index <=? i)%nat with true
      by (symmetry; apply Nat.leb_le; lia).
    replace (i <? stop)%nat with true
      by (symmetry; apply Nat.ltb_lt; lia).
    cbn -[Nat.ltb Nat.leb]. rewrite IH by lia. f_equal. lia.
Qed.

End Mirrors.

(** ** The invariant of a tab between exchanges *)

Section Answering.
Import ChatTab.

Lemma truthy_append_l (a b : string) :
  Str.truthy a = true -> Str.truthy (a +:+ b) = true.
Proof. destruct a; [discriminate | reflexivity]. Qed.

Lemma update_others (id : nat) (text : string) (body : list ChatMessage.t) :
  id ∉ map ChatMessage.ident body ->
  map (fun item =>
         match item with
         | MessageWidget w =>
             if (ChatMessage.ident w =? id)%nat
             then MessageWidget (ChatMessage.update_content text w)
             else item
         | _ => item
         end) (map MessageWidget body)
  = map MessageWidget body.
Proof.
  induction body as [|w body IH]; intros Hnot; cbn -[Nat.eqb];
    [reflexivity|].
  cbn in Hnot. apply not_elem_of_cons in Hnot. destruct Hnot as [Hne Hnot].
  replace (ChatMessage.ident w =? id)%nat with false
    by (symmetry; apply Nat.eqb_neq; congruence).
  now rewrite IH.
Qed.

(** Handling one text chunk of the answer. *)
Lemma answering_chunk (rt : Runtime) (s : ChatTab.t)
    (body : list ChatMessage.t) (h : list Message.t) (i j : nat)
    (chunk : string) (pending : list (nat * Signal)) (untouched : bool) :
  answering rt s body h i ((j, message_received chunk) :: pending) untouched ->
  Str.truthy chunk = true ->
  answering (fst (deliver true rt s)) (snd (deliver true rt s))
            body h i pending false.
Proof.
  intros (Hh & Hq & Hw & Hthr & Hnd & Hfresh & Hlay) Hchunk.
  destruct rt as [ls ts q dl wm].
  destruct s as [ref buf cw mdl aw ti lay inp].
  cbn in Hh, Hq, Hw, Hthr, Hfresh. subst q cw.
  unfold deliver, handle_ai_message_chunk. cbn -[Nat.eqb].
  destruct untouched; cbn in Hlay.
  - destruct Hlay as (-> & -> & ->). cbn -[Nat.eqb].
    unfold answering. cbn -[Nat.eqb].
    repeat split; try assumption.
    + eapply Forall_impl; [exact Hfresh|]. cbn. intros; lia.
    + exists (ChatMessage.mk wm chunk false mdl). cbn.
      repeat split; try assumption; try lia.
      * change (SuggestionsWidget :: map MessageWidget body ++ [Stretch])
          with ((SuggestionsWidget :: map MessageWidget body) ++ [Stretch]).
        rewrite insert_before_last_end, map_app. cbn.
        now rewrite <- app_assoc.
      * intros Hin. apply list_elem_of_fmap in Hin.
        destruct Hin as (w & Hid & Hin).
        rewrite Forall_forall in Hfresh. specialize (Hfresh w Hin). lia.
  - destruct Hlay as (A & -> & HA & Hbuf & -> & Hnot & Hlt).
    cbn -[Nat.eqb]. unfold answering. cbn -[Nat.eqb].
    repeat split; try assumption.
    exists (ChatMessage.update_content (buf +:+ chunk) A). cbn -[Nat.eqb].
    repeat split; try assumption.
    + now apply truthy_append_l.
    + rewrite !map_app. cbn -[Nat.eqb].
      rewrite update_others by assumption.
      now rewrite Nat.eqb_refl.
Qed.

End Answering.

Section Finishing.
Import ChatTab.

Lemma deliver_all_step (fuel : nat) (b : bool) (rt : Runtime)
    (s : ChatTab.t) :
  queue rt <> [] ->
  deliver_all (S fuel) b rt s
  = deliver_all fuel b (fst (deliver b rt s)) (snd (deliver b rt s)).
Proof.
  intros Hq. cbn [deliver_all].
  destruct (queue rt) eqn:E; [congruence|].
  now destruct (deliver b rt s).
Qed.

(** Handling all text chunks of the answer, one after the other. *)
Lemma answering_chunks (body : list ChatMessage.t) (h : list Message.t)
    (i : nat) (chunks : list string) :
  forall (rt : Runtime) (s : ChatTab.t) (untouched : bool)
         (pending : list (nat * Signal)) (fuel : nat),
    answering rt s body h i
      (map (fun c => (i, message_received c)) chunks ++ pending) untouched ->
    Forall (fun c => Str.truthy c = true) chunks ->
    exists rt' s',
      deliver_all (length chunks + fuel) true rt s
      = deliver_all fuel true rt' s'
      /\ answering rt' s' body h i pending
           (match chunks with [] => untouched | _ => false end).
Proof.
  induction chunks as [|c chunks IH];
    intros rt s untouched pending fuel Hans Htruthy.
  - exists rt, s. split; [reflexivity | exact Hans].
  - inversion Htruthy as [|? ? Hc Hrest]; subst.
    cbn [length Nat.add]. rewrite deliver_all_step.
    2:{ destruct Hans as (_ & Hq & _). rewrite Hq. discriminate. }
    cbn [map app] in Hans.
    pose proof (answering_chunk _ _ _ _ _ _ _ _ _ Hans Hc) as Hnext.
    destruct (IH _ _ _ _ fuel Hnext Hrest) as (rt' & s' & Heq & Hans').
    exists rt', s'. split; [exact Heq|].
    now destruct chunks.
Qed.

(** Handling [finished] once the answer has text: the exchange is
    complete and the tab is at rest again. *)
Lemma answering_finished (rt : Runtime) (s : ChatTab.t)
    (body : list ChatMessage.t) (U : ChatMessage.t)
    (h : list Message.t) (u : Message.t) (i j : nat) (reason : string) :
  answering rt s (body ++ [U]) (h ++ [u]) i [(j, finished reason)] false ->
  mirrors body h ->
  ChatMessage.is_user_message U = true ->
  Message.role u = "user" ->
  exists body' h',
    built (fst (deliver true rt s)) (snd (deliver true rt s)) body' h'.
Proof.
  intros (Hh & Hq & Hw & (w & Hthr & Hdone) & Hnd & Hfresh & Hlay)
         Hm HU Hu.
  destruct Hlay as (A & Haw & HA & Hbuf & Hlay & Hnot & Hlt).
  destruct rt as [ls ts q dl wm].
  destruct s as [ref buf cw mdl aw ti lay inp].
  cbn in Hh, Hq, Hw, Hthr, Hfresh, Haw, Hbuf, Hlay, Hlt. subst q cw aw lay.
  unfold deliver, handle_chat_finished. cbn -[String.eqb].
  rewrite Hbuf.
  assert (Hmir : mirrors ((body ++ [U]) ++ [A])
                   ((h ++ [u]) ++ [Message.assistant buf mdl])).
  { rewrite <- !app_assoc. apply mirrors_app; [assumption|].
    cbn. apply mirrors_exchange; auto. constructor. }
  assert (HndA : NoDup (map ChatMessage.ident ((body ++ [U]) ++ [A]))).
  { rewrite map_app. apply NoDup_app. split; [assumption|].
    split; [|cbn; apply NoDup_singleton].
    intros x Hx Hin. cbn in Hin. apply list_elem_of_singleton in Hin.
    subst x. contradiction. }
  assert (HfrA : Forall (fun w => ChatMessage.ident w < wm)
                   ((body ++ [U]) ++ [A])).
  { apply Forall_app. split; [assumption|]. now repeat constructor. }
  assert (Hlook :
    alter (fun l => l ++ [Message.assistant buf mdl]) ref ls !! ref
    = Some ((h ++ [u]) ++ [Message.assistant buf mdl])).
  { rewrite list_lookup_alter, Hh. now case_decide. }
  destruct (String.eqb reason "length");
    cbn; unfold stop_safely; cbn; rewrite Hthr, Hdone; cbn.
  - exists (((body ++ [U]) ++ [A])
            ++ [ChatMessage.mk wm length_warning false (Some "System")]),
           ((h ++ [u]) ++ [Message.assistant buf mdl]).
    unfold built. cbn.
    split; [exact Hlook|]. split.
    { change (SuggestionsWidget
              :: map MessageWidget ((body ++ [U]) ++ [A]) ++ [Stretch])
        with ((SuggestionsWidget
               :: map MessageWidget ((body ++ [U]) ++ [A])) ++ [Stretch]).
      rewrite insert_before_last_end.
      rewrite (map_app _ ((body ++ [U]) ++ [A])). cbn.
      f_equal. exact (List.app_assoc _ [_] [_]). }
    split.
    { rewrite <- !app_assoc. rewrite <- !app_assoc in Hmir.
      apply mirrors_app; [assumption|].
      cbn. apply mirrors_warned; auto. constructor. }
    split.
    { rewrite map_app. apply NoDup_app. split; [assumption|].
      split; [|cbn; apply NoDup_singleton].
      intros x Hx Hin. cbn in Hin. apply list_elem_of_singleton in Hin.
      subst x. apply list_elem_of_fmap in Hx.
      destruct Hx as (w0 & Hid & Hin0).
      rewrite Forall_forall in HfrA. specialize (HfrA w0 Hin0). lia. }
    split.
    { apply Forall_app. split.
      - eapply Forall_impl; [exact HfrA|]. cbn. intros; lia.
      - repeat constructor. }
    split; reflexivity.
  - exists ((body ++ [U]) ++ [A]),
           ((h ++ [u]) ++ [Message.assistant buf mdl]).
    unfold built. cbn. repeat split; assumption.
Qed.

End Finishing.

Section Exchange.
Import ChatTab.

Lemma deltas_truthy (stream : list Provider.Item) :
  Forall (fun c => Str.truthy c = true) (deltas stream).
Proof.
  induction stream as [|item stream IH]; [constructor|].
  unfold deltas in *. cbn.
  destruct (text_delta item) as [c|] eqn:E; [|assumption].
  constructor; [|assumption].
  unfold text_delta in E.
  destruct (choice_of item) as [choice|]; [|discriminate].
  destruct (ChatWorker.content_to_emit choice) as [c'|]; [|discriminate].
  destruct (Str.truthy c') eqn:Ec; inversion E; subst; assumption.
Qed.

Lemma terminate_worker_idle (b : bool) (rt : Runtime) (s : ChatTab.t) :
  chat_worker s = None -> terminate_worker b rt s = (rt, s).
Proof.
  intros Hw. unfold terminate_worker, worker_running. now rewrite Hw.
Qed.

(** From a tab at rest, sending a message and letting the session run
    to its end on a stream that carries text leaves the tab at rest
    again, with one more exchange. *)
Lemma exchange (env : Env) (rt : Runtime) (s : ChatTab.t)
    (body : list ChatMessage.t) (h : list Message.t) :
  built rt s body h ->
  Provider.fault (response env) = None ->
  deltas (Provider.items (response env)) <> [] ->
  let sent := send_message env rt s in
  exists body' h',
    built (fst (settle (fst sent) (snd sent)))
          (snd (settle (fst sent) (snd sent))) body' h'.
Proof.
  intros (Hh & Hlay & Hmir & Hnd & Hfresh & Hq & Hw) Hfault Htext sent.
  destruct (Str.truthy (Str.strip (message_input s))) eqn:Hmsg.
  - destruct (send_message_sent env rt s Hmsg)
      as (Sl & Sc & St & Sq & Sw & Slay & Swm & Sbuf & Saw & _).
    rewrite (terminate_worker_idle _ _ _ Hw) in St, Sq, Sw.
    cbn [fst snd] in St, Sq, Sw. fold sent in Sl, Sc, St, Sq, Sw, Slay, Swm, Sbuf, Saw.
    set (msg := Str.strip (message_input s)) in *.
    set (i := length (threads rt)) in *.
    unfold settle. rewrite Sw, St.
    rewrite list_lookup_middle by reflexivity.
    match goal with
    | |- context [ChatWorker.run _ ?heap (ChatWorker.start
                    (ChatWorker.__init__ ?m ?md ?r ?resp))] =>
        destruct (run_fresh heap m md r resp Hfault)
          as (w' & Hrun & _ & Hdone)
    end.
    cbv zeta in Hrun. rewrite Hrun.
    set (U := ChatMessage.mk (widgets_made rt) msg true None) in *.
    match goal with
    | |- context [deliver_all _ true ?r _] => set (rt2 := r)
    end.
    assert (Hans : answering rt2 (snd sent) (body ++ [U])
                     (h ++ [Message.user msg]) i
                     (map (fun c => (i, message_received c))
                          (deltas (Provider.items (response env)))
                      ++ [(i, finished (reason_text
                              (last_reason None
                                 (Provider.items (response env)))))])
                     true).
    { unfold answering. subst rt2. cbn.
      rewrite Sl, Sc, Sq, Sw, Swm, Sbuf, Saw, Slay, Hlay.
      split; [rewrite list_lookup_alter, Hh; now case_decide|].
      split; [now rewrite Hq, map_app, map_map|].
      split; [reflexivity|].
      split.
      { exists w'. split; [|assumption]. subst i.
        apply list_lookup_insert_eq. rewrite length_app. cbn. lia. }
      split.
      { rewrite map_app. apply NoDup_app. split; [assumption|].
        split; [|cbn; apply NoDup_singleton].
        intros x Hx Hin. cbn in Hin. apply list_elem_of_singleton in Hin.
        subst x. apply list_elem_of_fmap in Hx.
        destruct Hx as (w0 & Hid & Hin0).
        rewrite Forall_forall in Hfresh. specialize (Hfresh w0 Hin0). lia. }
      split.
      { apply Forall_app. split.
        - eapply Forall_impl; [exact Hfresh|]. cbn. intros; lia.
        - repeat constructor. }
      repeat split.
      change (SuggestionsWidget :: map MessageWidget body ++ [Stretch])
        with ((SuggestionsWidget :: map MessageWidget body) ++ [Stretch]).
      rewrite insert_before_last_end, map_app. cbn.
      f_equal. exact (List.app_assoc _ [_] [_]). }
    assert (Hlen : length (queue rt2)
                   = length (deltas (Provider.items (response env))) + 1).
    { destruct Hans as (_ & -> & _).
      now rewrite length_app, length_map. }
    rewrite Hlen.
    destruct (answering_chunks _ _ _ _ _ _ _ _ 1 Hans
                (deltas_truthy _)) as (rt3 & s3 & -> & Hans3).
    destruct (deltas (Provider.items (response env))) eqn:Hd;
      [congruence|].
    rewrite deliver_all_step
      by (destruct Hans3 as (_ & -> & _); discriminate).
    cbn [deliver_all].
    eapply answering_finished; eauto.
  - subst sent. rewrite send_message_blank by assumption.
    rewrite (terminate_worker_idle _ _ _ Hw). cbn [fst snd].
    unfold settle. rewrite Hw, Hq. cbn.
    exists body, h. unfold built. auto 10.
Qed.

End Exchange.

(** ** Sequences of user actions *)

Section Scripts.
Import ChatTab.

(** On a tab at rest, the first half of [update_last_message] leaves a
    tab at rest whose history is cut before the target. *)
Lemma edit_truncates (env : Env) (target : ChatMessage.t) (text : string)
    (rt : Runtime) (s : ChatTab.t) (body : list ChatMessage.t)
    (h : list Message.t) :
  built rt s body h ->
  MessageWidget target ∈ chat_layout s ->
  ChatMessage.is_user_message target = true ->
  exists rt' s' body' h',
    update_last_message env target text rt s = send_message env rt' s'
    /\ built rt' s' body' h'.
Proof.
  intros (Hh & Hlay & Hmir & Hnd & Hfresh & Hq & Hw) Hin Huser.
  assert (Hbody : target ∈ body).
  { rewrite Hlay in Hin. apply elem_of_cons in Hin.
    destruct Hin as [Hin|Hin]; [discriminate|].
    apply elem_of_app in Hin. destruct Hin as [Hin|Hin].
    - apply list_elem_of_fmap in Hin. destruct Hin as (w & Heq & Hin).
      now inversion Heq; subst.
    - apply list_elem_of_singleton in Hin. discriminate. }
  apply list_elem_of_split in Hbody. destruct Hbody as (b1 & b2 & ->).
  rewrite map_app in Hnd. apply NoDup_app in Hnd.
  destruct Hnd as (Hnd1 & Hdisj & _).
  assert (Hnot : ChatMessage.ident target ∉ map ChatMessage.ident b1).
  { intros Hx. apply (Hdisj _ Hx). cbn. constructor. }
  destruct (mirrors_split _ _ Hmir b1 target b2 eq_refl Huser)
    as (h1 & tmsg & after & -> & Hm1 & Hrole).
  set (pre := SuggestionsWidget :: map MessageWidget b1).
  set (post := map MessageWidget b2 ++ [Stretch]).
  assert (Hlay' : chat_layout s = pre ++ MessageWidget target :: post).
  { rewrite Hlay. subst pre post. rewrite map_app. cbn.
    now rewrite <- app_assoc. }
  assert (Hpre : index_of (ChatMessage.ident target) pre 0 = (-1)%Z).
  { subst pre. cbn. now apply index_of_absent. }
  unfold update_last_message.
  rewrite Hlay', (index_of_found _ target pre post eq_refl 0 Hpre).
  replace (Z.of_nat (0 + length pre) =? -1)%Z with false
    by (symmetry; apply Z.eqb_neq; lia).
  replace (Z.to_nat (Z.of_nat (0 + length pre))) with (length pre) by lia.
  cbn [chat_layout set_chat_layout].
  rewrite layout_without_target by assumption.
  assert (Hpost :
    removeWidget (ChatMessage.ident target)
      (remove_between (S (length pre))
         (length (pre ++ MessageWidget target :: post) - 1)
         (S (length pre)) post)
    = [Stretch]).
  { subst post. rewrite remove_between_messages.
    - cbn -[Nat.ltb Nat.leb]. now rewrite !andb_false_r.
    - lia.
    - rewrite length_app. cbn [length].
      rewrite length_app, length_map. cbn [length]. lia. }
  rewrite Hpost.
  match goal with
  | |- context [update_conversation_history_to_index ?mi ?ex rt ?s1] =>
      destruct (truncated_history mi ex rt s1) as (uc & ac & Hcount & ->)
  end.
  cbn [chat_layout set_chat_layout] in Hcount.
  replace (Z.to_nat (Z.of_nat (0 + length pre) - 1 + 1)) with (length pre)
    in Hcount by lia.
  rewrite take_app_length in Hcount.
  match goal with
  | |- context [trim uc ac ?hh [] 0 0] =>
      replace (trim uc ac hh [] 0 0) with h1
  end.
  2:{ unfold history. cbn. rewrite Hh. cbn.
      subst pre. cbn in Hcount.
      now rewrite (trim_mirrors b1 h1 Hm1 tmsg after [] 0 0 0 uc ac). }
  eexists _, _, b1, h1. split; [reflexivity|].
  unfold built. cbn.
  split; [now rewrite list_lookup_middle|].
  split; [reflexivity|].
  split; [assumption|]. split; [assumption|].
  split; [|split; assumption].
  apply Forall_app in Hfresh. tauto.
Qed.

Lemma settle_at_rest (rt : Runtime) (s : ChatTab.t)
    (body : list ChatMessage.t) (h : list Message.t) :
  built rt s body h -> settle rt s = (rt, s).
Proof.
  intros (_ & _ & _ & _ & _ & Hq & Hw).
  unfold settle. now rewrite Hw, Hq.
Qed.

(** Every answered action takes a tab at rest to a tab at rest. *)
Lemma perform_built (env : Env) (a : UserAction) (st : Runtime * ChatTab.t)
    (body : list ChatMessage.t) (h : list Message.t) :
  built (fst st) (snd st) body h ->
  answers env ->
  on_screen a (snd st) ->
  exists body' h',
    built (fst (perform env a st)) (snd (perform env a st)) body' h'.
Proof.
  intros Hb (Hfault & Htext) Hon.
  destruct st as [rt s]. cbn [fst snd] in *.
  destruct a as [text | target accepted edited | target];
    unfold perform; cbn [fst snd].
  - apply (exchange env rt (setText text s) body h); auto.
  - destruct Hon as [Hin Huser].
    unfold handle_edit_request.
    replace (worker_running rt s) with false.
    2:{ destruct Hb as (_ & _ & _ & _ & _ & _ & Hw).
        unfold worker_running. now rewrite Hw. }
    destruct (accepted && Str.truthy (Str.strip edited)).
    + destruct (edit_truncates env target edited rt s body h Hb Hin Huser)
        as (rt' & s' & body' & h' & -> & Hb').
      apply (exchange env rt' s' body' h'); auto.
    + cbn [fst snd]. rewrite (settle_at_rest rt s body h Hb). eauto.
  - destruct Hon as [Hin Huser].
    unfold handle_resend_request.
    destruct (edit_truncates env target "" rt s body h Hb Hin Huser)
      as (rt' & s' & body' & h' & -> & Hb').
    apply (exchange env rt' s' body' h'); auto.
Qed.

Lemma play_built (script : list (Env * UserAction)) :
  forall st body h,
    built (fst st) (snd st) body h ->
    answered script st ->
    exists body' h',
      built (fst (play script st)) (snd (play script st)) body' h'.
Proof.
  induction script as [|[env a] script IH]; intros st body h Hb Hans.
  - cbn. eauto.
  - cbn in Hans. destruct Hans as (Hanswers & Hon & Hrest).
    destruct (perform_built env a st body h Hb Hanswers Hon)
      as (body1 & h1 & Hb1).
    cbn [play]. eapply IH; eassumption.
Qed.

End Scripts.

(** C7, as the code has it. Starting from an empty history, after every
    finite sequence of send, edit and resend actions in which each session
    runs to its end on a provider stream that carries some text and does
    not fail, the roles in the history alternate user, assistant, user,
    assistant, ... from index 0. *)
Theorem history_alternation (script : list (Env * UserAction)) :
  answered script fresh_tab ->
  let final := play script fresh_tab in
  alternates (ChatTab.history (fst final) (snd final)).
Proof.
  intros Hans final.
  assert (Hstart : built (fst fresh_tab) (snd fresh_tab) [] []).
  { unfold built. cbn. repeat split; constructor. }
  destruct (play_built script fresh_tab [] [] Hstart Hans)
    as (body & h & Hh & _ & Hmir & _).
  fold final in Hh. unfold ChatTab.history. rewrite Hh. cbn.
  eapply mirrors_alternates; eassumption.
Qed.

Lemma history_alternation_witness :
  let final := play three_actions fresh_tab in
  answered three_actions fresh_tab
  /\ ChatTab.history (fst final) (snd final)
     = [Message.user "a"; Message.assistant "Hello world" (Some "m");
        Message.user "b"; Message.assistant "Hello world" (Some "m")]
  /\ alternates (ChatTab.history (fst final) (snd final)).
Proof.
  assert (H : answered three_actions fresh_tab).
  { repeat split; try discriminate.
    apply list_elem_of_In. vm_compute. tauto. }
  split; [exact H|]. split; [reflexivity|].
  exact (history_alternation three_actions H).
Defined.

(** C7 as stated fails: a session that completes without any text leaves
    no assistant entry, so the next message follows a user entry. *)
Lemma consecutive_user_entries :
  let final :=
    play [(quiet_env, Send "a"); (quiet_env, Send "b")] fresh_tab in
  ChatTab.history (fst final) (snd final)
  = [Message.user "a"; Message.user "b"]
  /\ ~ alternates (ChatTab.history (fst final) (snd final)).
Proof.
  split; [reflexivity|].
  intros H. specialize (H 1 (Message.user "b") eq_refl). discriminate.
Qed.

(** * Further properties *)

(** ** The signals of a run *)

Section RunShape.
Import Provider ChatWorker.

Lemma raised_signals (e : Fault) (w1 w2 : ChatWorker.t) :
  model w1 = model w2 -> snd (raised e w1) = snd (raised e w2).
Proof. intros H. unfold raised. cbn. now rewrite H. Qed.

(** A streaming worker, whatever its stop flag and whatever the end of
    its stream: text chunks first, then the ending. *)
Lemma run_streaming_shape (heap : list (list Message.t)) (its : list Item) :
  forall (w : ChatWorker.t) (fuel : nat),
    phase w = Streaming ->
    items (stream w) = its ->
    length its < fuel ->
    exists w' cs tail,
      run fuel heap w = (w', map message_received cs ++ tail)
      /\ ending tail
      /\ current_ai_message w' = current_ai_message w +:+ joined cs
      /\ isRunning w' = false.
Proof.
  induction its as [|item rest IH]; intros w fuel Hph Hits Hfuel;
    (destruct fuel as [|fuel]; [cbn in Hfuel; lia|]);
    rewrite run_unfold;
    replace (isRunning w) with true by (unfold isRunning; now rewrite Hph);
    unfold step; rewrite Hph, Hits.
  - destruct (fault (stream w)) as [e|]; unfold raised, finish.
    + destruct e; destruct fuel; cbn;
        (eexists _, [], _; split; [reflexivity|]);
        (split; [right; eexists; reflexivity|]);
        cbn; now rewrite append_empty_r.
    + destruct fuel; cbn;
        (eexists _, [], _; split; [reflexivity|]);
        (split; [left; eexists; reflexivity|]);
        cbn; now rewrite append_empty_r.
  - destruct (_should_stop w).
    + unfold finish. destruct fuel; cbn;
        (eexists _, [], _; split; [reflexivity|]);
        (split; [left; eexists; reflexivity|]);
        cbn; now rewrite append_empty_r.
    + rewrite process_spec. cbn [stream set_stream].
      match goal with
      | |- context [run fuel heap ?w1] =>
          destruct (IH w1 fuel) as (w' & cs & tail & Hrun & Hend & Htxt & Hdone);
            [cbn; auto .. | cbn in Hfuel; lia |]
      end.
      rewrite Hrun. cbn in Htxt.
      exists w', (match text_delta item with
                  | Some c => c :: cs
                  | None => cs
                  end), tail.
      repeat split; auto.
      * destruct (text_delta item); reflexivity.
      * rewrite Htxt, append_assoc. destruct (text_delta item); reflexivity.
Qed.

(** A streaming worker that is not asked to stop and whose stream fails
    after its items: every item is consumed, then the fault is reported. *)
Lemma run_streaming_fault (heap : list (list Message.t)) (e : Fault)
    (its : list Item) :
  forall (w : ChatWorker.t) (fuel : nat),
    phase w = Streaming ->
    _should_stop w = false ->
    items (stream w) = its ->
    fault (stream w) = Some e ->
    length its < fuel ->
    exists w',
      run fuel heap w
      = (w', map message_received (deltas its) ++ snd (raised e w))
      /\ current_ai_message w' = current_ai_message w +:+ joined (deltas its)
      /\ isRunning w' = false.
Proof.
  induction its as [|item rest IH]; intros w fuel Hph Hstop Hits Hfault Hfuel;
    (destruct fuel as [|fuel]; [cbn in Hfuel; lia|]);
    rewrite run_unfold;
    replace (isRunning w) with true by (unfold isRunning; now rewrite Hph);
    unfold step; rewrite Hph, Hits.
  - rewrite Hfault. unfold raised.
    destruct e; destruct fuel; cbn;
      (eexists; split; [reflexivity|]); cbn; now rewrite append_empty_r.
  - rewrite Hstop, process_spec. cbn [stream set_stream].
    match goal with
    | |- context [run fuel heap ?w1] =>
        destruct (IH w1 fuel) as (w' & Hrun & Htxt & Hdone);
          [cbn; auto .. | cbn in Hfuel; lia |];
        rewrite Hrun, (raised_signals e w1 w) by reflexivity
    end.
    cbn in Htxt. exists w'. repeat split; auto.
    + unfold deltas; cbn. destruct (text_delta item); reflexivity.
    + rewrite Htxt, append_assoc. unfold deltas; cbn.
      destruct (text_delta item); reflexivity.
Qed.

End RunShape.

(** X1. Every run ends, and ends in one of two ways: whatever the stream,
    the stop flag and the point the thread has reached, a running worker
    emits text chunks and then either [finished] alone or
    [error_occurred] followed by [finished("error")], and stops running;
    the text it holds is what it held before followed by the chunks it
    emitted. *)
Theorem run_ends_with_finished (heap : list (list Message.t))
    (w : ChatWorker.t) :
  ChatWorker.isRunning w = true ->
  let out := ChatWorker.run (ChatWorker.enough w) heap w in
  exists cs tail,
    snd out = map message_received cs ++ tail
    /\ ending tail
    /\ ChatWorker.current_ai_message (fst out)
       = ChatWorker.current_ai_message w +:+ joined cs
    /\ ChatWorker.isRunning (fst out) = false.
Proof.
  intros Hrun out. subst out. unfold ChatWorker.enough.
  change (2 + ?n) with (S (S n)).
  destruct (ChatWorker.phase w) eqn:Hph;
    try (unfold ChatWorker.isRunning in Hrun; rewrite Hph in Hrun;
         discriminate).
  - rewrite run_from_started by assumption.
    destruct (run_streaming_shape heap (Provider.items (ChatWorker.stream w))
                (fst (ChatWorker.step heap w))
                (S (length (Provider.items (ChatWorker.stream w)))))
      as (w' & cs & tail & Hr & Hend & Htxt & Hdone);
      try (unfold ChatWorker.step; rewrite Hph; reflexivity); [lia|].
    rewrite Hr. exists cs, tail. cbn [fst snd].
    unfold ChatWorker.step in Htxt. rewrite Hph in Htxt. cbn in Htxt. auto.
  - destruct (run_streaming_shape heap (Provider.items (ChatWorker.stream w))
                w (S (S (length (Provider.items (ChatWorker.stream w))))))
      as (w' & cs & tail & Hr & Hend & Htxt & Hdone); auto.
    rewrite Hr. exists cs, tail. auto.
Qed.

Lemma run_ends_with_finished_witness :
  exists cs tail,
    snd (ChatWorker.run 3 [] stopped_midway) = map message_received cs ++ tail
    /\ ending tail.
Proof.
  destruct (run_ends_with_finished [] stopped_midway eq_refl)
    as (cs & tail & H1 & H2 & _).
  exists cs, tail. split; assumption.
Defined.

(** X2. A stream that fails: a freshly started worker that is not asked to
    stop consumes every item that arrives before the fault, emitting their
    text in order, then emits one [error_occurred] and [finished("error")];
    the text of the items stays accumulated in the worker. *)
Theorem failing_stream (heap : list (list Message.t)) (msg : string)
    (mdl : option string) (h : nat) (resp : Provider.Response)
    (e : Provider.Fault) :
  Provider.fault resp = Some e ->
  let w := ChatWorker.start (ChatWorker.__init__ msg mdl h resp) in
  let out := ChatWorker.run (ChatWorker.enough w) heap w in
  snd out
  = map message_received (deltas (Provider.items resp))
    ++ snd (ChatWorker.raised e w)
  /\ (exists m, snd (ChatWorker.raised e w)
               = [error_occurred m; finished "error"])
  /\ ChatWorker.current_ai_message (fst out)
     = joined (deltas (Provider.items resp))
  /\ ChatWorker.isRunning (fst out) = false.
Proof.
  intros Hfault w out. subst out w. unfold ChatWorker.enough.
  change (ChatWorker.stream
            (ChatWorker.start (ChatWorker.__init__ msg mdl h resp)))
    with resp.
  change (2 + ?n) with (S (S n)).
  rewrite run_from_started by reflexivity.
  destruct (run_streaming_fault heap e (Provider.items resp)
              (fst (ChatWorker.step heap
                      (ChatWorker.start (ChatWorker.__init__ msg mdl h resp))))
              (S (length (Provider.items resp))))
    as (w' & Hrun & Htxt & Hdone);
    [reflexivity .. | exact Hfault | lia | ].
  rewrite Hrun. cbn [fst snd]. repeat split; auto.
  destruct e; eexists; reflexivity.
Qed.

Lemma failing_stream_witness :
  snd (ChatWorker.run 3 []
         (ChatWorker.start
            (ChatWorker.__init__ "hi" (Some "m") 0 (response failing_env))))
  = [message_received "par";
     error_occurred "You've hit the API rate limit. Please wait a moment before sending another message.";
     finished "error"].
Proof.
  exact (proj1 (failing_stream [] "hi" (Some "m") 0 (response failing_env)
                  _ eq_refl)).
Defined.

(** ** Stopping twice *)

(** X3. [stop_safely] may be called any number of times: a second call on
    the same thread, whatever its wait yields, changes nothing. *)
Theorem stop_safely_twice (b1 b2 : bool) (i : nat) (rt : Runtime) :
  stop_safely b2 i (stop_safely b1 i rt) = stop_safely b1 i rt.
Proof.
  unfold stop_safely at 1.
  destruct (threads (stop_safely b1 i rt) !! i) as [w|] eqn:Hi;
    [|reflexivity].
  now rewrite (stop_safely_stops b1 i rt w Hi).
Qed.

(** X4. [terminate_worker] is idempotent, and after it the tab reports
    ["Ready"]. *)
Theorem terminate_worker_twice (b1 b2 : bool) (rt : Runtime) (s : ChatTab.t) :
  let out := ChatTab.terminate_worker b1 rt s in
  ChatTab.terminate_worker b2 (fst out) (snd out) = out
  /\ ChatTabRest.get_status (fst out) (snd out) = "Ready".
Proof.
  intros out.
  destruct (terminate_worker_frame b1 rt s) as (Hrun & _).
  fold out in Hrun. unfold ChatTabRest.get_status.
  unfold ChatTab.terminate_worker at 1. rewrite Hrun.
  split; [now destruct out | reflexivity].
Qed.

(** ** One running worker per tab, whatever happens *)

Section SlotOnly.
Import ChatTab.

Lemma slot_only_ext (rt rt' : Runtime) (s s' : ChatTab.t) :
  threads rt' = threads rt -> chat_worker s' = chat_worker s ->
  slot_only rt s -> slot_only rt' s'.
Proof. intros Ht Hw H j w. rewrite Ht, Hw. apply H. Qed.

Lemma slot_only_quiet (rt : Runtime) (s : ChatTab.t) :
  (forall j w, threads rt !! j = Some w -> ChatWorker.isRunning w = false) ->
  slot_only rt s.
Proof. intros H j w Hj Hr. rewrite (H j w Hj) in Hr. discriminate. Qed.

(** A quantum never starts a thread. *)
Lemma step_running (heap : list (list Message.t)) (w : ChatWorker.t) :
  ChatWorker.isRunning (fst (ChatWorker.step heap w)) = true ->
  ChatWorker.isRunning w = true.
Proof.
  unfold ChatWorker.step.
  destruct (ChatWorker.phase w) eqn:Hph;
    try (intros _; unfold ChatWorker.isRunning; now rewrite Hph);
    try (cbn; unfold ChatWorker.isRunning; now rewrite Hph).
Qed.

Lemma worker_step_slot_only (i : nat) (rt : Runtime) (s : ChatTab.t) :
  slot_only rt s -> slot_only (worker_step i rt) s.
Proof.
  intros H j w. unfold worker_step.
  destruct (threads rt !! i) as [w0|] eqn:Hi; [|apply H].
  pose proof (step_running (lists rt) w0) as Hstep.
  destruct (ChatWorker.step (lists rt) w0) as [w' sigs]. cbn.
  destruct (decide (i = j)) as [->|Hne].
  - rewrite list_lookup_insert_eq by (eapply lookup_lt_Some; eauto).
    intros Hw Hr. inversion Hw; subst. apply (H j w0 Hi). now apply Hstep.
  - rewrite list_lookup_insert_ne by assumption. apply H.
Qed.

Lemma terminate_worker_quiet_slot (b : bool) (rt : Runtime) (s : ChatTab.t) :
  slot_only rt s ->
  forall j w,
    threads (fst (terminate_worker b rt s)) !! j = Some w ->
    ChatWorker.isRunning w = false.
Proof.
  intros Hslot j w Hj.
  unfold terminate_worker in Hj.
  destruct (worker_running rt s) eqn:Hrun.
  - destruct (chat_worker s) as [i|] eqn:Hw;
      [|unfold worker_running in Hrun; rewrite Hw in Hrun; discriminate].
    cbn in Hj. destruct (decide (i = j)) as [->|Hne].
    + eapply stop_safely_stops; eassumption.
    + rewrite stop_safely_others in Hj by assumption.
      destruct (ChatWorker.isRunning w) eqn:Hr; [|reflexivity].
      specialize (Hslot j w Hj Hr). congruence.
  - cbn in Hj. destruct (ChatWorker.isRunning w) eqn:Hr; [|reflexivity].
    specialize (Hslot j w Hj Hr).
    unfold worker_running in Hrun. rewrite Hslot, Hj in Hrun. congruence.
Qed.

Lemma send_message_slot_only (env : Env) (rt : Runtime) (s : ChatTab.t) :
  slot_only rt s ->
  slot_only (fst (send_message env rt s)) (snd (send_message env rt s)).
Proof.
  intros Hslot.
  pose proof (terminate_worker_quiet_slot (in_time env) rt s Hslot) as Hquiet.
  destruct (Str.truthy (Str.strip (message_input s))) eqn:Hmsg.
  - destruct (send_message_sent env rt s Hmsg) as (_ & _ & Ht & _ & Hw & _).
    intros j w Hj Hr. rewrite Ht in Hj. rewrite Hw.
    destruct (decide (j < length (threads
                (fst (terminate_worker (in_time env) rt s))))) as [Hlt|Hge].
    + rewrite lookup_app_l in Hj by assumption.
      rewrite (Hquiet j w Hj) in Hr. discriminate.
    + apply lookup_lt_Some in Hj. rewrite length_app in Hj. cbn in Hj.
      f_equal. lia.
  - rewrite send_message_blank by assumption. now apply slot_only_quiet.
Qed.

(** [update_last_message] is a truncation that leaves threads and slot
    alone, followed by [send_message]. *)
Lemma update_last_message_sends (env : Env) (target : ChatMessage.t)
    (text : string) (rt : Runtime) (s : ChatTab.t) :
  exists rt' s',
    update_last_message env target text rt s = send_message env rt' s'
    /\ threads rt' = threads rt /\ chat_worker s' = chat_worker s.
Proof.
  unfold update_last_message.
  destruct (_ =? -1)%Z.
  - eexists _, _. split; [reflexivity|]. split; reflexivity.
  - match goal with
    | |- context [update_conversation_history_to_index ?mi ?ex rt ?s1] =>
        destruct (truncated_history mi ex rt s1) as (uc & ac & _ & ->)
    end.
    eexists _, _. split; [reflexivity|]. split; reflexivity.
Qed.

Lemma handle_chat_finished_quiet (b : bool) (reason : string)
    (rt : Runtime) (s : ChatTab.t) :
  slot_only rt s ->
  let out := handle_chat_finished b reason rt s in
  forall j w,
    threads (fst out) !! j = Some w -> ChatWorker.isRunning w = false.
Proof.
  intros Hslot out j w. subst out. unfold handle_chat_finished.
  match goal with
  | |- context [let '(rt0, s0) := ?m in _] =>
      assert (Hmid : threads (fst m) = threads rt
                     /\ chat_worker (snd m) = chat_worker s)
        by (destruct (Str.truthy _); [destruct (String.eqb _ _)|];
            split; reflexivity);
      destruct m as [rt1 s1]
  end.
  cbn [fst snd] in Hmid. destruct Hmid as [Ht Hw].
  destruct (chat_worker s1) as [i|] eqn:Hs1; cbn [fst snd].
  - intros Hj. destruct (decide (i = j)) as [->|Hne].
    + eapply stop_safely_stops; eassumption.
    + rewrite stop_safely_others, Ht in Hj by assumption.
      destruct (ChatWorker.isRunning w) eqn:Hr; [|reflexivity].
      specialize (Hslot j w Hj Hr). congruence.
  - rewrite Ht. intros Hj.
    destruct (ChatWorker.isRunning w) eqn:Hr; [|reflexivity].
    specialize (Hslot j w Hj Hr). congruence.
Qed.

Lemma handle_ai_message_chunk_frame (chunk : string) (rt : Runtime)
    (s : ChatTab.t) :
  let out := handle_ai_message_chunk chunk rt s in
  threads (fst out) = threads rt
  /\ lists (fst out) = lists rt
  /\ queue (fst out) = queue rt
  /\ dialogs (fst out) = dialogs rt
  /\ chat_worker (snd out) = chat_worker s
  /\ conversation_history (snd out) = conversation_history s
  /\ current_model (snd out) = current_model s
  /\ current_ai_message (snd out) = current_ai_message s +:+ chunk.
Proof.
  unfold handle_ai_message_chunk. cbn.
  destruct (ai_message_widget s); cbn; repeat split; reflexivity.
Qed.

Lemma deliver_slot_only (b : bool) (rt : Runtime) (s : ChatTab.t) :
  slot_only rt s ->
  slot_only (fst (deliver b rt s)) (snd (deliver b rt s)).
Proof.
  intros Hslot. unfold deliver.
  destruct (queue rt) as [|[i signal] rest]; [assumption|].
  assert (Hq : slot_only (set_queue rest rt) s) by exact Hslot.
  destruct signal as [chunk|msg|reason].
  - destruct (handle_ai_message_chunk_frame chunk (set_queue rest rt) s)
      as (Ht & _ & _ & _ & Hw & _).
    eapply slot_only_ext; eassumption.
  - apply slot_only_quiet. unfold handle_error.
    match goal with
    | |- context [handle_chat_finished b "error" ?rt1 s] =>
        apply (handle_chat_finished_quiet b "error" rt1 s)
    end.
    destruct (Str.any_in _ _); exact Hslot.
  - apply slot_only_quiet.
    apply (handle_chat_finished_quiet b reason (set_queue rest rt) s Hq).
Qed.

Lemma add_message_frame (message : string) (is_user : bool)
    (model_name : option string) (rt : Runtime) (s : ChatTab.t) :
  threads (fst (add_message message is_user model_name rt s)) = threads rt
  /\ chat_worker (snd (add_message message is_user model_name rt s))
     = chat_worker s.
Proof. split; reflexivity. Qed.

Lemma load_conversation_history_frame (imported : list Message.t)
    (rt : Runtime) (s : ChatTab.t) :
  threads (fst (load_conversation_history imported rt s)) = threads rt
  /\ chat_worker (snd (load_conversation_history imported rt s))
     = chat_worker s.
Proof.
  unfold load_conversation_history, clear_chat. cbn.
  match goal with
  | |- context [fold_left ?f imported ?init] =>
      assert (H : forall l acc,
                threads (fst (fold_left f l acc)) = threads (fst acc)
                /\ chat_worker (snd (fold_left f l acc))
                   = chat_worker (snd acc));
        [|specialize (H imported init);
          destruct (fold_left f imported init) as [rt1 s1]]
  end.
  { induction l as [|m l IH]; intros acc; [split; reflexivity|].
    cbn [fold_left]. destruct (IH (if Str.truthy (Message.content m)
        then add_message (Message.content m)
               (String.eqb (Message.role m) "user")
               (if String.eqb (Message.role m) "user" then None
                else Message.model m) (fst acc) (snd acc)
        else acc)) as [H1 H2].
    rewrite H1, H2. destruct (Str.truthy (Message.content m));
      split; reflexivity. }
  cbn [fst snd] in H. destruct H as [Ht Hw].
  destruct (last_model imported); cbn; rewrite Ht, Hw; split; reflexivity.
Qed.

Lemma happen_slot_only (ev : TabEvent) (st : Runtime * ChatTab.t) :
  slot_only (fst st) (snd st) ->
  slot_only (fst (happen ev st)) (snd (happen ev st)).
Proof.
  destruct st as [rt s]. cbn [fst snd]. intros Hslot.
  destruct ev as [env text | env text | env target accepted edited
                 | env target | | imported | b | i | b]; cbn [happen fst snd].
  - apply send_message_slot_only. exact Hslot.
  - apply send_message_slot_only. exact Hslot.
  - unfold handle_edit_request.
    destruct (worker_running rt s); [exact Hslot|].
    destruct (accepted && _); [|exact Hslot].
    destruct (update_last_message_sends env target edited rt s)
      as (rt' & s' & -> & Ht & Hw).
    apply send_message_slot_only. eapply slot_only_ext; eassumption.
  - unfold handle_resend_request.
    destruct (update_last_message_sends env target "" rt s)
      as (rt' & s' & -> & Ht & Hw).
    apply send_message_slot_only. eapply slot_only_ext; eassumption.
  - exact Hslot.
  - destruct (load_conversation_history_frame imported rt s) as [Ht Hw].
    eapply slot_only_ext; eassumption.
  - apply slot_only_quiet. unfold ChatTabRest.closeEvent.
    now apply terminate_worker_quiet_slot.
  - now apply worker_step_slot_only.
  - now apply deliver_slot_only.
Qed.

End SlotOnly.

(** X5. Single flight as an invariant: from a fresh tab, after any
    sequence of user actions (send, suggestion, edit, resend, clear,
    import, close), worker quanta and handled emissions, in any order, a
    running thread is always the one in the tab's slot; so no two threads
    of the tab ever run at the same time. *)
Theorem never_two_running (events : list TabEvent) :
  let final := foldl (fun st ev => happen ev st) fresh_tab events in
  slot_only (fst final) (snd final)
  /\ forall i j wi wj,
       threads (fst final) !! i = Some wi ->
       threads (fst final) !! j = Some wj ->
       ChatWorker.isRunning wi = true ->
       ChatWorker.isRunning wj = true ->
       i = j.
Proof.
  intros final.
  assert (Hinv : slot_only (fst final) (snd final)).
  { subst final.
    assert (Hgen : forall st, slot_only (fst st) (snd st) ->
              slot_only (fst (foldl (fun st ev => happen ev st) st events))
                        (snd (foldl (fun st ev => happen ev st) st events))).
    { induction events as [|ev events IH]; intros st Hst; [exact Hst|].
      cbn. apply IH. now apply happen_slot_only. }
    apply Hgen. intros j w Hj. destruct j; discriminate. }
  split; [exact Hinv|].
  intros i j wi wj Hi Hj Hri Hrj.
  pose proof (Hinv i wi Hi Hri) as H1.
  pose proof (Hinv j wj Hj Hrj) as H2.
  congruence.
Qed.

Lemma never_two_running_witness :
  ChatTab.chat_worker
    (snd (foldl (fun st ev => happen ev st) fresh_tab
            [UserSends hello_env "a"; WorkerRuns 0]))
  = Some 0.
Proof.
  exact (proj1 (never_two_running [UserSends hello_env "a"; WorkerRuns 0])
           0 _ eq_refl eq_refl).
Defined.

(** ** A whole exchange *)

Section WholeExchange.
Import ChatTab.

Lemma terminate_worker_not_running (b : bool) (rt : Runtime) (s : ChatTab.t) :
  worker_running rt s = false -> terminate_worker b rt s = (rt, s).
Proof. intros H. unfold terminate_worker. now rewrite H. Qed.

(** The model the tab works with after a send: the one selected in the
    main window, if any. *)
Lemma send_message_model (env : Env) (rt : Runtime) (s : ChatTab.t) :
  Str.truthy (Str.strip (message_input s)) = true ->
  current_model (snd (send_message env rt s))
  = if Str.truthy (selected_model env) then Some (selected_model env)
    else current_model s.
Proof.
  intros Hmsg. unfold send_message.
  destruct (terminate_worker_frame (in_time env) rt s)
    as (Hrun & _ & _ & _ & _ & _ & _ & Hin & Hmod).
  destruct (terminate_worker (in_time env) rt s) as [rt1 s1].
  cbn [fst snd] in *. rewrite Hin, Hmsg, Hrun. cbn [negb].
  unfold message_sent.
  destruct (Str.truthy (selected_model env)); cbn; [reflexivity|exact Hmod].
Qed.

(** Handling a row of text chunks: the buffer grows by their
    concatenation; history, threads, slot and model stay. *)
Lemma deliver_chunks_buffer (i : nat) (chunks : list string) :
  forall (rt : Runtime) (s : ChatTab.t) (pending : list (nat * Signal))
         (fuel : nat),
    queue rt = map (fun c => (i, message_received c)) chunks ++ pending ->
    exists rt' s',
      deliver_all (length chunks + fuel) true rt s
      = deliver_all fuel true rt' s'
      /\ queue rt' = pending
      /\ lists rt' = lists rt
      /\ threads rt' = threads rt
      /\ dialogs rt' = dialogs rt
      /\ chat_worker s' = chat_worker s
      /\ conversation_history s' = conversation_history s
      /\ current_model s' = current_model s
      /\ current_ai_message s' = current_ai_message s +:+ joined chunks.
Proof.
  induction chunks as [|c chunks IH]; intros rt s pending fuel Hq.
  - exists rt, s. cbn. rewrite append_empty_r. repeat split; auto.
  - cbn [length Nat.add]. rewrite deliver_all_step
      by (rewrite Hq; discriminate).
    cbn [map app] in Hq.
    assert (Hd : deliver true rt s
                 = handle_ai_message_chunk c
                     (set_queue (map (fun c => (i, message_received c)) chunks
                                 ++ pending) rt) s)
      by (unfold deliver; now rewrite Hq).
    rewrite Hd.
    destruct (handle_ai_message_chunk_frame c
                (set_queue (map (fun c => (i, message_received c)) chunks
                            ++ pending) rt) s)
      as (Ht & Hl & Hq' & Hdl & Hw & Hc & Hm & Hb).
    destruct (IH (fst (handle_ai_message_chunk c
                         (set_queue (map (fun c => (i, message_received c))
                                       chunks ++ pending) rt) s))
                 (snd (handle_ai_message_chunk c
                         (set_queue (map (fun c => (i, message_received c))
                                       chunks ++ pending) rt) s))
                 pending fuel Hq')
      as (rt' & s' & Heq & Hq2 & Hl2 & Ht2 & Hd2 & Hw2 & Hc2 & Hm2 & Hb2).
    exists rt', s'. rewrite Heq, Hq2, Hl2, Ht2, Hd2, Hw2, Hc2, Hm2, Hb2.
    rewrite Hl, Ht, Hdl, Hw, Hc, Hm, Hb. cbn.
    rewrite append_assoc. repeat split; reflexivity.
Qed.

End WholeExchange.

(** X6. A whole exchange: in a tab whose worker is not running and whose
    queue is empty, sending a non-blank message and letting the session run
    to its end on a stream without fault leaves the old history, the new
    user message and, if the stream carried text, one assistant message
    whose content is the concatenation of the stream's text deltas and
    whose model is the one selected at the time of sending; the slot is
    empty again and nothing is queued. *)
Theorem exchange_content (env : Env) (rt : Runtime) (s : ChatTab.t)
    (h : list Message.t) :
  lists rt !! ChatTab.conversation_history s = Some h ->
  queue rt = [] ->
  ChatTab.worker_running rt s = false ->
  Str.truthy (Str.strip (ChatTab.message_input s)) = true ->
  Provider.fault (response env) = None ->
  let sent := ChatTab.send_message env rt s in
  let out := settle (fst sent) (snd sent) in
  let text := joined (deltas (Provider.items (response env))) in
  ChatTab.history (fst out) (snd out)
  = h ++ [Message.user (Str.strip (ChatTab.message_input s))]
      ++ (if Str.truthy text
          then [Message.assistant text
                  (if Str.truthy (selected_model env)
                   then Some (selected_model env)
                   else ChatTab.current_model s)]
          else [])
  /\ ChatTab.chat_worker (snd out) = None
  /\ queue (fst out) = [].
Proof.
  intros Hh Hq Hidle Hmsg Hfault sent out text.
  destruct (send_message_sent env rt s Hmsg)
    as (Sl & Sc & St & Sq & Sw & _ & _ & Sbuf & _).
  pose proof (send_message_model env rt s Hmsg) as Smod.
  rewrite (terminate_worker_not_running _ _ _ Hidle) in St, Sq, Sw.
  cbn [fst snd] in St, Sq, Sw.
  fold sent in Sl, Sc, St, Sq, Sw, Sbuf, Smod.
  subst out. unfold settle. rewrite Sw, St.
  rewrite list_lookup_middle by reflexivity.
  match goal with
  | |- context [ChatWorker.run _ ?heap (ChatWorker.start
                  (ChatWorker.__init__ ?m ?md ?r ?resp))] =>
      destruct (run_fresh heap m md r resp Hfault) as (w' & Hrun & _ & Hdone)
  end.
  cbv zeta in Hrun. rewrite Hrun.
  match goal with
  | |- context [ChatTab.deliver_all _ true ?r _] => set (rt2 := r)
  end.
  assert (Hq2 : queue rt2
                = map (fun c => (length (threads rt), message_received c))
                      (deltas (Provider.items (response env)))
                  ++ [(length (threads rt),
                       finished (reason_text
                         (last_reason None (Provider.items (response env)))))]).
  { subst rt2. cbn. now rewrite Sq, Hq, map_app, map_map. }
  assert (Hlen : length (queue rt2)
                 = length (deltas (Provider.items (response env))) + 1)
    by (now rewrite Hq2, length_app, length_map).
  rewrite Hlen.
  destruct (deliver_chunks_buffer _ _ rt2 (snd sent) _ 1 Hq2)
    as (rt3 & s3 & -> & Hq3 & Hl3 & Ht3 & _ & Hw3 & Hc3 & Hm3 & Hb3).
  rewrite deliver_all_step by (rewrite Hq3; discriminate).
  cbn [ChatTab.deliver_all].
  assert (Hd : ChatTab.deliver true rt3 s3
               = ChatTab.handle_chat_finished true
                   (reason_text (last_reason None
                      (Provider.items (response env))))
                   (set_queue [] rt3) s3)
    by (unfold ChatTab.deliver; now rewrite Hq3).
  rewrite Hd. cbn [fst snd].
  assert (Hh3 : lists (set_queue [] rt3) !! ChatTab.conversation_history s3
                = Some (h ++ [Message.user
                                (Str.strip (ChatTab.message_input s))])).
  { cbn. rewrite Hl3, Hc3. subst rt2. cbn. rewrite Sl, Sc.
    rewrite list_lookup_alter, Hh. now case_decide. }
  destruct (handle_chat_finished_spec true
              (reason_text (last_reason None (Provider.items (response env))))
              (set_queue [] rt3) s3 _ Hh3)
    as (Hhist & Hslot & _ & _ & _ & _).
  rewrite Hb3, Hm3, Sbuf, Smod in Hhist.
  change ("" +:+ joined (deltas (Provider.items (response env))))
    with text in Hhist.
  split; [now rewrite Hhist, <- app_assoc|].
  split; [exact Hslot|].
  unfold ChatTab.handle_chat_finished.
  destruct (Str.truthy (ChatTab.current_ai_message s3));
    [destruct (String.eqb _ "length")|]; cbn;
    rewrite Hw3, Sw; cbn; unfold stop_safely; cbn; rewrite Ht3;
    subst rt2; cbn;
    (rewrite list_lookup_insert_eq by (rewrite length_app; cbn; lia));
    rewrite Hdone; reflexivity.
Qed.

Lemma exchange_content_witness :
  let sent :=
    ChatTab.send_message hello_env (fst (typed "hi")) (snd (typed "hi")) in
  let out := settle (fst sent) (snd sent) in
  ChatTab.history (fst out) (snd out)
  = [Message.user "hi"; Message.assistant "Hello world" (Some "m")].
Proof.
  exact (proj1 (exchange_content hello_env (fst (typed "hi"))
                  (snd (typed "hi")) [] eq_refl eq_refl eq_refl eq_refl
                  eq_refl)).
Defined.

(** ** The message shown for an exception *)

Section Classification.
Import ChatWorker.

Lemma any_in_contains (term : string) (terms : list string) (s : string) :
  In term terms -> Str.contains term s = true -> Str.any_in terms s = true.
Proof.
  intros Hin Hc. unfold Str.any_in. apply existsb_exists. eauto.
Qed.

End Classification.

(** X7. The guidance for a timed-out request is out of reach: an exception
    whose text mentions "timeout" (in any case) is told as a connection
    error, unless an authentication, quota, rate-limit or model keyword
    comes first; it is never told as "The request timed out ...". *)
Theorem timeout_is_told_as_connection_error (mdl : option string)
    (e : string) :
  Str.contains "timeout" (Str.lower e) = true ->
  ChatWorker.user_friendly_msg mdl e
  <> "The request timed out. The AI service might be experiencing high demand. Please try again."
  /\ (Str.any_in ["bearer"; "authentication"; "unauthorized"; "401";
                  "quota"; "billing"; "insufficient"; "exceeded";
                  "rate limit"; "429"; "too many requests";
                  "model not found"; "invalid model"; "model unavailable"]
        (Str.lower e) = false ->
      ChatWorker.user_friendly_msg mdl e
      = "Connection error. Please check your connection and API keys, then try again.").
Proof.
  intros Ht.
  assert (Hnet : Str.any_in ["connection"; "network"; "timeout"; "dns";
                             "unreachable"] (Str.lower e) = true).
  { apply (any_in_contains "timeout"); [cbn; tauto | exact Ht]. }
  unfold ChatWorker.user_friendly_msg. split.
  - destruct (Str.any_in ["bearer"; _; _; _] _); [discriminate|].
    destruct (Str.any_in ["quota"; _; _; _] _); [discriminate|].
    destruct (Str.any_in ["rate limit"; _; _] _); [discriminate|].
    destruct (Str.any_in ["model not found"; _; _] _).
    + intros H. cbv [String.append] in H. discriminate.
    + rewrite Hnet. discriminate.
  - intros Hnone. unfold Str.any_in in *. cbn [existsb] in *.
    repeat (apply orb_false_iff in Hnone; destruct Hnone as [? Hnone]).
    repeat match goal with
           | H : Str.contains _ _ = false |- _ => rewrite H; clear H
           end.
    cbn [orb]. cbn [existsb] in Hnet. now rewrite Hnet.
Qed.

Lemma timeout_is_told_as_connection_error_witness :
  ChatWorker.user_friendly_msg None "Request Timeout after 30s"
  = "Connection error. Please check your connection and API keys, then try again.".
Proof.
  exact (proj2 (timeout_is_told_as_connection_error None
                  "Request Timeout after 30s" eq_refl) eq_refl).
Defined.

Section TokenWarning.
Import ChatTab.

Lemma contains_unfold (needle hay : string) :
  Str.contains needle hay
  = String.prefix needle hay
    || match hay with
       | EmptyString => false
       | String _ hay' => Str.contains needle hay'
       end.
Proof. destruct hay; reflexivity. Qed.

Lemma prefix_contains (a b s : string) :
  String.prefix (a +:+ b) s = true -> Str.contains b s = true.
Proof.
  revert s. induction a as [|c a IH]; intros s H.
  - change ("" +:+ b) with b in H. now rewrite contains_unfold, H.
  - change (String c a +:+ b) with (String c (a +:+ b)) in H.
    destruct s as [|d s]; [discriminate|]. cbn in H.
    destruct (ascii_dec c d); [|discriminate].
    apply IH in H. rewrite contains_unfold, H. apply orb_true_r.
Qed.

Lemma contains_suffix (a b s : string) :
  Str.contains (a +:+ b) s = true -> Str.contains b s = true.
Proof.
  induction s as [|d s IH]; rewrite contains_unfold; intros H.
  - apply orb_true_iff in H. destruct H as [H|H]; [|discriminate].
    now apply prefix_contains in H.
  - apply orb_true_iff in H. destruct H as [H|H].
    + now apply prefix_contains in H.
    + rewrite contains_unfold, (IH H). apply orb_true_r.
Qed.

Lemma handle_chat_finished_dialogs (b : bool) (reason : string)
    (rt : Runtime) (s : ChatTab.t) :
  dialogs (fst (handle_chat_finished b reason rt s)) = dialogs rt.
Proof.
  unfold handle_chat_finished.
  match goal with
  | |- context [let '(rt0, s0) := ?m in _] =>
      assert (Hmid : dialogs (fst m) = dialogs rt)
        by (destruct (Str.truthy _); [destruct (String.eqb _ _)|];
            reflexivity);
      destruct m as [rt1 s1]
  end.
  cbn [fst] in Hmid.
  destruct (chat_worker s1) as [i|]; cbn [fst]; [|exact Hmid].
  destruct (stop_safely_frame b i rt1) as (_ & Hd & _). now rewrite Hd.
Qed.

Lemma handle_error_shows (b : bool) (m : string) (rt : Runtime)
    (s : ChatTab.t) :
  dialogs (fst (handle_error b m rt s))
  = dialogs rt
    ++ [Critical (if is_token_error m then truncation_warning
                  else "An error occurred: " +:+ m)].
Proof.
  unfold handle_error. rewrite handle_chat_finished_dialogs.
  unfold is_token_error. now destruct (Str.any_in _ _).
Qed.

End TokenWarning.

(** X8. Worker and tab together: when [handle_error] answers a message
    that the worker made from an exception with the truncation warning,
    the exception text contained "finish_reason: length" -- the other four
    keywords of [handle_error] are caught by the worker first and replaced
    by a text without them -- or the worker told it as an unavailable
    model. *)
Theorem truncation_warning_source (b : bool) (mdl : option string)
    (e : string) (rt : Runtime) (s : ChatTab.t) :
  dialogs (fst (ChatTab.handle_error b (ChatWorker.user_friendly_msg mdl e)
                  rt s))
  = dialogs rt ++ [Critical truncation_warning] ->
  Str.any_in ["model not found"; "invalid model"; "model unavailable"]
    (Str.lower e) = true
  \/ Str.contains "finish_reason: length" (Str.lower e) = true.
Proof.
  rewrite handle_error_shows. intros H.
  apply app_inv_head in H. inversion H as [Hshown]. clear H.
  destruct (is_token_error (ChatWorker.user_friendly_msg mdl e)) eqn:Htok.
  2:{ cbv [String.append truncation_warning] in Hshown. discriminate. }
  clear Hshown. unfold ChatWorker.user_friendly_msg in Htok.
  destruct (Str.any_in ["bearer"; _; _; _] _);
    [vm_compute in Htok; discriminate|].
  destruct (Str.any_in ["quota"; _; _; _] _);
    [vm_compute in Htok; discriminate|].
  destruct (Str.any_in ["rate limit"; _; _] _);
    [vm_compute in Htok; discriminate|].
  destruct (Str.any_in ["model not found"; _; _] _); [now left|].
  destruct (Str.any_in ["connection"; _; _; _; _] _);
    [vm_compute in Htok; discriminate|].
  destruct (Str.any_in ["context length"; _; _; _] _) eqn:Hlong;
    [vm_compute in Htok; discriminate|].
  destruct (Str.any_in ["content policy"; _; _; _] _);
    [vm_compute in Htok; discriminate|].
  destruct (Str.any_in ["500"; _; _; _; _; _; _] _);
    [vm_compute in Htok; discriminate|].
  destruct (Str.contains "timeout" _);
    [vm_compute in Htok; discriminate|].
  right. unfold is_token_error, Str.any_in in Htok. cbn [existsb] in Htok.
  repeat (apply orb_true_iff in Htok; destruct Htok as [Htok|Htok]);
    try discriminate; try assumption; exfalso;
    [ apply (contains_suffix "maximum " "context length") in Htok;
      rewrite (any_in_contains "context length") in Hlong
    | rewrite (any_in_contains "token limit") in Hlong
    | rewrite (any_in_contains "max tokens") in Hlong
    | rewrite (any_in_contains "context_length_exceeded") in Hlong ];
    try discriminate; try assumption; cbn; tauto.
Qed.

Lemma truncation_warning_source_witness :
  Str.contains "finish_reason: length"
    (Str.lower "Stopped, finish_reason: length") = true.
Proof.
  destruct (truncation_warning_source true None
              "Stopped, finish_reason: length" (fst just_sent) (snd just_sent)
              eq_refl) as [H|H]; [discriminate H | exact H].
Defined.

(** ** Clearing and importing *)

Section ClearImport.
Import ChatTab.

Lemma cleared_layout (body : list ChatMessage.t) :
  match SuggestionsWidget :: map MessageWidget body ++ [Stretch] with
  | first :: _ :: _ :: _ =>
      [first;
       List.last (SuggestionsWidget :: map MessageWidget body ++ [Stretch])
         Stretch]
  | short => short
  end = [SuggestionsWidget; Stretch].
Proof.
  destruct body as [|w body]; [reflexivity|].
  change (SuggestionsWidget :: map MessageWidget (w :: body) ++ [Stretch])
    with ((SuggestionsWidget :: map MessageWidget (w :: body)) ++ [Stretch]).
  rewrite List.last_last. cbn. now destruct body.
Qed.

Lemma clear_chat_spec (rt : Runtime) (s : ChatTab.t)
    (body : list ChatMessage.t) :
  chat_layout s = SuggestionsWidget :: map MessageWidget body ++ [Stretch] ->
  clear_chat rt s
  = (set_lists (alter (fun _ => []) (conversation_history s) (lists rt)) rt,
     set_chat_layout [SuggestionsWidget; Stretch] s).
Proof.
  intros Hlay. unfold clear_chat. rewrite Hlay, cleared_layout. reflexivity.
Qed.

(** The loop of [load_conversation_history] over the imported messages:
    one widget per message with content, appended in order. *)
Lemma import_widgets (imported : list Message.t) :
  forall (rt : Runtime) (s : ChatTab.t) (shown : list ChatMessage.t),
    chat_layout s = SuggestionsWidget :: map MessageWidget shown ++ [Stretch] ->
    let out :=
      fold_left
        (fun (acc : Runtime * ChatTab.t) (msg : Message.t) =>
           if Str.truthy (Message.content msg) then
             let is_user := String.eqb (Message.role msg) "user" in
             add_message (Message.content msg) is_user
               (if is_user then None else Message.model msg)
               (fst acc) (snd acc)
           else acc)
        imported (rt, s) in
    exists added,
      chat_layout (snd out)
      = SuggestionsWidget :: map MessageWidget (shown ++ added) ++ [Stretch]
      /\ map ChatMessage.raw_content added
         = map Message.content
             (List.filter (fun m => Str.truthy (Message.content m)) imported)
      /\ map ChatMessage.is_user_message added
         = map (fun m => String.eqb (Message.role m) "user")
             (List.filter (fun m => Str.truthy (Message.content m)) imported)
      /\ lists (fst out) = lists rt
      /\ conversation_history (snd out) = conversation_history s
      /\ current_model (snd out) = current_model s.
Proof.
  induction imported as [|m imported IH]; intros rt s shown Hlay out.
  - exists []. subst out. cbn. rewrite app_nil_r. repeat split; auto.
  - subst out. cbn [fold_left List.filter].
    destruct (Str.truthy (Message.content m)) eqn:Hc; cbn [fst snd].
    + set (w := ChatMessage.mk (widgets_made rt) (Message.content m)
                  (String.eqb (Message.role m) "user")
                  (if String.eqb (Message.role m) "user" then None
                   else Message.model m)).
      destruct (IH (fst (add_message (Message.content m)
                           (String.eqb (Message.role m) "user")
                           (if String.eqb (Message.role m) "user" then None
                            else Message.model m) rt s))
                   (snd (add_message (Message.content m)
                           (String.eqb (Message.role m) "user")
                           (if String.eqb (Message.role m) "user" then None
                            else Message.model m) rt s))
                   (shown ++ [w]))
        as (added & H1 & H2 & H3 & H4 & H5 & H6).
      { cbn. rewrite Hlay.
        change (SuggestionsWidget :: map MessageWidget shown ++ [Stretch])
          with ((SuggestionsWidget :: map MessageWidget shown) ++ [Stretch]).
        rewrite insert_before_last_end, map_app. cbn.
        f_equal. exact (List.app_assoc _ [_] [_]). }
      exists (w :: added).
      match goal with
      | |- context [fold_left ?f imported ?acc] =>
          change acc with
            (fst (add_message (Message.content m)
                    (String.eqb (Message.role m) "user")
                    (if String.eqb (Message.role m) "user" then None
                     else Message.model m) rt s),
             snd (add_message (Message.content m)
                    (String.eqb (Message.role m) "user")
                    (if String.eqb (Message.role m) "user" then None
                     else Message.model m) rt s))
      end.
      cbv zeta in H1, H4, H5, H6. cbn [fst snd] in H1, H4, H5, H6 |- *.
      rewrite H1, H4, H5, H6, <- app_assoc. cbn. rewrite H2, H3.
      repeat split; reflexivity.
    + apply (IH rt s shown Hlay).
Qed.

End ClearImport.

(** X9. Clearing a chat empties the history list in place: the tab keeps
    the same list object, so a worker that holds it and has not yet built
    its request will submit its own message only; the layout is back to the
    suggestions and the stretch; worker slot and threads are not touched
    (a running session goes on). *)
Theorem clear_chat_in_place (rt : Runtime) (s : ChatTab.t)
    (body : list ChatMessage.t) (h : list Message.t) :
  ChatTab.chat_layout s
  = SuggestionsWidget :: map MessageWidget body ++ [Stretch] ->
  lists rt !! ChatTab.conversation_history s = Some h ->
  let out := ChatTab.clear_chat rt s in
  ChatTab.history (fst out) (snd out) = []
  /\ ChatTab.conversation_history (snd out) = ChatTab.conversation_history s
  /\ ChatTab.chat_layout (snd out) = [SuggestionsWidget; Stretch]
  /\ threads (fst out) = threads rt
  /\ ChatTab.chat_worker (snd out) = ChatTab.chat_worker s
  /\ (forall w,
        ChatWorker.conversation_history w = ChatTab.conversation_history s ->
        ChatWorker.phase w = ChatWorker.Started ->
        ChatWorker.submitted (fst (ChatWorker.step (lists (fst out)) w))
        = Some [Message.user (ChatWorker.message w)]).
Proof.
  intros Hlay Hh out. subst out. rewrite (clear_chat_spec rt s body Hlay).
  cbn [fst snd]. unfold ChatTab.history. cbn.
  rewrite list_lookup_alter, Hh. case_decide; [|congruence]. cbn.
  repeat split; try reflexivity.
  intros w Hw Hph. unfold ChatWorker.step. rewrite Hph, Hw. cbn.
  rewrite list_lookup_alter, Hh. now case_decide.
Qed.

Lemma clear_chat_in_place_witness :
  let out := ChatTab.clear_chat (fst two_exchanges) (snd two_exchanges) in
  ChatTab.history (fst out) (snd out) = []
  /\ ChatTab.chat_layout (snd out) = [SuggestionsWidget; Stretch].
Proof.
  destruct (clear_chat_in_place (fst two_exchanges) (snd two_exchanges)
              [ChatMessage.mk 0 "u1" true None;
               ChatMessage.mk 1 "a1" false (Some "m");
               ChatMessage.mk 2 "u2" true None;
               ChatMessage.mk 3 "a2" false (Some "m")]
              _ eq_refl eq_refl) as (H1 & _ & H3 & _).
  split; assumption.
Defined.

(** X10. Importing a conversation: the tab's history becomes the imported
    list, held in a new list object, while the list it held before is
    emptied; the layout shows one widget per imported message that has
    content, in order, with the message's content, as a user widget exactly
    when the role is "user"; the tab's model becomes the model of the last
    assistant message that names one, if any. *)
Theorem import_replaces_conversation (imported : list Message.t)
    (rt : Runtime) (s : ChatTab.t) (body : list ChatMessage.t)
    (h : list Message.t) :
  ChatTab.chat_layout s
  = SuggestionsWidget :: map MessageWidget body ++ [Stretch] ->
  lists rt !! ChatTab.conversation_history s = Some h ->
  let out := ChatTab.load_conversation_history imported rt s in
  let shown_msgs :=
    List.filter (fun m => Str.truthy (Message.content m)) imported in
  ChatTab.history (fst out) (snd out) = imported
  /\ ChatTab.conversation_history (snd out) = length (lists rt)
  /\ lists (fst out) !! ChatTab.conversation_history s = Some []
  /\ (exists added,
        ChatTab.chat_layout (snd out)
        = SuggestionsWidget :: map MessageWidget added ++ [Stretch]
        /\ map ChatMessage.raw_content added
           = map Message.content shown_msgs
        /\ map ChatMessage.is_user_message added
           = map (fun m => String.eqb (Message.role m) "user") shown_msgs)
  /\ ChatTab.current_model (snd out)
     = match ChatTab.last_model imported with
       | Some n => Some n
       | None => ChatTab.current_model s
       end.
Proof.
  intros Hlay Hh out shown_msgs. subst out.
  unfold ChatTab.load_conversation_history.
  rewrite (clear_chat_spec rt s body Hlay).
  match goal with
  | |- context [fold_left ?f imported (?rt1, ?s1)] =>
      destruct (import_widgets imported rt1 s1 [] eq_refl)
        as (added & H1 & H2 & H3 & H4 & H5 & H6);
      cbv zeta in H1, H4, H5, H6;
      destruct (fold_left f imported (rt1, s1)) as [rt2 s2]
  end.
  cbn [fst snd] in *.
  assert (Hlen : length (alter (fun _ : list Message.t => [])
                           (ChatTab.conversation_history s) (lists rt))
                 = length (lists rt)) by apply length_alter.
  assert (Hvalid : ChatTab.conversation_history s < length (lists rt))
    by (eapply lookup_lt_Some; eauto).
  assert (Hs2 : ChatTab.conversation_history
                  (match ChatTab.last_model imported with
                   | Some n => ChatTab.set_model (Some n) s2
                   | None => s2
                   end) = length (lists rt)).
  { destruct (ChatTab.last_model imported); cbn; rewrite H5; cbn;
      exact Hlen. }
  unfold ChatTab.history. rewrite Hs2, H4. cbn.
  rewrite <- Hlen at 1. rewrite list_lookup_middle by reflexivity.
  rewrite lookup_app_l by (rewrite Hlen; exact Hvalid).
  rewrite list_lookup_alter, Hh. case_decide; [|congruence]. cbn.
  repeat split; try reflexivity.
  - exists added.
    destruct (ChatTab.last_model imported); cbn; rewrite H1;
      repeat split; assumption.
  - destruct (ChatTab.last_model imported); cbn; [reflexivity | exact H6].
Qed.

Lemma import_replaces_conversation_witness :
  ChatTab.history (fst imported_with_system) (snd imported_with_system)
  = [Message.mk "system" "s" None; Message.user "u1";
     Message.assistant "a1" None; Message.user "u2"].
Proof.
  exact (proj1 (import_replaces_conversation
                  [Message.mk "system" "s" None; Message.user "u1";
                   Message.assistant "a1" None; Message.user "u2"]
                  (fst fresh_tab) (snd fresh_tab) [] [] eq_refl eq_refl)).
Defined.

(** ** The window: tab indices *)

Section WellIndexed.
Import ChatbotApp.

Lemma load_conversation_history_tab_index (imported : list Message.t)
    (rt : Runtime) (s : ChatTab.t) :
  ChatTab.tab_index (snd (ChatTab.load_conversation_history imported rt s))
  = ChatTab.tab_index s.
Proof.
  unfold ChatTab.load_conversation_history, ChatTab.clear_chat. cbn.
  match goal with
  | |- context [fold_left ?f imported ?init] =>
      assert (H : forall l acc,
                ChatTab.tab_index (snd (fold_left f l acc))
                = ChatTab.tab_index (snd acc));
        [|specialize (H imported init);
          destruct (fold_left f imported init) as [rt1 s1]]
  end.
  { induction l as [|m l IH]; intros acc; [reflexivity|].
    cbn [fold_left]. rewrite IH.
    destruct (Str.truthy (Message.content m)); reflexivity. }
  cbn in H. destruct (ChatTab.last_model imported); cbn; exact H.
Qed.

Lemma create_new_chat_tab_well_indexed (title : string) (rt : Runtime)
    (app : t) :
  well_indexed app -> well_indexed (snd (create_new_chat_tab title rt app)).
Proof.
  intros [Hlen Hidx]. unfold create_new_chat_tab, ChatTab.__init__.
  cbn. split; cbn.
  - rewrite !length_app, Hlen. reflexivity.
  - intros i tab Hi.
    destruct (decide (i < length (chat_tabs app))) as [Hlt|Hge].
    + rewrite lookup_app_l in Hi by exact Hlt. now apply Hidx.
    + rewrite lookup_app_r in Hi by lia.
      destruct (i - length (chat_tabs app)) as [|k] eqn:Hk; [|discriminate].
      inversion Hi; subst tab. cbn. f_equal. lia.
Qed.

Lemma reindexed (k : nat) (tabs : list ChatTab.t) :
  (forall i tab, tabs !! i = Some tab -> ChatTab.tab_index tab = Z.of_nat i) ->
  forall i tab,
    imap (fun i tab =>
            if (k <=? i)%nat
            then ChatTab.set_tab_index (Z.of_nat i) tab
            else tab) (delete k tabs) !! i = Some tab ->
    ChatTab.tab_index tab = Z.of_nat i.
Proof.
  intros Hidx i tab Hi. rewrite list_lookup_imap in Hi.
  destruct (delete k tabs !! i) as [tab0|] eqn:Hdel; [|discriminate].
  cbn in Hi. inversion Hi; subst tab; clear Hi.
  destruct (k <=? i)%nat eqn:Hki; [reflexivity|].
  apply Nat.leb_gt in Hki. rewrite list_lookup_delete_lt in Hdel by exact Hki.
  now apply Hidx.
Qed.

Lemma delete_chat_tab_well_indexed (confirm b : bool) (index : Z)
    (rt : Runtime) (app : t) :
  well_indexed app ->
  well_indexed (snd (delete_chat_tab confirm b index rt app)).
Proof.
  intros Hwi. pose proof Hwi as [Hlen Hidx]. unfold delete_chat_tab.
  destruct (_ || _) eqn:Hrange; [exact Hwi|].
  destruct (length (chat_tabs app) =? 1)%nat; [exact Hwi|].
  destruct (tab_list app !! Z.to_nat index) as [title|] eqn:Htitle;
    [|exact Hwi].
  destruct (chat_tabs app !! Z.to_nat index) as [tab|] eqn:Htab;
    [|exact Hwi].
  destruct confirm; cbn [negb]; [|exact Hwi].
  destruct (ChatTab.terminate_worker b rt tab) as [rt1 tab1].
  cbn [snd chat_tabs tab_list current_tab_index].
  assert (Htabs : forall a : t,
            chat_tabs a = delete (Z.to_nat index) (chat_tabs app) ->
            tab_list a = delete (Z.to_nat index) (tab_list app) ->
            well_indexed
              (mk (imap (fun i tab =>
                           if (Z.to_nat index <=? i)%nat
                           then ChatTab.set_tab_index (Z.of_nat i) tab
                           else tab) (chat_tabs a))
                  (tab_list a) (current_tab_index a))).
  { intros a Ha Hb. split; cbn [chat_tabs tab_list].
    - rewrite length_imap, Ha, Hb.
      rewrite !length_delete by eauto. now rewrite Hlen.
    - rewrite Ha. now apply reindexed. }
  destruct (_ =? _)%Z.
  - apply Htabs; unfold switch_chat_tab;
      match goal with
      | |- context [if ?c then _ else _] => destruct c
      end; reflexivity.
  - destruct (_ >? _)%Z; now apply Htabs.
Qed.

Lemma rename_chat_tab_well_indexed (ok : bool) (new_title : string)
    (index : Z) (app : t) :
  well_indexed app ->
  well_indexed (ChatbotAppRest.rename_chat_tab ok new_title index app).
Proof.
  intros Hwi. pose proof Hwi as [Hlen Hidx].
  unfold ChatbotAppRest.rename_chat_tab.
  destruct (_ || _); [exact Hwi|].
  destruct (tab_list app !! Z.to_nat index); [|exact Hwi].
  destruct (ok && Str.truthy new_title); [|exact Hwi].
  split; cbn; [now rewrite length_insert|exact Hidx].
Qed.

Lemma import_chat_well_indexed (file : ChatbotAppRest.Imported)
    (filename basename : string) (rt : Runtime) (app : t) :
  well_indexed app ->
  well_indexed
    (snd (fst (ChatbotAppRest.import_chat file filename basename rt app))).
Proof.
  intros Hwi. unfold ChatbotAppRest.import_chat.
  destruct (ChatbotAppRest.success file); cbn [negb]; [|exact Hwi].
  destruct (ChatbotAppRest.conversation file) as [|m0 msgs] eqn:Hconv;
    [exact Hwi|].
  pose proof (create_new_chat_tab_well_indexed
                (ChatbotAppRest.import_title (m0 :: msgs) basename) rt app Hwi)
    as Hnew.
  destruct (create_new_chat_tab _ rt app) as [rt1 app1]. cbn [snd] in Hnew.
  destruct Hnew as [Hlen Hidx].
  destruct (chat_tabs app1 !! (length (chat_tabs app1) - 1)) as [tab|] eqn:Hk;
    [|split; assumption].
  pose proof (load_conversation_history_tab_index (m0 :: msgs) rt1 tab)
    as Htab.
  destruct (ChatTab.load_conversation_history (m0 :: msgs) rt1 tab)
    as [rt2 tab2].
  cbn [fst snd] in *. split; cbn.
  - now rewrite length_insert.
  - intros i t0 Hi.
    destruct (decide (i = length (chat_tabs app1) - 1)) as [->|Hne].
    + rewrite list_lookup_insert_eq in Hi by (eapply lookup_lt_Some; eauto).
      inversion Hi; subst t0. rewrite Htab. now apply Hidx.
    + rewrite list_lookup_insert_ne in Hi by congruence. now apply Hidx.
Qed.

Lemma operate_well_indexed (a : WindowAction) (st : Runtime * t) :
  well_indexed (snd st) -> well_indexed (snd (operate a st)).
Proof.
  intros Hwi. destruct a as [[title|confirm b index]|index|ok new index|f n bn];
    cbn [operate act snd].
  - now apply create_new_chat_tab_well_indexed.
  - now apply delete_chat_tab_well_indexed.
  - unfold switch_chat_tab. now destruct (_ || _).
  - now apply rename_chat_tab_well_indexed.
  - now apply import_chat_well_indexed.
Qed.

End WellIndexed.

(** X11. Whatever the user does in the window (new chats, deletions,
    switches, renames, imports), the list of titles stays as long as the
    list of tabs and every tab's [tab_index] is its position in the list:
    the index a tab passes with [message_sent] names that tab. *)
Theorem tabs_know_their_place (actions : list WindowAction) (rt0 : Runtime) :
  well_indexed
    (snd (foldl (fun st a => operate a st) (ChatbotApp.__init__ rt0) actions)).
Proof.
  assert (Hgen : forall st,
            well_indexed (snd st) ->
            well_indexed (snd (foldl (fun st a => operate a st) st actions))).
  { induction actions as [|a actions IH]; intros st Hst; [exact Hst|].
    cbn [foldl]. apply IH. now apply operate_well_indexed. }
  apply Hgen. unfold ChatbotApp.__init__.
  apply create_new_chat_tab_well_indexed.
  split; [reflexivity|]. intros i tab Hi. discriminate.
Qed.

(** ** The window: leaving the application *)

Section Exit.
Import ChatbotAppRest.

Lemma stop_safely_keeps_quiet (b : bool) (i j : nat) (rt : Runtime) :
  stopped rt j -> stopped (stop_safely b i rt) j.
Proof.
  unfold stopped. intros Hq w Hw. destruct (decide (i = j)) as [->|Hne].
  - eapply stop_safely_stops; eassumption.
  - rewrite stop_safely_others in Hw by exact Hne. now apply Hq.
Qed.

Lemma stop_all_quiet (in_time : nat -> bool) (workers : list nat) :
  forall (rt : Runtime) (j : nat),
    j ∈ workers \/ stopped rt j ->
    stopped (fold_left (fun rt i => stop_safely (in_time i) i rt) workers rt) j.
Proof.
  induction workers as [|i workers IH]; intros rt j Hj; cbn [fold_left].
  - destruct Hj as [Hin|Hq]; [inversion Hin|exact Hq].
  - apply IH. destruct Hj as [Hin|Hq].
    + apply elem_of_cons in Hin. destruct Hin as [->|Hin]; [|now left].
      right. intros w Hw. eapply stop_safely_stops; eassumption.
    + right. now apply stop_safely_keeps_quiet.
Qed.

Lemma stop_all_frame (in_time : nat -> bool) (workers : list nat) :
  forall rt : Runtime,
    let rt' :=
      fold_left (fun rt i => stop_safely (in_time i) i rt) workers rt in
    lists rt' = lists rt /\ dialogs rt' = dialogs rt
    /\ forall j, j ∉ workers -> threads rt' !! j = threads rt !! j.
Proof.
  induction workers as [|i workers IH]; intros rt; cbn [fold_left];
    [repeat split|].
  destruct (IH (stop_safely (in_time i) i rt)) as (Hl & Hd & Ht).
  destruct (stop_safely_frame (in_time i) i rt) as (Hl0 & Hd0 & _).
  cbv zeta. split; [congruence|]. split; [congruence|].
  intros j Hj. apply not_elem_of_cons in Hj. destruct Hj as [Hne Hj].
  rewrite Ht by exact Hj. apply stop_safely_others. congruence.
Qed.

Lemma wait_or_terminate_quiet (b : bool) (i : nat) (rt : Runtime) :
  stopped rt i -> wait_or_terminate b i rt = rt.
Proof.
  unfold stopped. intros Hq. unfold wait_or_terminate.
  destruct (threads rt !! i) as [w|]; [|reflexivity].
  now rewrite (Hq w eq_refl).
Qed.

Lemma wait_all_quiet (waited : nat -> bool) (workers : list nat)
    (rt : Runtime) :
  (forall i, i ∈ workers -> stopped rt i) ->
  fold_left (fun rt i => wait_or_terminate (waited i) i rt) workers rt = rt.
Proof.
  induction workers as [|i workers IH]; intros Hq; cbn [fold_left];
    [reflexivity|].
  rewrite wait_or_terminate_quiet by (apply Hq; constructor).
  apply IH. intros k Hk. apply Hq. now apply list_elem_of_further.
Qed.

Lemma terminate_tabs_quiet (in_time : nat -> bool) (rt : Runtime)
    (tabs : list ChatTab.t) :
  (forall tab, tab ∈ tabs -> ChatTab.worker_running rt tab = false) ->
  terminate_tabs in_time rt tabs = (rt, tabs).
Proof.
  induction tabs as [|tab tabs IH]; intros Hq; cbn [terminate_tabs];
    [reflexivity|].
  unfold ChatTab.terminate_worker. rewrite (Hq tab) by constructor.
  rewrite IH; [reflexivity|].
  intros t Ht. apply Hq. now apply list_elem_of_further.
Qed.

Lemma running_worker_quiet (rt : Runtime) (slot : option nat) :
  running_worker rt slot = None <->
  match slot with Some i => stopped rt i | None => True end.
Proof.
  unfold running_worker, stopped. destruct slot as [i|]; [|tauto].
  destruct (threads rt !! i) as [w|].
  - destruct (ChatWorker.isRunning w) eqn:Hrun; split; try discriminate.
    + intros Hq. specialize (Hq w eq_refl). congruence.
    + intros _ w0 Hw0. congruence.
    + reflexivity.
  - split; [intros _ w Hw; discriminate|reflexivity].
Qed.

Lemma running_worker_slot (rt : Runtime) (slot : option nat) (i : nat) :
  running_worker rt slot = Some i -> slot = Some i.
Proof.
  unfold running_worker. destruct slot as [k|]; [|discriminate].
  destruct (threads rt !! k) as [w|]; [|discriminate].
  destruct (ChatWorker.isRunning w); congruence.
Qed.

(** What [_cleanup_all_workers] comes to: [stop_safely] on every running
    worker; the later waits and the tabs' [terminate_worker] find nothing
    running. *)
Lemma cleanup_spec (in_time waited : nat -> bool) (rt : Runtime)
    (app : ChatbotApp.t) (title_worker : option nat) :
  let rt' :=
    fold_left (fun rt i => stop_safely (in_time i) i rt)
      (running_workers rt app title_worker) rt in
  _cleanup_all_workers in_time waited rt app title_worker = (rt', app, None)
  /\ (forall tab, tab ∈ ChatbotApp.chat_tabs app ->
        ChatTab.worker_running rt' tab = false)
  /\ running_worker rt' title_worker = None.
Proof.
  intros rt'.
  assert (Hslot : forall slot,
            (match running_worker rt slot with
             | Some i => i ∈ running_workers rt app title_worker
             | None => True
             end) ->
            match slot with Some i => stopped rt' i | None => True end).
  { intros slot Hin. destruct slot as [i|]; [|exact I].
    apply stop_all_quiet.
    destruct (running_worker rt (Some i)) as [k|] eqn:Hrun.
    - left. apply running_worker_slot in Hrun. congruence.
    - right. now apply (running_worker_quiet rt (Some i)). }
  assert (Htabs : forall tab, tab ∈ ChatbotApp.chat_tabs app ->
            ChatTab.worker_running rt' tab = false).
  { intros tab Htab.
    assert (Hq : match ChatTab.chat_worker tab with
                 | Some i => stopped rt' i
                 | None => True
                 end).
    { apply Hslot.
      destruct (running_worker rt (ChatTab.chat_worker tab)) as [k|] eqn:Hrun;
        [|exact I].
      unfold running_workers. apply elem_of_app. left.
      apply list_elem_of_omap. exists tab. split; assumption. }
    unfold ChatTab.worker_running.
    destruct (ChatTab.chat_worker tab) as [i|]; [|reflexivity].
    destruct (threads rt' !! i) as [w|] eqn:Hw; [|reflexivity].
    now apply Hq. }
  assert (Htitle : running_worker rt' title_worker = None).
  { apply running_worker_quiet. apply Hslot.
    destruct (running_worker rt title_worker) as [k|] eqn:Hrun; [|exact I].
    unfold running_workers. rewrite Hrun. apply elem_of_app. right.
    constructor. }
  split; [|split; assumption].
  unfold _cleanup_all_workers. fold rt'.
  rewrite wait_all_quiet.
  - rewrite terminate_tabs_quiet by exact Htabs. now destruct app.
  - intros i Hi. apply stop_all_quiet. now left.
Qed.

End Exit.

(** X12. Closing the window.  When the close is accepted (no worker was
    running, or the user confirmed), every worker that was running has
    been stopped: afterwards no tab has a running worker and the title
    worker is not running; the tabs are left as they were, worker slots
    included, the window's title-worker reference is cleared, and no
    history list or dialog changed.  When the user declines, the event is
    refused and nothing changed at all. *)
Theorem exit_stops_every_worker (reply : bool) (in_time waited : nat -> bool)
    (rt : Runtime) (app : ChatbotApp.t) (title_worker : option nat) :
  let out :=
    ChatbotAppRest.closeEvent reply in_time waited rt app title_worker in
  let rt' := fst (fst (fst out)) in
  if snd out then
    (reply = true \/ ChatbotAppRest.running_workers rt app title_worker = [])
    /\ snd (fst (fst out)) = app
    /\ snd (fst out) = None
    /\ (forall tab, tab ∈ ChatbotApp.chat_tabs app ->
          ChatTab.worker_running rt' tab = false
          /\ ChatTabRest.get_status rt' tab = "Ready")
    /\ ChatbotAppRest.running_worker rt' title_worker = None
    /\ lists rt' = lists rt
    /\ dialogs rt' = dialogs rt
    /\ (forall j, j ∉ ChatbotAppRest.running_workers rt app title_worker ->
          threads rt' !! j = threads rt !! j)
  else
    reply = false
    /\ ChatbotAppRest.running_workers rt app title_worker <> []
    /\ fst out = (rt, app, title_worker).
Proof.
  intros out rt'. subst rt' out. unfold ChatbotAppRest.closeEvent.
  destruct (cleanup_spec in_time waited rt app title_worker)
    as (Hclean & Htabs & Htitle).
  destruct (stop_all_frame in_time
              (ChatbotAppRest.running_workers rt app title_worker) rt)
    as (Hl & Hd & Ht).
  cbv zeta in Hclean, Htabs, Htitle, Hl, Hd, Ht.
  assert (Hdone :
    forall rt1,
      rt1 = fold_left (fun rt i => stop_safely (in_time i) i rt)
              (ChatbotAppRest.running_workers rt app title_worker) rt ->
      (forall tab, tab ∈ ChatbotApp.chat_tabs app ->
         ChatTab.worker_running rt1 tab = false
         /\ ChatTabRest.get_status rt1 tab = "Ready")).
  { intros rt1 -> tab Htab. unfold ChatTabRest.get_status.
    rewrite (Htabs tab Htab). split; reflexivity. }
  destruct (ChatbotAppRest.running_workers rt app title_worker)
    as [|i workers] eqn:Hw.
  - cbn [snd]. rewrite Hclean. cbn [fst snd].
    repeat split; auto; apply (Hdone _ eq_refl); assumption.
  - destruct reply; cbn [snd].
    + rewrite Hclean. cbn [fst snd].
      repeat split; auto; apply (Hdone _ eq_refl); assumption.
    + repeat split. discriminate.
Qed.

Lemma exit_stops_every_worker_witness :
  let out :=
    ChatbotAppRest.closeEvent true (fun _ => true) (fun _ => true)
      (fst busy_window) (snd busy_window) None in
  ChatbotAppRest.running_workers (fst busy_window) (snd busy_window) None
  = [0]
  /\ snd out = true
  /\ (forall tab, tab ∈ ChatbotApp.chat_tabs (snd busy_window) ->
        ChatTabRest.get_status (fst (fst (fst out))) tab = "Ready").
Proof.
  pose proof (exit_stops_every_worker true (fun _ => true) (fun _ => true)
                (fst busy_window) (snd busy_window) None) as H.
  cbv zeta in H.
  assert (Hacc : snd (ChatbotAppRest.closeEvent true (fun _ => true)
                        (fun _ => true) (fst busy_window) (snd busy_window)
                        None) = true) by reflexivity.
  rewrite Hacc in H. destruct H as (_ & _ & _ & Htabs & _).
  split; [reflexivity|]. split; [exact Hacc|].
  intros tab Htab. exact (proj2 (Htabs tab Htab)).
Defined.

(** ** The window: titles *)

Section Titles.
Import ChatbotAppRest.

Lemma length_append (a b : string) :
  String.length (a +:+ b) = String.length a + String.length b.
Proof.
  induction a as [|x a IH]; [reflexivity|].
  change (S (String.length (a +:+ b)) = S (String.length a + String.length b)).
  now rewrite IH.
Qed.

Lemma length_substring (n : nat) :
  forall s : string,
    n <= String.length s -> String.length (String.substring 0 n s) = n.
Proof.
  induction n as [|n IH]; intros s Hn.
  - now destruct s.
  - destruct s as [|c s]; cbn in Hn; [lia|]. cbn. rewrite IH; [reflexivity|lia].
Qed.

Lemma rev_app_spec (s1 : string) :
  forall s2, String.rev_app s1 s2 = String.rev s1 +:+ s2.
Proof.
  unfold String.rev.
  induction s1 as [|a s1 IH]; intros s2; [reflexivity|].
  cbn [String.rev_app]. rewrite (IH (String a s2)), (IH (String a "")).
  now rewrite append_assoc.
Qed.

Lemma rev_cons (a : ascii) (s : string) :
  String.rev (String a s) = String.rev s +:+ String a "".
Proof. unfold String.rev at 1. cbn [String.rev_app]. apply rev_app_spec. Qed.

Lemma rev_snoc (a : ascii) (s : string) :
  String.rev (s +:+ String a "") = String a (String.rev s).
Proof.
  induction s as [|b s IH]; [reflexivity|].
  change (String b s +:+ String a "") with (String b (s +:+ String a "")).
  rewrite !rev_cons, IH. reflexivity.
Qed.

Lemma lstrip_quotes_head (s : string) :
  lstrip_quotes s = ""
  \/ exists c u, lstrip_quotes s = String c u /\ is_quote c = false.
Proof.
  induction s as [|c s IH]; [now left|].
  cbn [lstrip_quotes]. destruct (is_quote c) eqn:Hc; [exact IH|].
  right. now exists c, s.
Qed.

Lemma lstrip_quotes_snoc (c : ascii) (y : string) :
  is_quote c = false ->
  exists v, lstrip_quotes (y +:+ String c "") = v +:+ String c "".
Proof.
  intros Hc. induction y as [|d y IH].
  - exists "". change ("" +:+ String c "") with (String c "").
    cbn [lstrip_quotes]. now rewrite Hc.
  - change (String d y +:+ String c "") with (String d (y +:+ String c "")).
    cbn [lstrip_quotes]. destruct (is_quote d); [exact IH|].
    now exists (String d y).
Qed.

Lemma get_snoc (d : ascii) (x : string) :
  String.get (String.length x) (x +:+ String d "") = Some d.
Proof.
  induction x as [|b x IH]; [reflexivity|].
  change (String b x +:+ String d "") with (String b (x +:+ String d "")).
  exact IH.
Qed.

Lemma get_last_snoc (d : ascii) (x : string) :
  String.get (String.length (x +:+ String d "") - 1) (x +:+ String d "")
  = Some d.
Proof.
  rewrite length_append. cbn [String.length].
  replace (String.length x + 1 - 1) with (String.length x) by lia.
  apply get_snoc.
Qed.

(** [strip_quotes] leaves a string that neither begins nor ends with a
    quote. *)
Lemma strip_quotes_ends (s : string) :
  strip_quotes s = ""
  \/ (exists c u, strip_quotes s = String c u /\ is_quote c = false)
     /\ (exists d x, strip_quotes s = x +:+ String d ""
                     /\ is_quote d = false).
Proof.
  unfold strip_quotes.
  destruct (lstrip_quotes_head s) as [->|(c & u & -> & Hc)]; [now left|].
  right. rewrite rev_cons.
  destruct (lstrip_quotes_snoc c (String.rev u) Hc) as [v Hv].
  rewrite Hv, rev_snoc. split; [now exists c, (String.rev v)|].
  destruct (lstrip_quotes_head (String.rev u +:+ String c ""))
    as [Hnil|(d & z & Hz & Hd)].
  - rewrite Hnil in Hv. destruct v; discriminate.
  - exists d, (String.rev z). split; [|exact Hd].
    rewrite <- rev_snoc, <- Hv, Hz. apply rev_cons.
Qed.

End Titles.

(** X13. The titles the window writes into the tab list.  The
    placeholder made from the first message has at most 23 characters;
    the generated title, once cleaned, has at most 30 characters and
    neither begins nor ends with a single or double quote. *)
Theorem titles_are_short_and_unquoted (message title_text : string) :
  String.length (ChatbotAppRest.placeholder message) <= 23
  /\ String.length (ChatbotAppRest.clean_title title_text) <= 30
  /\ (forall c,
        String.get 0 (ChatbotAppRest.clean_title title_text) = Some c ->
        ChatbotAppRest.is_quote c = false)
  /\ (forall c,
        String.get
          (String.length (ChatbotAppRest.clean_title title_text) - 1)
          (ChatbotAppRest.clean_title title_text) = Some c ->
        ChatbotAppRest.is_quote c = false).
Proof.
  split; [|split; [|split]].
  - unfold ChatbotAppRest.placeholder.
    destruct (20 <? String.length message)%nat eqn:Hlen.
    + apply Nat.ltb_lt in Hlen.
      rewrite length_append, length_substring by lia. cbn. lia.
    + apply Nat.ltb_ge in Hlen. lia.
  - unfold ChatbotAppRest.clean_title. cbv zeta.
    destruct (30 <? String.length _)%nat eqn:Hlen.
    + apply Nat.ltb_lt in Hlen.
      rewrite length_append, length_substring by lia. cbn. lia.
    + apply Nat.ltb_ge in Hlen. exact Hlen.
  - intros c. unfold ChatbotAppRest.clean_title. cbv zeta.
    destruct (strip_quotes_ends (Str.strip title_text))
      as [->|[(c0 & u & Hu & Hc0) _]]; [discriminate|].
    rewrite Hu. destruct (30 <? String.length _)%nat.
    + cbn. intros Hc. inversion Hc; subst c. exact Hc0.
    + cbn. intros Hc. inversion Hc; subst c. exact Hc0.
  - intros c. unfold ChatbotAppRest.clean_title. cbv zeta.
    destruct (30 <? String.length _)%nat.
    + change "..." with (".." +:+ ".").
      rewrite <- append_assoc, get_last_snoc.
      intros Hc. inversion Hc; subst c. reflexivity.
    + destruct (strip_quotes_ends (Str.strip title_text))
        as [->|[_ (d & x & Hx & Hd)]]; [discriminate|].
      rewrite Hx, get_last_snoc. intros Hc. inversion Hc; subst c. exact Hd.
Qed.

Lemma titles_are_short_and_unquoted_witness :
  String.length
    (ChatbotAppRest.placeholder "Tell me about the history of Rome") <= 23
  /\ ChatbotAppRest.clean_title " 'Trip plan' " = "Trip plan"
  /\ ChatbotAppRest.is_quote "T" = false
  /\ ChatbotAppRest.is_quote "n" = false.
Proof.
  destruct (titles_are_short_and_unquoted
              "Tell me about the history of Rome" " 'Trip plan' ")
    as (H1 & _ & H3 & H4).
  split; [exact H1|]. split; [reflexivity|].
  split; [apply H3|apply H4]; reflexivity.
Defined.

(** ** The window: importing a chat *)

Section WindowImport.
Import ChatbotApp.

(** Where [load_conversation_history] leaves the list objects: the tab's
    old list emptied, the imported one added as a new object that the tab
    now holds. *)
Lemma load_conversation_history_lists (imported : list Message.t)
    (rt : Runtime) (s : ChatTab.t) (body : list ChatMessage.t) :
  ChatTab.chat_layout s
  = SuggestionsWidget :: map MessageWidget body ++ [Stretch] ->
  let out := ChatTab.load_conversation_history imported rt s in
  lists (fst out)
  = alter (fun _ => []) (ChatTab.conversation_history s) (lists rt)
    ++ [imported]
  /\ ChatTab.conversation_history (snd out) = length (lists rt).
Proof.
  intros Hlay out. subst out. unfold ChatTab.load_conversation_history.
  rewrite (clear_chat_spec rt s body Hlay).
  match goal with
  | |- context [fold_left ?f imported (?rt1, ?s1)] =>
      destruct (import_widgets imported rt1 s1 [] eq_refl)
        as (added & _ & _ & _ & H4 & H5 & _);
      cbv zeta in H4, H5;
      destruct (fold_left f imported (rt1, s1)) as [rt2 s2]
  end.
  cbn [fst snd] in *. rewrite H4. cbn.
  split; [reflexivity|].
  destruct (ChatTab.last_model imported); cbn; rewrite H5; cbn;
    apply length_alter.
Qed.

End WindowImport.

(** X14. Importing a chat file into the window.  A file that was read
    and holds messages opens exactly one new tab, at the end of the list
    and selected, titled after the first user message with content (else
    after the file name); the new tab holds the imported messages as its
    history, has no worker and knows its index; the tabs that were there,
    their history lists and the threads are untouched.  A file that could
    not be read, or holds no message, changes nothing and is answered by
    an error or a warning box. *)
Theorem import_opens_one_tab (file : ChatbotAppRest.Imported)
    (filename basename : string) (rt : Runtime) (app : ChatbotApp.t) :
  let out := ChatbotAppRest.import_chat file filename basename rt app in
  let rt' := fst (fst out) in
  let app' := snd (fst out) in
  match ChatbotAppRest.success file, ChatbotAppRest.conversation file with
  | true, _ :: _ =>
      exists tab,
        ChatbotApp.chat_tabs app' = ChatbotApp.chat_tabs app ++ [tab]
        /\ ChatbotApp.tab_list app'
           = ChatbotApp.tab_list app
             ++ [ChatbotAppRest.import_title
                   (ChatbotAppRest.conversation file) basename]
        /\ ChatbotApp.current_tab_index app'
           = Z.of_nat (length (ChatbotApp.chat_tabs app))
        /\ ChatTab.history rt' tab = ChatbotAppRest.conversation file
        /\ ChatTab.chat_worker tab = None
        /\ ChatTab.tab_index tab
           = Z.of_nat (length (ChatbotApp.chat_tabs app))
        /\ lists rt' = lists rt ++ [[]; ChatbotAppRest.conversation file]
        /\ threads rt' = threads rt
        /\ snd out
           = information "Import Successful"
               ("Chat history imported from " +:+ filename)
  | true, [] =>
      out = (rt, app,
             warning "Import Warning"
               "No messages found in the imported file.")
  | false, _ =>
      out = (rt, app,
             critical "Import Error"
               ("Failed to import chat: " +:+ ChatbotAppRest.error file))
  end.
Proof.
  intros out rt' app'. subst rt' app' out.
  unfold ChatbotAppRest.import_chat.
  destruct (ChatbotAppRest.success file); cbn [negb]; [|reflexivity].
  destruct (ChatbotAppRest.conversation file) as [|m0 msgs]; [reflexivity|].
  set (imported := m0 :: msgs).
  unfold ChatbotApp.create_new_chat_tab, ChatTab.__init__.
  cbn [ChatbotApp.chat_tabs ChatbotApp.tab_list ChatbotApp.current_tab_index].
  set (tab0 := ChatTab.set_tab_index _ _).
  set (rt1 := set_lists _ rt).
  replace (length (ChatbotApp.chat_tabs app ++ [tab0]) - 1)
    with (length (ChatbotApp.chat_tabs app))
    by (rewrite length_app; cbn; lia).
  rewrite list_lookup_middle by reflexivity.
  destruct (load_conversation_history_lists imported rt1 tab0 [] eq_refl)
    as [Hlists Hconv].
  pose proof (load_conversation_history_tab_index imported rt1 tab0) as Hidx.
  destruct (load_conversation_history_frame imported rt1 tab0)
    as [Hthreads Hworker].
  destruct (ChatTab.load_conversation_history imported rt1 tab0)
    as [rt2 tab2].
  cbn [fst snd] in *.
  assert (Hrt2 : lists rt2 = lists rt ++ [[]; imported]).
  { rewrite Hlists. subst rt1 tab0. cbn.
    rewrite <- (Nat.add_0_r (length (lists rt))) at 1.
    rewrite alter_app_r. cbn. now rewrite <- app_assoc. }
  exists tab2.
  cbn [ChatbotApp.chat_tabs ChatbotApp.tab_list ChatbotApp.current_tab_index].
  repeat split.
  - rewrite <- (Nat.add_0_r (length (ChatbotApp.chat_tabs app))) at 1.
    now rewrite insert_app_r.
  - rewrite length_app. cbn. lia.
  - unfold ChatTab.history. rewrite Hconv, Hrt2. subst rt1. cbn.
    change (lists rt ++ [[]; imported])
      with (lists rt ++ [[]] ++ [imported]).
    rewrite app_assoc, list_lookup_middle by reflexivity. reflexivity.
  - rewrite Hworker. reflexivity.
  - rewrite Hidx. reflexivity.
  - exact Hrt2.
  - rewrite Hthreads. reflexivity.
Qed.

(** ** Importing text and Markdown files *)

Section Importers.
Import ChatExport.

Lemma toggle_parity (n : nat) :
  toggle (if Nat.even n then "user" else "assistant")
  = if Nat.even (S n) then "user" else "assistant".
Proof.
  rewrite Nat.even_succ, <- Nat.negb_even.
  now destruct (Nat.even n).
Qed.

Lemma alternates_snoc (h : list Message.t) (m : Message.t) :
  alternates h ->
  Message.role m = (if Nat.even (length h) then "user" else "assistant") ->
  alternates (h ++ [m]).
Proof.
  intros Hh Hm i x Hi.
  destruct (decide (i < length h)) as [Hlt|Hge].
  - rewrite lookup_app_l in Hi by exact Hlt. now apply Hh.
  - rewrite lookup_app_r in Hi by lia.
    destruct (i - length h) as [|k] eqn:Hk; [|discriminate].
    inversion Hi; subst x. replace i with (length h) by lia. exact Hm.
Qed.

(** The text loop keeps the messages alternating and [current_role] in
    step with their number. *)
Lemma txt_loop (lines : list string) :
  forall role content messages,
    alternates messages ->
    role = (if Nat.even (length messages) then "user" else "assistant") ->
    let '(role', _, messages') :=
      fold_left txt_line lines (role, content, messages) in
    alternates messages'
    /\ role' = (if Nat.even (length messages') then "user" else "assistant").
Proof.
  induction lines as [|line lines IH]; intros role content messages Halt Hrole;
    cbn [fold_left]; [now split|].
  unfold txt_line at 2.
  destruct content as [|c content].
  - now apply IH.
  - destruct (Str.truthy (Str.strip line)); cbn [negb].
    + now apply IH.
    + apply IH.
      * now apply alternates_snoc.
      * rewrite length_app, Nat.add_1_r, Hrole. apply toggle_parity.
Qed.

(** The Markdown loop: the headings met so far are the roles of the
    messages, then the open one; nothing is collected exactly when the
    last line was a heading; before the first heading there is no
    message. *)
Lemma md_loop (lines : list string) :
  forall seen role content messages,
    omap heading seen = map Message.role messages ++ option_role role ->
    (role <> None ->
     (content = [] <-> exists l, last seen = Some l /\ heading l <> None)) ->
    (role = None -> messages = []) ->
    let '(role', content', messages') :=
      fold_left md_line lines (role, content, messages) in
    omap heading (seen ++ lines)
    = map Message.role messages' ++ option_role role'
    /\ (role' <> None ->
        (content' = []
         <-> exists l, last (seen ++ lines) = Some l /\ heading l <> None))
    /\ (role' = None -> messages' = []).
Proof.
  induction lines as [|line lines IH];
    intros seen role content messages Hroles Hopen Hnone; cbn [fold_left].
  - rewrite app_nil_r. repeat split; auto; now apply Hopen.
  - replace (seen ++ line :: lines) with ((seen ++ [line]) ++ lines)
      by now rewrite <- app_assoc.
    unfold md_line at 2. destruct (heading line) as [r|] eqn:Hline.
    + apply IH.
      * rewrite omap_app, Hroles. cbn. rewrite Hline. cbn.
        destruct role as [r0|]; cbn.
        -- now rewrite map_app.
        -- now rewrite app_nil_r.
      * intros _. split; [|reflexivity]. intros _. exists line.
        rewrite last_snoc. split; [reflexivity|congruence].
      * discriminate.
    + apply IH.
      * rewrite omap_app, Hroles. cbn. rewrite Hline. cbn.
        now rewrite app_nil_r.
      * intros _. split.
        -- intros Hnil. destruct content; discriminate.
        -- intros (l & Hl & Hh). rewrite last_snoc in Hl.
           inversion Hl; subst l. congruence.
      * exact Hnone.
Qed.

End Importers.

(** X15. The importer of text files attributes the messages it finds to
    the user and the assistant in turn, starting with the user: whatever
    the file holds, the imported roles alternate from ["user"], and no
    imported message names a model. *)
Theorem import_txt_alternates (lines : list string) :
  alternates (ChatExport.import_txt lines)
  /\ Forall (fun m => Message.model m = None) (ChatExport.import_txt lines).
Proof.
  unfold ChatExport.import_txt.
  pose proof (txt_loop lines "user" [] []) as Hloop.
  assert (Hmodels : forall ls role content messages,
            Forall (fun m => Message.model m = None) messages ->
            let '(role', content', messages') :=
              fold_left ChatExport.txt_line ls (role, content, messages) in
            Forall (fun m => Message.model m = None) messages').
  { induction ls as [|line ls IH]; intros role content messages Hm;
      cbn [fold_left]; [exact Hm|].
    unfold ChatExport.txt_line at 2. destruct content as [|c content].
    - now apply IH.
    - destruct (Str.truthy (Str.strip line)); cbn [negb]; apply IH;
        [exact Hm|].
      apply Forall_app. split; [exact Hm|]. now constructor. }
  specialize (Hmodels lines "user" [] [] (List.Forall_nil _)).
  destruct (fold_left ChatExport.txt_line lines ("user", [], []))
    as [[role content] messages].
  destruct Hloop as [Halt Hrole]; [intros i m Hi; discriminate|reflexivity|].
  destruct content as [|c content]; [now split|]. split.
  - apply alternates_snoc; assumption.
  - apply Forall_app. split; [exact Hmodels|]. now constructor.
Qed.

(** X16. The importer of Markdown files makes one message per heading
    line ["### User:"] or ["### Assistant:"], in order, with the role the
    heading names; only a heading on the very last line is dropped.  Text
    before the first heading is ignored, so a file with no such heading
    (as a file written by the Markdown export, whose headings start with
    ["## "]) imports as an empty conversation. *)
Theorem import_md_follows_headings (lines : list string) :
  map Message.role (ChatExport.import_md lines)
  = match last lines with
    | Some l =>
        match ChatExport.heading l with
        | Some _ => removelast (omap ChatExport.heading lines)
        | None => omap ChatExport.heading lines
        end
    | None => []
    end
  /\ (Forall (fun l => ChatExport.heading l = None) lines ->
      ChatExport.import_md lines = []).
Proof.
  assert (Hroles :
    map Message.role (ChatExport.import_md lines)
    = match last lines with
      | Some l =>
          match ChatExport.heading l with
          | Some _ => removelast (omap ChatExport.heading lines)
          | None => omap ChatExport.heading lines
          end
      | None => []
      end).
  { unfold ChatExport.import_md.
    pose proof (md_loop lines [] None [] [] eq_refl) as Hloop.
    destruct (fold_left ChatExport.md_line lines (None, [], []))
      as [[role content] messages].
    destruct Hloop as (Hh & Hopen & Hnone); [congruence|reflexivity|].
    cbn [app] in Hh, Hopen.
    destruct role as [r|].
    - assert (Hc : content = []
                   <-> exists l, last lines = Some l
                                 /\ ChatExport.heading l <> None)
        by (apply Hopen; congruence).
      destruct content as [|c content].
      + destruct Hc as [Hc _]. destruct (Hc eq_refl) as (l & Hl & Hne).
        rewrite Hl. destruct (ChatExport.heading l); [|congruence].
        rewrite Hh. cbn. now rewrite removelast_last.
      + rewrite map_app, Hh. cbn.
        destruct (last lines) as [l|] eqn:Hl.
        * destruct (ChatExport.heading l) eqn:Hhl; [|reflexivity].
          destruct Hc as [_ Hc]. discriminate Hc. exists l. split; congruence.
        * apply last_None in Hl. subst lines. destruct messages; discriminate.
    - rewrite (Hnone eq_refl) in *. cbn in Hh. rewrite Hh.
      destruct (last lines) as [l|]; [|reflexivity].
      now destruct (ChatExport.heading l). }
  split; [exact Hroles|].
  intros Hnone.
  assert (Hempty : omap ChatExport.heading lines = []).
  { clear Hroles. induction Hnone as [|l ls Hl _ IH]; [reflexivity|].
    cbn. rewrite Hl. exact IH. }
  rewrite Hempty in Hroles.
  destruct (ChatExport.import_md lines) as [|m ms]; [reflexivity|].
  destruct (last lines) as [l|]; [|discriminate].
  destruct (ChatExport.heading l); discriminate.
Qed.

Lemma import_md_follows_headings_witness :
  Forall (fun l => ChatExport.heading l = None) exported_markdown
  /\ ChatExport.import_md exported_markdown = [].
Proof.
  assert (H : Forall (fun l => ChatExport.heading l = None) exported_markdown)
    by (repeat constructor).
  split; [exact H|].
  exact (proj2 (import_md_follows_headings exported_markdown) H).
Defined.
